(** * cfs.timely: calendars, dates, time intervals and periods

    A shallow embedding of [src/cfs/timely.py].

    Scope of the embedding.
    - Time vectors are the integer ones (numpy dtype [myint], the objects
      whose [decimals] attribute is [False]): every slot is a [Z].  The
      [np.modf] splits then always give a zero fractional part, so the
      branches guarded by [fractional.sum() != 0] are not taken.
    - A masked array of shape (6,) or (1, 6) is a record of six data slots
      and six mask bits ([nomask] is the all-[false] mask).
    - A [MultiDate] holds exactly one date (shape (1, 6)), which is the case
      of [Date]; a [MultiPeriod] holds one period (shape (2, 6)), which is
      the case of [Period].  Boolean arrays of one element are [bool]s and
      multiply as 0/1.
    - Exceptions are the [Raise] outcome; [while True] loops take fuel and
      give [Timeout] when it runs out.
    - [numpy.ma.array(x, dtype=t)] does not copy when [x] already has dtype
      [t]: the new array is a view of the same buffer.  Section "objects and
      buffers" models the buffers as a store. *)

From stdpp Require Import gmap strings list.
From Stdlib Require Import ZArith QArith Lia Bool.

Local Open Scope string_scope.
Local Open Scope Z_scope.

(** ** Outcomes of a call *)

Inductive exn : Type :=
  | TimelyError (msg : string)
  | ValueError
  | IndexError
  | NotImplementedError (msg : string).

Inductive outcome (A : Type) : Type :=
  | Ok (a : A)
  | Raise (e : exn)
  | Timeout.

Arguments Ok {A} a.
Arguments Raise {A} e.
Arguments Timeout {A}.

Definition bind {A B : Type} (m : outcome A) (k : A -> outcome B) : outcome B :=
  match m with
  | Ok a => k a
  | Raise e => Raise e
  | Timeout => Timeout
  end.

Notation "'do' x <- m ; k" := (bind m (fun x => k))
  (at level 10, x name, m at level 100, k at level 200).
Notation "'do' ' p <- m ; k" := (bind m (fun x => let 'p := x in k))
  (at level 10, p pattern, m at level 100, k at level 200).

(** A Python truth value used as a number. *)
Definition b2z (b : bool) : Z := if b then 1 else 0.

(** ** Python lists *)

(** [range(a, b)] *)
Definition py_range (a b : Z) : list Z :=
  map (fun i : nat => a + Z.of_nat i) (seq 0 (Z.to_nat (b - a))).

Definition py_len {A : Type} (l : list A) : Z := Z.of_nat (length l).

(** [some_list.index(value)] *)
Fixpoint index_from (l : list Z) (value : Z) (i : Z) : outcome Z :=
  match l with
  | [] => Raise ValueError
  | x :: r => if x =? value then Ok i else index_from r value (i + 1)
  end.

Definition _index (some_list : list Z) (value : Z) : outcome Z :=
  index_from some_list value 0.

(** [some_list[item]], negative items counting from the end. *)
Definition _get_item (some_list : list Z) (item : Z) : outcome Z :=
  let n := py_len some_list in
  let k := if item <? 0 then item + n else item in
  if (k <? 0) || (n <=? k) then Raise IndexError
  else match nth_error some_list (Z.to_nat k) with
       | Some x => Ok x
       | None => Raise IndexError
       end.

(** [value in some_list] *)
Definition py_in (value : Z) (some_list : list Z) : bool :=
  existsb (Z.eqb value) some_list.

(** ** Built-in functions for calendar definition *)

(** *** Cycles in year *)

Definition months_of_gregorian_calendar (year : Z) : list (Z * string) :=
  [(1, "January"); (2, "February"); (3, "March"); (4, "April"); (5, "May");
   (6, "June"); (7, "July"); (8, "August"); (9, "September"); (10, "October");
   (11, "November"); (12, "December")].

Definition temperate_seasons (year : Z) : list (Z * string) :=
  [(1, "Spring"); (2, "Summer"); (3, "Autumn"); (4, "Winter")].

Definition year_cycle (year : Z) : list (Z * string) := [(1, "Year")].

(** *** Days in cycle *)

Definition days_in_month_360 (month year : Z) : outcome (list Z) :=
  Ok (py_range 1 31).

Definition days_in_months_365 : list Z := [31; 28; 31; 30; 31; 30; 31; 31; 30; 31; 30; 31].
Definition days_in_months_366 : list Z := [31; 29; 31; 30; 31; 30; 31; 31; 30; 31; 30; 31].

Definition days_in_month_365 (month year : Z) : outcome (list Z) :=
  if (month <? 1) || (12 <? month) then
    Raise (TimelyError "Month value has to be between 1 and 12.")
  else
    do n <- _get_item days_in_months_365 (month - 1);
    Ok (py_range 1 (n + 1)).

Definition days_in_month_366 (month year : Z) : outcome (list Z) :=
  if (month <? 1) || (12 <? month) then
    Raise (TimelyError "Month value has to be between 1 and 12.")
  else
    do n <- _get_item days_in_months_366 (month - 1);
    Ok (py_range 1 (n + 1)).

Definition days_in_month_julian (month year : Z) : outcome (list Z) :=
  if year mod 4 =? 0 then days_in_month_366 month year
  else days_in_month_365 month year.

Definition days_in_month_proleptic_gregorian (month year : Z) : outcome (list Z) :=
  if (year mod 100 =? 0) && negb (year mod 400 =? 0) then days_in_month_365 month year
  else days_in_month_julian month year.

Definition days_in_month_gregorian (month year : Z) : outcome (list Z) :=
  if (1582 <? year) || ((year =? 1582) && (10 <? month)) then
    days_in_month_proleptic_gregorian month year
  else if (year =? 1582) && (month =? 10) then
    Ok [1; 2; 3; 4; 15; 16; 17; 18; 19; 20; 21; 22; 23; 24; 25; 26; 27; 28; 29; 30; 31]
  else
    days_in_month_julian month year.

Definition days_in_year_365 (cycle year : Z) : outcome (list Z) := Ok (py_range 1 366).

Definition day_in_year (cycle year : Z) : outcome (list Z) := Ok [1].

(** *** Leap year check *)

Definition is_leap_feb29 (year : Z) (fn_year_cycles : Z -> list (Z * string))
    (fn_days_in_cycle : Z -> Z -> outcome (list Z)) : outcome bool :=
  do days <- fn_days_in_cycle 2 year;
  do last <- _get_item days (-1);
  if last =? 29 then Ok true else Ok false.

(** ** class Calendar *)

Record Calendar : Type := mkCalendar {
  year_cycles : Z -> list (Z * string);
  days_in_cycle : Z -> Z -> outcome (list Z);
  fn_is_leap : option (Z -> (Z -> list (Z * string)) ->
                       (Z -> Z -> outcome (list Z)) -> outcome bool);
  alias : string;
  cycles_alias : option string
}.

(** [Calendar.__eq__] and [Calendar.__ne__]: by alias. *)
Definition Calendar_eq (self other : Calendar) : bool :=
  if String.eqb (alias self) (alias other) then true else false.

Definition Calendar_ne (self other : Calendar) : bool :=
  if negb (String.eqb (alias self) (alias other)) then true else false.

Definition Calendar_is_leap (self : Calendar) (year : Z) : outcome bool :=
  match fn_is_leap self with
  | None => Raise (TimelyError "Leap year concept not defined for this calendar.")
  | Some f =>
      do b <- f year (year_cycles self) (days_in_cycle self);
      if b then Ok true else Ok false
  end.

Definition Calendar_count_cycles_in_year (self : Calendar) (year : Z) : Z :=
  py_len (year_cycles self year).

Definition Calendar_count_days_in_cycle (self : Calendar) (cycle year : Z) : outcome Z :=
  do days <- days_in_cycle self cycle year;
  Ok (py_len days).

(** The [for cycle in range(1, len(self.year_cycles(year)) + 1)] loop. *)
Fixpoint sum_days_in_cycles (self : Calendar) (year : Z) (cycles : list Z)
    (days_in_year : Z) : outcome Z :=
  match cycles with
  | [] => Ok days_in_year
  | cycle :: rest =>
      do days <- days_in_cycle self cycle year;
      sum_days_in_cycles self year rest (days_in_year + py_len days)
  end.

Definition Calendar_count_days_in_year (self : Calendar) (year : Z) : outcome Z :=
  do _ <- days_in_cycle self 1 year;
  sum_days_in_cycles self year (py_range 1 (py_len (year_cycles self year) + 1)) 0.

Definition Calendar__ith_day_in_cycle (self : Calendar) (cycle year i : Z) : outcome Z :=
  do days <- days_in_cycle self cycle year;
  _get_item days (i - 1).

(** *** Built-in calendars *)

Definition Cal360 : Calendar :=
  mkCalendar months_of_gregorian_calendar days_in_month_360 (Some is_leap_feb29)
             "360_day" (Some "month").
Definition Cal365 : Calendar :=
  mkCalendar months_of_gregorian_calendar days_in_month_365 (Some is_leap_feb29)
             "noleap" (Some "month").
Definition Cal366 : Calendar :=
  mkCalendar months_of_gregorian_calendar days_in_month_366 (Some is_leap_feb29)
             "all_leap" (Some "month").
Definition CalJulian : Calendar :=
  mkCalendar months_of_gregorian_calendar days_in_month_julian (Some is_leap_feb29)
             "julian" (Some "month").
Definition CalProleptic : Calendar :=
  mkCalendar months_of_gregorian_calendar days_in_month_proleptic_gregorian
             (Some is_leap_feb29) "proleptic_gregorian" (Some "month").
Definition CalGregorian : Calendar :=
  mkCalendar months_of_gregorian_calendar days_in_month_gregorian (Some is_leap_feb29)
             "gregorian" (Some "month").
Definition CalYearsOnly : Calendar :=
  mkCalendar year_cycle day_in_year (Some is_leap_feb29) "years_only" None.
Definition CalMonthsOnly : Calendar :=
  mkCalendar months_of_gregorian_calendar day_in_year None "months_only" (Some "month").
Definition CalSeasons : Calendar :=
  mkCalendar temperate_seasons day_in_year (Some is_leap_feb29) "seasons" (Some "season").
Definition Cal365NoMonths : Calendar :=
  mkCalendar year_cycle days_in_year_365 (Some is_leap_feb29) "365_days_no_months" None.

(** ** Masked time vectors *)

Record TimeVector : Type := mkTV {
  year : Z; cycle : Z; day : Z; hour : Z; minute : Z; second : Z
}.

Record MaskVector : Type := mkMask {
  mask_year : bool; mask_cycle : bool; mask_day : bool;
  mask_hour : bool; mask_minute : bool; mask_second : bool
}.

(** A masked array of shape (6,) or (1, 6). *)
Record MaskedArray : Type := mkMA { data : TimeVector; mask : MaskVector }.

Definition nomask : MaskVector := mkMask false false false false false false.

(** [self.times[..., i] = v] on the data. *)
Definition set_year (v : Z) (t : TimeVector) : TimeVector :=
  mkTV v (cycle t) (day t) (hour t) (minute t) (second t).
Definition set_cycle (v : Z) (t : TimeVector) : TimeVector :=
  mkTV (year t) v (day t) (hour t) (minute t) (second t).
Definition set_day (v : Z) (t : TimeVector) : TimeVector :=
  mkTV (year t) (cycle t) v (hour t) (minute t) (second t).
Definition set_hour (v : Z) (t : TimeVector) : TimeVector :=
  mkTV (year t) (cycle t) (day t) v (minute t) (second t).
Definition set_minute (v : Z) (t : TimeVector) : TimeVector :=
  mkTV (year t) (cycle t) (day t) (hour t) v (second t).
Definition set_second (v : Z) (t : TimeVector) : TimeVector :=
  mkTV (year t) (cycle t) (day t) (hour t) (minute t) v.

Definition tv_list (t : TimeVector) : list Z :=
  [year t; cycle t; day t; hour t; minute t; second t].
Definition mask_list (m : MaskVector) : list bool :=
  [mask_year m; mask_cycle m; mask_day m; mask_hour m; mask_minute m; mask_second m].

Definition tv_eqb (a b : TimeVector) : bool :=
  (year a =? year b) && (cycle a =? cycle b) && (day a =? day b) &&
  (hour a =? hour b) && (minute a =? minute b) && (second a =? second b).

Definition mask_eqb (a b : MaskVector) : bool :=
  Bool.eqb (mask_year a) (mask_year b) && Bool.eqb (mask_cycle a) (mask_cycle b) &&
  Bool.eqb (mask_day a) (mask_day b) && Bool.eqb (mask_hour a) (mask_hour b) &&
  Bool.eqb (mask_minute a) (mask_minute b) && Bool.eqb (mask_second a) (mask_second b).

(** *** _conversion_to_ma

    The list branch for a flat list of numbers and [None]s: [None] becomes a
    masked 0 and the list is padded with masked 0s up to six elements.  The
    result is a one-dimensional masked array, kept here as two lists. *)

Definition _conversion_to_ma (time_vector : list (option Z)) : list Z * list bool :=
  match time_vector with
  | [] => ([0; 0; 0; 0; 0; 0], [true; true; true; true; true; true])
  | _ =>
      let new_time := map (fun x => match x with Some v => v | None => 0 end) time_vector in
      let mask := map (fun x => match x with Some _ => false | None => true end) time_vector in
      let pad := (6 - length time_vector)%nat in
      ((new_time ++ repeat 0 pad)%list, (mask ++ repeat true pad)%list)
  end.

(** *** _CollectionTime.__init__

    A one-dimensional array of six elements becomes the single row of a
    (1, 6) array; any other one-dimensional array is refused. *)

Definition _CollectionTime_init (times : list Z * list bool) : outcome MaskedArray :=
  match times with
  | ([y; c; d; h; mi; s], [my; mc; md; mh; mmi; ms]) =>
      Ok (mkMA (mkTV y c d h mi s) (mkMask my mc md mh mmi ms))
  | _ => Raise (TimelyError "_CollectionTime needs at least two dimensions.")
  end.

(** [self.times.count()] *)
Definition count (times : MaskedArray) : Z :=
  py_len (filter (fun b : bool => negb b) (mask_list (mask times))).

(** The [resolution] attribute set by [_CollectionTime.__init__]: the index
    of the last unmasked slot plus one. *)
Definition last_unmasked (m : MaskVector) : Z :=
  if negb (mask_second m) then 6 else if negb (mask_minute m) then 5
  else if negb (mask_hour m) then 4 else if negb (mask_day m) then 3
  else if negb (mask_cycle m) then 2 else if negb (mask_year m) then 1 else 0.

Definition resolution (times : MaskedArray) : Z :=
  if count times =? 0 then 0
  else if count times =? 6 then 6
  else last_unmasked (mask times).

(** [_CollectionTime.__eq__] *)
Definition _CollectionTime_eq (self other : MaskedArray) : bool :=
  if mask_eqb (mask self) (mask other) then
    if tv_eqb (data self) (data other) then true else false
  else false.

(** ** class MultiDate (one date) and class Date *)

(** [resolution] is deleted by [MultiDate.__init__], so the object keeps the
    time vector, the calendar and the [decimals] flag. *)
Record MultiDate : Type := mkMultiDate {
  times : MaskedArray;
  calendars : Calendar;
  decimals : bool
}.

Definition gap (m : MaskVector) : bool :=
  (mask_year m && negb (mask_cycle m)) || (mask_cycle m && negb (mask_day m)) ||
  (mask_day m && negb (mask_hour m)) || (mask_hour m && negb (mask_minute m)) ||
  (mask_minute m && negb (mask_second m)).

(** [(self.times[..., 1:6] < 0).sum()]: masked slots do not count. *)
Definition negative_value (t : TimeVector) (m : MaskVector) : bool :=
  (negb (mask_cycle m) && (cycle t <? 0)) || (negb (mask_day m) && (day t <? 0)) ||
  (negb (mask_hour m) && (hour t <? 0)) || (negb (mask_minute m) && (minute t <? 0)) ||
  (negb (mask_second m) && (second t <? 0)).

(** [MultiDate.__init__].  The calendar queries are vectorized calls on the
    year slot: their results are masked where the year is, so a first day
    stored from them is stored masked, and the cycle test on them counts
    nothing. *)
Definition MultiDate_init (times0 : MaskedArray) (cal : Calendar) : outcome MultiDate :=
  let t := data times0 in
  let m := mask times0 in
  if gap m then Raise (TimelyError "Unmasked element following a masked element.")
  else if negative_value t m then Raise (TimelyError "Negative value in date.")
  else
    let t := if mask_cycle m then set_cycle 1 t else t in
    let cycles_in_year := Calendar_count_cycles_in_year cal (year t) in
    do days <- days_in_cycle cal (cycle t) (year t);
    do first <- (if mask_day m then _get_item days 0 else Ok (day t));
    let t := set_day first t in
    let new_mask_day := mask_day m && mask_year m in
    if negb (mask_year m) && ((cycle t <? 1) || (cycles_in_year <? cycle t)) then
      Raise (TimelyError "Invalid cycle value.")
    else
      match _index days (day t) with
      | Ok _ =>
          let t := if mask_hour m then set_hour 0 t else t in
          if 24 <=? hour t then Raise (TimelyError "Invalid hour value.")
          else
            let t := if mask_minute m then set_minute 0 t else t in
            if 60 <=? minute t then Raise (TimelyError "Invalid minute value.")
            else
              let t := if mask_second m then set_second 0 t else t in
              if 60 <=? second t then Raise (TimelyError "Invalid second value.")
              else
                Ok (mkMultiDate
                      (mkMA t (mkMask (mask_year m) false new_mask_day false false false))
                      cal false)
      | _ => Raise (TimelyError "Invalid day value.")
      end.

(** [Date(time, calendar)] on a list. *)
Definition Date (time : list (option Z)) (calendar : Calendar) : outcome MultiDate :=
  do times0 <- _CollectionTime_init (_conversion_to_ma time);
  MultiDate_init times0 calendar.

(** A list of numbers, none of them [None]. *)
Definition nums (l : list Z) : list (option Z) := map Some l.

(** ** class MultiDeltaT and class DeltaT *)

(** [MultiDeltaT.__init__]: masked slots are set to 0, which unmasks them. *)
Definition DeltaT (time : list (option Z)) : outcome TimeVector :=
  do times0 <- _CollectionTime_init (_conversion_to_ma time);
  Ok (data times0).


(** [MultiDeltaT.__nonzero__] *)
Definition DeltaT_nonzero (self : TimeVector) : bool :=
  if year self + cycle self + day self + hour self + minute self + second self =? 0
  then false else true.

Definition one_second : TimeVector := mkTV 0 0 0 0 0 1.
Definition one_minute : TimeVector := mkTV 0 0 0 0 1 0.
Definition one_day : TimeVector := mkTV 0 0 1 0 0 0.
Definition one_cycle : TimeVector := mkTV 0 1 0 0 0 0.
Definition one_year : TimeVector := mkTV 1 0 0 0 0 0.

(** ** MultiDate: calendar queries on the date *)

Section MultiDateArithmetic.

Variable cal : Calendar.

Definition MultiDate_count_cycles_in_year (t : TimeVector) : Z :=
  Calendar_count_cycles_in_year cal (year t).

Definition MultiDate_count_days_in_cycle (t : TimeVector) : outcome Z :=
  Calendar_count_days_in_cycle cal (cycle t) (year t).

Definition MultiDate_count_days_in_year (t : TimeVector) : outcome Z :=
  Calendar_count_days_in_year cal (year t).

Definition MultiDate_ith_day_in_cycle (t : TimeVector) (indices : Z) : outcome Z :=
  Calendar__ith_day_in_cycle cal (cycle t) (year t) indices.

Definition MultiDate_day_number_in_cycle (t : TimeVector) : outcome Z :=
  do days <- days_in_cycle cal (cycle t) (year t);
  do i <- _index days (day t);
  Ok (i + 1).

(** The [for i in range(1, self.times[..., 1].max())] loop of
    [day_number_in_year]. *)
Fixpoint day_number_loop (t : TimeVector) (cycles : list Z) (acc : Z) : outcome Z :=
  match cycles with
  | [] => Ok acc
  | i :: rest =>
      let flag_over := MultiDate_count_cycles_in_year t <? i in
      let this_cycle := i - (i - 1) * b2z flag_over in
      do n <- Calendar_count_days_in_cycle cal this_cycle (year t);
      day_number_loop t rest (acc + n * b2z (i <? cycle t))
  end.

Definition MultiDate_day_number_in_year (t : TimeVector) : outcome Z :=
  do acc <- day_number_loop t (py_range 1 (cycle t)) 0;
  do n <- MultiDate_day_number_in_cycle t;
  Ok (acc + n).

(** ** MultiDate: arithmetic, in place on the time vector *)

Definition MultiDate_add_years (t : TimeVector) (integral : Z) : TimeVector :=
  set_year (year t + integral) t.

(** The [while True] loop of [add_cycles]; the state is the time vector,
    the remaining increment and the underflow flag of the previous round. *)
Fixpoint add_cycles_loop (fuel : nat) (t : TimeVector) (integral : Z) (flag_under : bool)
    : outcome (TimeVector * Z * bool * Z) :=
  match fuel with
  | O => Timeout
  | S fuel' =>
      let cycles_in_year := MultiDate_count_cycles_in_year t in
      let integral := integral + cycles_in_year * b2z flag_under in
      let flag_over := cycles_in_year <=? integral in
      let flag_under := integral <? 0 in
      let t := set_year (year t + b2z flag_over - b2z flag_under) t in
      let integral := integral - cycles_in_year * b2z flag_over in
      if negb (flag_over || flag_under) then Ok (t, integral, flag_under, cycles_in_year)
      else add_cycles_loop fuel' t integral flag_under
  end.

Definition MultiDate_add_cycles (fuel : nat) (t : TimeVector) (integral : Z)
    : outcome TimeVector :=
  let cycles_in_year := MultiDate_count_cycles_in_year t in
  let max_add := cycles_in_year - cycle t in
  let max_sub := 1 - cycle t in
  let flag_over := max_add <? integral in
  let flag_under := integral <? max_sub in
  let flag_either := flag_over || flag_under in
  let t := set_year (year t + b2z flag_over) t in
  let flag_neg := integral <? 0 in
  let warp1 := (cycle t - 1) * b2z flag_either in
  let warp2 := b2z flag_neg * (1 - b2z flag_under) * integral in
  let t := set_cycle (cycle t - warp1 + warp2) t in
  let warp3 := b2z flag_over * (max_add + 1) in
  let integral := integral - warp3 - b2z flag_under * max_sub - warp2 in
  do '(t, integral, flag_under, cycles_in_year) <- add_cycles_loop fuel t integral false;
  let integral := integral + cycles_in_year * b2z flag_under in
  Ok (set_cycle (cycle t + integral) t).

(** First [while True] loop of [add_days]: whole years. *)
Fixpoint add_days_years_loop (fuel : nat) (t : TimeVector) (integral days_in_year : Z)
    (flag_under : bool) : outcome (TimeVector * Z) :=
  match fuel with
  | O => Timeout
  | S fuel' =>
      let flag_over := days_in_year <=? integral in
      let flag_neg := integral <? 0 in
      let flag_either := flag_over || (flag_neg && flag_under) in
      let t := set_year (year t + b2z flag_over - b2z (flag_under && flag_neg)) t in
      do first_day_in_first_cycle <- Calendar__ith_day_in_cycle cal 1 (year t) 1;
      let warp1 := (day t - first_day_in_first_cycle) * b2z flag_either in
      let t := set_day (day t - warp1) t in
      let warp1 := b2z flag_over * days_in_year in
      do days_in_year <- MultiDate_count_days_in_year t;
      let integral := integral - warp1 - b2z (flag_neg && flag_under) * days_in_year in
      if negb (flag_over || (flag_under && flag_neg)) then Ok (t, integral)
      else add_days_years_loop fuel' t integral days_in_year flag_under
  end.

(** Second [while True] loop of [add_days]: whole cycles. *)
Fixpoint add_days_cycles_loop (fuel : nat) (t : TimeVector) (integral days_in_cycle0 : Z)
    (flag_under : bool) : outcome (TimeVector * Z) :=
  match fuel with
  | O => Timeout
  | S fuel' =>
      let flag_over := days_in_cycle0 <=? integral in
      let flag_neg := integral <? 0 in
      let flag_either := flag_over || (flag_neg && flag_under) in
      let t := set_cycle (cycle t + b2z flag_over - b2z (flag_under && flag_neg)) t in
      do first_day_in_cycle <- MultiDate_ith_day_in_cycle t 1;
      let warp1 := (day t - first_day_in_cycle) * b2z flag_either in
      let t := set_day (day t - warp1) t in
      let warp1 := b2z flag_over * days_in_cycle0 in
      do days_in_cycle1 <- MultiDate_count_days_in_cycle t;
      let integral := integral - warp1 + b2z (flag_neg && flag_under) * days_in_cycle1 in
      if negb (flag_over || (flag_under && flag_neg)) then Ok (t, integral)
      else add_days_cycles_loop fuel' t integral days_in_cycle1 flag_under
  end.

Definition MultiDate_add_days (fuel : nat) (t : TimeVector) (integral : Z)
    : outcome TimeVector :=
  (* to the first day of a year *)
  do days_in_year <- MultiDate_count_days_in_year t;
  do days_numbers <- MultiDate_day_number_in_year t;
  let max_add := days_in_year - days_numbers in
  let max_sub := 1 - days_numbers in
  let flag_over := max_add <? integral in
  let flag_under := integral <? max_sub in
  let flag_either := flag_over || flag_under in
  let t := set_year (year t + b2z flag_over - b2z flag_under) t in
  let warp1 := (cycle t - 1) * b2z flag_either in
  let t := set_cycle (cycle t - warp1) t in
  do first_day_in_first_cycle <- Calendar__ith_day_in_cycle cal 1 (year t) 1;
  let warp1 := (day t - first_day_in_first_cycle) * b2z flag_either in
  let t := set_day (day t - warp1) t in
  do days_in_year <- MultiDate_count_days_in_year t;
  let integral := integral - b2z flag_over * (max_add + 1)
                  - b2z flag_under * (max_sub - days_in_year) in
  do '(t, integral) <- add_days_years_loop fuel t integral days_in_year flag_under;
  (* to the first day of a cycle *)
  do days_in_cycle0 <- MultiDate_count_days_in_cycle t;
  do days_numbers <- MultiDate_day_number_in_cycle t;
  let max_add := days_in_cycle0 - days_numbers in
  let max_sub := 1 - days_numbers in
  let flag_over := max_add <? integral in
  let flag_under := integral <? max_sub in
  let flag_either := flag_over || flag_under in
  let t := set_cycle (cycle t + b2z flag_over - b2z flag_under) t in
  do first_day_in_cycle <- MultiDate_ith_day_in_cycle t 1;
  let warp1 := (day t - first_day_in_cycle) * b2z flag_either in
  let t := set_day (day t - warp1) t in
  do days_in_cycle0 <- MultiDate_count_days_in_cycle t;
  let integral := integral - b2z flag_over * (max_add + 1)
                  - b2z flag_under * (max_sub - days_in_cycle0) in
  do '(t, integral) <- add_days_cycles_loop fuel t integral days_in_cycle0 flag_under;
  (* the day itself *)
  do days_numbers <- MultiDate_day_number_in_cycle t;
  let new_day_numbers := days_numbers + integral in
  do new_day_values <- MultiDate_ith_day_in_cycle t new_day_numbers;
  Ok (set_day new_day_values t).

Definition MultiDate_add_hours (fuel : nat) (t : TimeVector) (integral : Z)
    : outcome TimeVector :=
  let flag_over := 24 - hour t <=? integral in
  let flag_under := integral <? - hour t in
  let overflow := flag_over || flag_under in
  do t <- (if overflow then MultiDate_add_days fuel t ((integral + hour t) / 24) else Ok t);
  let warp := b2z overflow * (- hour t + (integral + hour t) mod 24) in
  Ok (set_hour (hour t + (1 - b2z overflow) * integral + warp) t).

Definition MultiDate_add_minutes (fuel : nat) (t : TimeVector) (integral : Z)
    : outcome TimeVector :=
  let flag_over := 60 - minute t <=? integral in
  let flag_under := integral <? - minute t in
  let overflow := flag_over || flag_under in
  do t <- (if overflow then MultiDate_add_hours fuel t ((integral + minute t) / 60) else Ok t);
  let warp := b2z overflow * (- minute t + (integral + minute t) mod 60) in
  Ok (set_minute (minute t + (1 - b2z overflow) * integral + warp) t).

(** [threshold = 0.001]: on whole seconds, [new_seconds < threshold] is
    [new_seconds <= 0] and [new_seconds > 60.0 - threshold] is
    [new_seconds >= 60]. *)
Definition MultiDate_add_seconds (fuel : nat) (t : TimeVector) (increments : Z)
    : outcome TimeVector :=
  let new_seconds := second t + increments in
  let flag_over := 60 <=? new_seconds in
  let flag_under := new_seconds <? 0 in
  let overflow := flag_over || flag_under in
  do t <- (if overflow then MultiDate_add_minutes fuel t (new_seconds / 60) else Ok t);
  let t1 := b2z flag_over * (- new_seconds + new_seconds mod 60) in
  let t2 := b2z flag_under * (- new_seconds + new_seconds mod 60) in
  let new_seconds := new_seconds + t1 + t2 in
  let flag_threshold_under := new_seconds <=? 0 in
  let flag_threshold_over := 60 <=? new_seconds in
  let new_seconds := if flag_threshold_under || flag_threshold_over then 0 else new_seconds in
  do t <- MultiDate_add_minutes fuel t (b2z flag_threshold_over);
  Ok (set_second new_seconds t).

(** The six steps of [MultiDate.__add__] on the time vector of the new
    object: years, cycles, days, hours, minutes, seconds. *)
Definition add_steps (fuel : nat) (t : TimeVector) (multideltat : TimeVector)
    : outcome TimeVector :=
  let t := MultiDate_add_years t (year multideltat) in
  do t <- MultiDate_add_cycles fuel t (cycle multideltat);
  do t <- MultiDate_add_days fuel t (day multideltat);
  do t <- MultiDate_add_hours fuel t (hour multideltat);
  do t <- MultiDate_add_minutes fuel t (minute multideltat);
  MultiDate_add_seconds fuel t (second multideltat).

End MultiDateArithmetic.

(** ** MultiDate: operators *)

(** [MultiDate.__add__]: the new object is built by [MultiDate(self.times,
    self.calendars)], which validates the time vector again, and is then
    stepped in place.  The slots are overwritten with values computed from
    themselves, so the mask is the one the constructor left. *)
Definition MultiDate__add__ (fuel : nat) (self : MultiDate) (multideltat : TimeVector)
    : outcome MultiDate :=
  do new_mdate <- MultiDate_init (times self) (calendars self);
  do t <- add_steps (calendars new_mdate) fuel (data (times new_mdate)) multideltat;
  Ok (mkMultiDate (mkMA t (mask (times new_mdate))) (calendars new_mdate) false).


(** [MultiDate.__eq__] *)
Definition MultiDate__eq__ (self other : MultiDate) : bool :=
  if _CollectionTime_eq (times self) (times other) &&
     Calendar_eq (calendars self) (calendars other)
  then true else false.

(** The slot-by-slot chains of the four order operators, on the data. *)
Definition gt_chain (a b : TimeVector) : bool :=
  let warp := second b <? second a in
  let warp := (minute a =? minute b) && warp in
  let warp := (minute b <? minute a) || warp in
  let warp := (hour a =? hour b) && warp in
  let warp := (hour b <? hour a) || warp in
  let warp := (day a =? day b) && warp in
  let warp := (day b <? day a) || warp in
  let warp := (cycle a =? cycle b) && warp in
  let warp := (cycle b <? cycle a) || warp in
  let warp := (year a =? year b) && warp in
  (year b <? year a) || warp.

Definition lt_chain (a b : TimeVector) : bool :=
  let warp := second a <? second b in
  let warp := (minute a =? minute b) && warp in
  let warp := (minute a <? minute b) || warp in
  let warp := (hour a =? hour b) && warp in
  let warp := (hour a <? hour b) || warp in
  let warp := (day a =? day b) && warp in
  let warp := (day a <? day b) || warp in
  let warp := (cycle a =? cycle b) && warp in
  let warp := (cycle a <? cycle b) || warp in
  let warp := (year a =? year b) && warp in
  (year a <? year b) || warp.

Definition ge_chain (a b : TimeVector) : bool :=
  let warp := second b <=? second a in
  let warp := (minute a =? minute b) && warp in
  let warp := (minute b <? minute a) || warp in
  let warp := (hour a =? hour b) && warp in
  let warp := (hour b <? hour a) || warp in
  let warp := (day a =? day b) && warp in
  let warp := (day b <? day a) || warp in
  let warp := (cycle a =? cycle b) && warp in
  let warp := (cycle b <? cycle a) || warp in
  let warp := (year a =? year b) && warp in
  (year b <? year a) || warp.

Definition le_chain (a b : TimeVector) : bool :=
  let warp := second a <=? second b in
  let warp := (minute a =? minute b) && warp in
  let warp := (minute a <? minute b) || warp in
  let warp := (hour a =? hour b) && warp in
  let warp := (hour a <? hour b) || warp in
  let warp := (day a =? day b) && warp in
  let warp := (day a <? day b) || warp in
  let warp := (cycle a =? cycle b) && warp in
  let warp := (cycle a <? cycle b) || warp in
  let warp := (year a =? year b) && warp in
  (year a <? year b) || warp.

(** What a comparison gives back: the value and the warnings it issued. *)
Record compared : Type := mkCompared { value : bool; warnings : list string }.

Definition different_calendars_warning : string :=
  "__gt__ using different calendars, you better know what you are doing...".

(** The common frame of [MultiDate.__gt__], [__lt__], [__ge__], [__le__]
    with a [Date] as [other]: [other] is rebuilt with [MultiDate(mtimes,
    other.calendar)], differing calendars are warned about, and the chain
    is evaluated. *)
Definition MultiDate_compare (chain : TimeVector -> TimeVector -> bool)
    (self other : MultiDate) : outcome compared :=
  do other <- MultiDate_init (times other) (calendars other);
  let w := if negb (Calendar_eq (calendars self) (calendars other))
           then [different_calendars_warning] else [] in
  Ok (mkCompared (chain (data (times self)) (data (times other))) w).

Definition MultiDate__gt__ := MultiDate_compare gt_chain.
Definition MultiDate__lt__ := MultiDate_compare lt_chain.
Definition MultiDate__ge__ := MultiDate_compare ge_chain.
Definition MultiDate__le__ := MultiDate_compare le_chain.

(** ** class Date2: the order operators on masked time vectors

    These are also the bodies of [Date.__gt_obsolete_] and its three
    siblings.  A slot takes part when it is unmasked on both sides and its
    two values differ; the first such slot decides. *)

Definition slots (a : MaskedArray) : list (Z * bool) :=
  combine (tv_list (data a)) (mask_list (mask a)).

Fixpoint first_differing (a b : list (Z * bool)) : option (Z * Z) :=
  match a, b with
  | (x, mx) :: a', (y, my) :: b' =>
      if negb mx && negb my && negb (x =? y) then Some (x, y)
      else first_differing a' b'
  | _, _ => None
  end.

Definition Date2_compare (strict_gt : bool) (when_equal : bool)
    (self other : MaskedArray) (self_calendar other_calendar : Calendar) : outcome bool :=
  if Calendar_eq self_calendar other_calendar then
    match first_differing (slots self) (slots other) with
    | None =>
        if count self =? count other then Ok when_equal
        else Raise (TimelyError "Ambiguous operations.")
    | Some (x, y) =>
        if (if strict_gt then y <? x else x <? y) then Ok true else Ok false
    end
  else Raise (NotImplementedError "Different calendars.").

Definition Date2__gt__ := Date2_compare true false.
Definition Date2__ge__ := Date2_compare true true.
Definition Date2__lt__ := Date2_compare false false.
Definition Date2__le__ := Date2_compare false true.

(** ** Objects and buffers

    A [MultiDate] object refers to the buffer of its [times] array.
    [MultiDate(self.times, self.calendars)] hands the array itself to
    [_conversion_to_ma], which returns a masked array untouched, and
    [ma.array(self.times, dtype=myint)] on an array of dtype [myint] is a
    view of the same buffer: the object built by [__add__] writes where the
    operand reads. *)

Record DateObject : Type := mkDateObject {
  times_buffer : positive;
  object_calendars : Calendar
}.

Definition fresh (store : gmap positive MaskedArray) : positive :=
  Pos.succ (fold_right Pos.max 1%positive (map fst (map_to_list store))).

(** [Date(time, calendar)] on a list: a new buffer. *)
Definition new_Date (store : gmap positive MaskedArray) (time : list (option Z))
    (calendar : Calendar) : outcome (gmap positive MaskedArray * DateObject) :=
  do d <- Date time calendar;
  let b := fresh store in
  Ok (<[b := times d]> store, mkDateObject b calendar).

(** The value an object currently shows. *)
Definition read (store : gmap positive MaskedArray) (self : DateObject) : option MaskedArray :=
  store !! times_buffer self.

(** [self + multideltat] on objects. *)
Definition MultiDate__add__object (fuel : nat) (store : gmap positive MaskedArray)
    (self : DateObject) (multideltat : TimeVector)
    : outcome (gmap positive MaskedArray * DateObject) :=
  match store !! times_buffer self with
  | None => Raise (TimelyError "no such object")
  | Some buffer =>
      do new_mdate <- MultiDate__add__ fuel (mkMultiDate buffer (object_calendars self) false)
                                       multideltat;
      Ok (<[times_buffer self := times new_mdate]> store,
          mkDateObject (times_buffer self) (calendars new_mdate))
  end.

(** ** class MultiPeriod (one period) and class Period *)

Record Period : Type := mkPeriod {
  initial : MaskedArray;
  final : MaskedArray;
  left_open : bool;
  right_open : bool;
  period_calendar : Calendar
}.

(** [Period.initial_date] and [Period.final_date]: a new [Date] on a row. *)
Definition initial_date (self : Period) : outcome MultiDate :=
  MultiDate_init (initial self) (period_calendar self).

Definition final_date (self : Period) : outcome MultiDate :=
  MultiDate_init (final self) (period_calendar self).

(** [Period.__init__] on the two rows of [times]; the rows are validated
    one after the other. *)
Definition Period_init (row0 row1 : MaskedArray) (left_open0 right_open0 : bool)
    (calendar : Calendar) : outcome Period :=
  do d0 <- MultiDate_init row0 calendar;
  do d1 <- MultiDate_init row1 calendar;
  let self := mkPeriod (times d0) (times d1) left_open0 right_open0 calendar in
  do i <- initial_date self;
  do f <- final_date self;
  do c <- MultiDate__ge__ i f;
  if value c then Raise (TimelyError "Initial date must precede final date.")
  else Ok self.

Definition explicit_period (initial_date0 final_date0 : MultiDate)
    (left_open0 right_open0 : bool) : outcome Period :=
  if Calendar_ne (calendars initial_date0) (calendars final_date0) then
    Raise (TimelyError "The two dates defining the period must have the same calendar.")
  else
    Period_init (times initial_date0) (times final_date0) left_open0 right_open0
                (calendars initial_date0).

(** *** Period.regular_sample (without [new_calendar]) *)

(** The [while next_date <= final_date] loop; [rows] is [multidate_times]. *)
Fixpoint regular_sample_loop (fuel : nat) (n : nat) (self : Period) (deltat : TimeVector)
    (final_date0 next_date : MultiDate) (rows : list TimeVector)
    : outcome (list TimeVector) :=
  match n with
  | O => Timeout
  | S n' =>
      do c <- MultiDate__le__ next_date final_date0;
      if value c then
        if right_open self && MultiDate__eq__ next_date final_date0 then Ok rows
        else
          let rows := (rows ++ [data (times next_date)])%list in
          do next_date <- MultiDate__add__ fuel next_date deltat;
          regular_sample_loop fuel n' self deltat final_date0 next_date rows
      else Ok rows
  end.

(** [TimeSeries(multidate_times.data, calendar)]: the rows are validated as
    unmasked time vectors. *)
Fixpoint TimeSeries (rows : list TimeVector) (calendar : Calendar)
    : outcome (list TimeVector) :=
  match rows with
  | [] => Ok []
  | r :: rest =>
      do d <- MultiDate_init (mkMA r nomask) calendar;
      do ds <- TimeSeries rest calendar;
      Ok (data (times d) :: ds)
  end.

(** [None] is the Python [None] returned for an empty sample. *)
Definition regular_sample (fuel : nat) (self : Period) (deltat : TimeVector)
    (buffer : option TimeVector) : outcome (option (list TimeVector)) :=
  do initial_date0 <-
    match buffer with
    | Some b =>
        if DeltaT_nonzero b then
          do i <- initial_date self; MultiDate__add__ fuel i b
        else initial_date self
    | None => initial_date self
    end;
  do final_date0 <- final_date self;
  do initial_date0 <-
    (if left_open self then
       do i <- initial_date self;
       if MultiDate__eq__ initial_date0 i then MultiDate__add__ fuel initial_date0 deltat
       else Ok initial_date0
     else Ok initial_date0);
  do c <- (if right_open self then MultiDate__ge__ initial_date0 final_date0
           else MultiDate__gt__ initial_date0 final_date0);
  if value c then Ok None
  else
    let rows := [data (times initial_date0)] in
    do next_date <- MultiDate__add__ fuel initial_date0 deltat;
    do rows <- regular_sample_loop fuel fuel self deltat final_date0 next_date rows;
    do series <- TimeSeries rows (period_calendar self);
    Ok (Some series).

(** *** MultiPeriod.count_days and the counts built on it *)

Section Counts.

Variable self : Period.

Let cal := period_calendar self.
Let t0 := data (initial self).
Let t1 := data (final self).

(** [for cc in range(1, warp.max() + 1)] of the initial year. *)
Fixpoint initial_year_cycles (y : Z) (ccs : list Z) (flag_initial_year : bool)
    (day_count : Z) : outcome Z :=
  match ccs with
  | [] => Ok day_count
  | cc :: rest =>
      let flag_initial_cycle := cc =? cycle t0 in
      let flag_before := cc <? cycle t0 in
      do days_in_cycle0 <- Calendar_count_days_in_cycle cal cc y;
      do n0 <- MultiDate_day_number_in_cycle cal t0;
      do n1 <- MultiDate_day_number_in_cycle cal t1;
      let w1 := b2z flag_initial_cycle * (n0 - 1) in
      let w2 := b2z flag_before * days_in_cycle0 in
      initial_year_cycles y rest flag_initial_year
        (day_count - b2z flag_initial_year * (w1 + w2))
  end.

(** [for cc in range(warp1.min(), warp2.max() + 1)] of the final year. *)
Fixpoint final_year_cycles (y : Z) (ccs : list Z) (flag_final_year : bool)
    (day_count : Z) : outcome Z :=
  match ccs with
  | [] => Ok day_count
  | cc :: rest =>
      let flag_final_cycle := cc =? cycle t1 in
      let flag_after := cycle t1 <? cc in
      do days_in_cycle0 <- Calendar_count_days_in_cycle cal cc y;
      do n0 <- MultiDate_day_number_in_cycle cal t0;
      do n1 <- MultiDate_day_number_in_cycle cal t1;
      let warp := days_in_cycle0 - n1 in
      let w1 := b2z flag_after * days_in_cycle0 in
      let w2 := b2z flag_final_cycle * warp in
      final_year_cycles y rest flag_final_year
        (day_count - b2z flag_final_year * (w1 + w2))
  end.

(** [for y in range(initial year, final year + 1)] *)
Fixpoint count_days_years (ys : list Z) (day_count : Z) : outcome Z :=
  match ys with
  | [] => Ok day_count
  | y :: rest =>
      let flag_initial_year := y =? year t0 in
      let flag_final_year := y =? year t1 in
      let flag_between := (year t0 <=? y) && (y <=? year t1) in
      do day_count <-
        (if flag_between then
           do days_in_year <- Calendar_count_days_in_year cal y;
           Ok (day_count + b2z flag_between * days_in_year)
         else Ok day_count);
      do day_count <-
        (if flag_initial_year then
           initial_year_cycles y (py_range 1 (cycle t0 + 1)) flag_initial_year day_count
         else Ok day_count);
      do day_count <-
        (if flag_final_year then
           let cycles_in_year := MultiDate_count_cycles_in_year cal t1 in
           final_year_cycles y (py_range (cycle t1) (cycles_in_year + 1))
                             flag_final_year day_count
         else Ok day_count);
      count_days_years rest day_count
  end.

Definition count_days : outcome Z :=
  let ct := (hour t0 =? 23) && (minute t0 =? 59) && (second t0 =? 59) in
  let flag_left_open := left_open self && ct in
  let ct := (hour t1 =? 0) && (minute t1 =? 0) && (second t1 =? 0) in
  let flag_right_open := right_open self && ct in
  do day_count <- count_days_years (py_range (year t0) (year t1 + 1)) 0;
  Ok (day_count - b2z flag_left_open - b2z flag_right_open).

Definition count_hours : outcome Z :=
  let c3 := hour t0 =? 23 in
  let c4 := minute t0 =? 59 in
  let c5 := second t0 =? 59 in
  let flag_left_open_hour := left_open self && (c4 && c5) in
  let flag_left_open := left_open self && (c5 && (c3 && c4)) in
  let c3 := hour t1 =? 0 in
  let c4 := minute t1 =? 0 in
  let c5 := second t1 =? 0 in
  let flag_right_open_hour := right_open self && (c4 && c5) in
  let flag_right_open := right_open self && (c5 && (c3 && c4)) in
  do days <- count_days;
  let num_of_hours := days * 24 in
  let w1 := - (hour t0 + b2z flag_left_open_hour) * b2z (negb flag_left_open) in
  let w2 := - (23 - hour t1 + b2z flag_right_open_hour) * b2z (negb flag_right_open) in
  Ok (num_of_hours + w1 + w2).

Definition count_minutes : outcome Z :=
  let c4 := minute t0 =? 59 in
  let c5 := second t0 =? 59 in
  let flag_left_open_hour := left_open self && (c4 && c5) in
  let flag_left_open := left_open self && c5 in
  let c4 := minute t1 =? 0 in
  let c5 := second t1 =? 0 in
  let flag_right_open_hour := right_open self && (c4 && c5) in
  let flag_right_open := right_open self && c5 in
  do hours <- count_hours;
  let num_of_minutes := hours * 60 in
  let w1 := - (minute t0 + b2z flag_left_open) * b2z (negb flag_left_open_hour) in
  let w2 := - (59 - minute t1 + b2z flag_right_open) * b2z (negb flag_right_open_hour) in
  Ok (num_of_minutes + w1 + w2).

Definition count_seconds : outcome Z :=
  let c5 := second t0 =? 59 in
  let flag_left_open := left_open self && c5 in
  let c5 := second t1 =? 0 in
  let flag_right_open := right_open self && c5 in
  do minutes <- count_minutes;
  let num_of_seconds := minutes * 60 in
  let w1 := - (second t0 + b2z (left_open self)) * b2z (negb flag_left_open) in
  let w2 := - (59 - second t1 + b2z (right_open self)) * b2z (negb flag_right_open) in
  Ok (num_of_seconds + w1 + w2).

(** [MultiPeriod.len]; the float quotients are exact rationals here, and a
    [units] that matches no branch gives Python's [None]. *)
Definition len (units : string) : outcome (option Q) :=
  if String.eqb units "seconds" then
    do s <- count_seconds; Ok (Some (inject_Z s))
  else if String.eqb units "minutes" then
    do s <- count_seconds; Ok (Some (s # 60)%Q)
  else if String.eqb units "hours" then
    do s <- count_seconds; Ok (Some (s # 360)%Q)
  else if String.eqb units "days" then
    do s <- count_seconds; Ok (Some (s # 86400)%Q)
  else if String.eqb units "cycles" || String.eqb units "months" then
    do days_in_cycle0 <- MultiDate_count_days_in_cycle cal t0;
    do days_in_cycle1 <- MultiDate_count_days_in_cycle cal t1;
    do s <- count_seconds;
    Ok (Some (inject_Z s / inject_Z (86400 * days_in_cycle0))%Q)
  else if String.eqb units "years" then
    do days_in_year0 <- MultiDate_count_days_in_year cal t0;
    do days_in_year1 <- MultiDate_count_days_in_year cal t1;
    do s <- count_seconds;
    Ok (Some (inject_Z s / inject_Z (86400 * days_in_year0))%Q)
  else Ok None.

End Counts.

(** ** The rules the specification words

    The standard Gregorian leap-year rule: divisible by 4, and not by 100
    unless also by 400. *)
Definition standard_leap_rule (y : Z) : bool :=
  (y mod 4 =? 0) && (negb (y mod 100 =? 0) || (y mod 400 =? 0)).

(** The rule the built-in Gregorian calendar follows: the standard rule
    after 1582, every fourth year up to 1582. *)
Definition gregorian_leap (y : Z) : bool :=
  if 1582 <? y then standard_leap_rule y else y mod 4 =? 0.

(** Lexicographic order on slot lists; [when_equal] is the answer for two
    equal lists. *)
Fixpoint lexicographic (when_equal : bool) (a b : list Z) : bool :=
  match a, b with
  | x :: a', y :: b' =>
      if x <? y then true else if y <? x then false else lexicographic when_equal a' b'
  | _, _ => when_equal
  end.

(** What the notes of [Calendar.__init__] ask of a calendar, as far as the
    proofs below need it: every cycle of every year has a list of days, and
    the list has a first day that is not negative. *)
Definition calendar_well_formed (cal : Calendar) : Prop :=
  forall y c, 1 <= c <= Calendar_count_cycles_in_year cal y ->
    exists l x, days_in_cycle cal c y = Ok l /\ _get_item l 0 = Ok x /\ 0 <= x.

(** The same notes in full: every year has a cycle, every cycle has a
    non-empty list of days, none of them negative, and none repeated (a day
    is found at its own place). *)
Definition calendar_regular (cal : Calendar) : Prop :=
  forall y,
    1 <= Calendar_count_cycles_in_year cal y /\
    forall c, 1 <= c <= Calendar_count_cycles_in_year cal y ->
      exists l, days_in_cycle cal c y = Ok l /\ 0 < py_len l /\
        forall i x, 0 <= i -> _get_item l i = Ok x -> 0 <= x /\ _index l x = Ok i.

(** The day [x] is the [i]th of the cycle [c] of the year [y], counting
    from 0. *)
Definition at_position (cal : Calendar) (y c i x : Z) : Prop :=
  1 <= c <= Calendar_count_cycles_in_year cal y /\ 0 <= i /\
  exists l, days_in_cycle cal c y = Ok l /\ _get_item l i = Ok x.

(** A time vector with all six slots set that the constructor accepts as it
    is. *)
Definition valid_date (cal : Calendar) (t : TimeVector) : Prop :=
  MultiDate_init (mkMA t nomask) cal = Ok (mkMultiDate (mkMA t nomask) cal false).

(** The length of a cycle, 0 where the calendar has no list, and the
    length of a run of cycles. *)
Definition cycle_length (cal : Calendar) (y m : Z) : Z :=
  match days_in_cycle cal m y with Ok l => py_len l | _ => 0 end.

Definition total_length (cal : Calendar) (y : Z) (ms : list Z) : Z :=
  fold_right (fun m s => cycle_length cal y m + s) 0 ms.

(** The days of the year [y] before its cycle [c], and the days of the
    year. *)
Definition days_before (cal : Calendar) (y c : Z) : Z :=
  total_length cal y (py_range 1 c).

Definition year_days (cal : Calendar) (y : Z) : Z :=
  days_before cal y (Calendar_count_cycles_in_year cal y + 1).

(** The date object with all six slots set to [t]. *)
Definition date_of (cal : Calendar) (t : TimeVector) : MultiDate :=
  mkMultiDate (mkMA t nomask) cal false.

(** [DeltaT([0])] *)
Definition zero_deltat : TimeVector := mkTV 0 0 0 0 0 0.

(** ** class Calendar: the day of a year by its number, the previous cycle *)

(** The [while i > days_in_cycle] loop of [Calendar._ith_day_in_year]; the
    state is the cycle [c], the remaining number [i] and the length of the
    cycle [c]. *)
Fixpoint ith_day_in_year_loop (fuel : nat) (self : Calendar) (year c i days_in_cycle0 : Z)
    : outcome (Z * Z) :=
  match fuel with
  | O => Timeout
  | S fuel' =>
      if days_in_cycle0 <? i then
        let i := i - days_in_cycle0 in
        let c := c + 1 in
        do days_in_cycle1 <- Calendar_count_days_in_cycle self c year;
        ith_day_in_year_loop fuel' self year c i days_in_cycle1
      else Ok (c, i)
  end.

(** [Calendar._ith_day_in_year]: the value of the day only is returned. *)
Definition Calendar__ith_day_in_year (fuel : nat) (self : Calendar) (year i : Z)
    : outcome Z :=
  do days_in_cycle0 <- Calendar_count_days_in_cycle self 1 year;
  do '(c, i) <- ith_day_in_year_loop fuel self year 1 i days_in_cycle0;
  do days <- days_in_cycle self c year;
  _get_item days (i - 1).

(** [Calendar._previous_cycle]: the cycle and the year. *)
Definition Calendar__previous_cycle (self : Calendar) (cycle year : Z) : Z * Z :=
  if cycle =? 1 then (Calendar_count_cycles_in_year self (year - 1), year - 1)
  else (cycle - 1, year).

Definition Calendar__count_cycles_in_previous_year (self : Calendar) (year : Z) : Z :=
  py_len (year_cycles self (year - 1)).

Definition Calendar__count_days_in_previous_cycle (self : Calendar) (cycle year : Z)
    : outcome Z :=
  let '(previous_cycle, previous_year) := Calendar__previous_cycle self cycle year in
  do days <- days_in_cycle self previous_cycle previous_year;
  Ok (py_len days).

(** [calendar_from_alias] *)
Definition calendar_from_alias (calendar_alias : string) : outcome Calendar :=
  if String.eqb calendar_alias "360_day" then Ok Cal360
  else if String.eqb calendar_alias "noleap" || String.eqb calendar_alias "365_day"
  then Ok Cal365
  else if String.eqb calendar_alias "all_leap" || String.eqb calendar_alias "366_day"
  then Ok Cal366
  else if String.eqb calendar_alias "julian" then Ok CalJulian
  else if String.eqb calendar_alias "proleptic_gregorian" then Ok CalProleptic
  else if String.eqb calendar_alias "gregorian" || String.eqb calendar_alias "standard"
  then Ok CalGregorian
  else if String.eqb calendar_alias "years_only" then Ok CalYearsOnly
  else if String.eqb calendar_alias "months_only" then Ok CalMonthsOnly
  else if String.eqb calendar_alias "seasons" then Ok CalSeasons
  else if String.eqb calendar_alias "365_days_no_months" then Ok Cal365NoMonths
  else Raise (TimelyError (String.append "Unknown calendar: "
                                         (String.append calendar_alias "."))).

(** The built-in calendars. *)
Definition built_in_calendars : list Calendar :=
  [Cal360; Cal365; Cal366; CalJulian; CalProleptic; CalGregorian; CalYearsOnly;
   CalMonthsOnly; CalSeasons; Cal365NoMonths].

(** *** Period: equality, overlap, containment *)

(** [Period.__eq__]: the two initial dates and the two final dates, with
    their calendars; [left_open] and [right_open] are not looked at. *)
Definition Period__eq__ (self other : Period) : outcome bool :=
  do i0 <- initial_date self;
  do i1 <- initial_date other;
  if MultiDate__eq__ i0 i1 then
    do f0 <- final_date self;
    do f1 <- final_date other;
    if MultiDate__eq__ f0 f1 then Ok true else Ok false
  else Ok false.

(** [Period.overlap] *)
Definition Period_overlap (self other : Period) : outcome bool :=
  do i0 <- initial_date self;
  do f1 <- final_date other;
  do c <- MultiDate__gt__ i0 f1;
  if value c then Ok false
  else
    do i1 <- initial_date other;
    do f0 <- final_date self;
    do c <- MultiDate__gt__ i1 f0;
    if value c then Ok false else Ok true.

(** What [Period.contains] and [Period.equals] may be given. *)
Inductive timely_object : Type :=
  | ADate (d : MultiDate)
  | APeriod (p : Period).

(** [Period.contains] *)
Definition Period_contains (self : Period) (other : timely_object) : outcome bool :=
  match other with
  | ADate other =>
      do i0 <- initial_date self;
      do c <- MultiDate__lt__ i0 other;
      if value c then
        do f0 <- final_date self;
        do c <- MultiDate__gt__ f0 other;
        if value c then Ok true else Ok false
      else Ok false
  | APeriod _ => Raise (NotImplementedError "")
  end.

(** [Period.equals] *)
Definition Period_equals (self : Period) (other : timely_object) : outcome bool :=
  match other with
  | APeriod other =>
      do b <- Period__eq__ self other;
      if b then Ok true else Ok false
  | ADate _ => Raise (NotImplementedError "")
  end.

(** ** Overloaded and negative values of a MultiDeltaT

    [_CollectionTime.seconds_to_minutes] and its siblings, on the time
    vector of a [MultiDeltaT]: every slot of it is unmasked (the constructor
    sets the masked slots to 0), so the tests for a masked slot "where
    conversion required" count nothing.  [ma.array(x / 60.0, dtype=myint)]
    truncates the quotient towards zero. *)

(** [np.copysign(a, x)] on whole numbers *)
Definition copysign (a x : Z) : Z := if x <? 0 then - Z.abs a else Z.abs a.

Definition seconds_to_minutes (t : TimeVector) : TimeVector :=
  let seconds_abs := Z.abs (second t) in
  let over_seconds := 60 <=? seconds_abs in
  let under_seconds := second t <? 0 in
  let increments := Z.quot (second t) 60 in
  let t := if over_seconds then
             let t := set_minute (minute t + increments) t in
             set_second (copysign (seconds_abs mod 60) (second t)) t
           else t in
  if under_seconds then
    let t := set_second (second t + 60) t in
    set_minute (minute t - 1) t
  else t.

Definition minutes_to_hours (t : TimeVector) : TimeVector :=
  let minutes_abs := Z.abs (minute t) in
  let over_minutes := 60 <=? minutes_abs in
  let under_minutes := minute t <? 0 in
  let increments := Z.quot (minute t) 60 in
  let t := if over_minutes then
             let t := set_hour (hour t + increments) t in
             set_minute (copysign (minutes_abs mod 60) (minute t)) t
           else t in
  if under_minutes then
    let t := set_minute (minute t + 60) t in
    set_hour (hour t - 1) t
  else t.

Definition hours_to_days (t : TimeVector) : TimeVector :=
  let hours_abs := Z.abs (hour t) in
  let over_hours := 24 <=? hours_abs in
  let under_hours := hour t <? 0 in
  let increments := Z.quot (hour t) 24 in
  let t := if over_hours then
             let t := set_day (day t + increments) t in
             set_hour (copysign (hours_abs mod 24) (hour t)) t
           else t in
  if under_hours then
    let t := set_hour (hour t + 24) t in
    set_day (day t - 1) t
  else t.

(** [DeltaT.__eq__], with [self] and [other] two different objects.  On
    whole numbers the three [propagate_*_decimals] calls change nothing. *)
Definition DeltaT__eq__ (self other : TimeVector) : outcome bool :=
  let new_self := hours_to_days (minutes_to_hours (seconds_to_minutes self)) in
  let new_other := hours_to_days (minutes_to_hours (seconds_to_minutes other)) in
  if _CollectionTime_eq (mkMA new_self nomask) (mkMA new_other nomask) then Ok true
  else
    (* Year value mixed with cycles/days *)
    let flag_year := negb (year new_self =? 0) in
    let flag_cycle := negb (cycle new_other =? 0) in
    let flag_day := negb (day new_other =? 0) in
    if flag_year && (flag_cycle || flag_day) then
      Raise (TimelyError "Ambiguous operation.")
    else
      let flag_year := negb (year new_other =? 0) in
      let flag_cycle := negb (cycle new_self =? 0) in
      let flag_day := negb (day new_self =? 0) in
      if flag_year && (flag_cycle || flag_day) then
        Raise (TimelyError "Ambiguous operation.")
      else
        (* Cycle value mixed with days *)
        let flag_cycle := negb (cycle new_self =? 0) in
        let flag_day := negb (day new_other =? 0) in
        if flag_cycle && flag_day then Raise (TimelyError "Ambiguous operation.")
        else
          let flag_cycle := negb (cycle new_other =? 0) in
          let flag_day := negb (day new_self =? 0) in
          if flag_cycle && flag_day then Raise (TimelyError "Ambiguous operation.")
          else Ok false.

(** *** The three parts of [MultiDate.add_days]

    The body of [add_days] is made of three parts, each handing the time
    vector and the days still to add to the next: to the first day of a
    year, to the first day of a cycle, and the day itself. *)

Definition add_days_to_year (cal : Calendar) (fuel : nat) (t : TimeVector) (integral : Z)
    : outcome (TimeVector * Z) :=
  do days_in_year <- MultiDate_count_days_in_year cal t;
  do days_numbers <- MultiDate_day_number_in_year cal t;
  let max_add := days_in_year - days_numbers in
  let max_sub := 1 - days_numbers in
  let flag_over := max_add <? integral in
  let flag_under := integral <? max_sub in
  let flag_either := flag_over || flag_under in
  let t := set_year (year t + b2z flag_over - b2z flag_under) t in
  let warp1 := (cycle t - 1) * b2z flag_either in
  let t := set_cycle (cycle t - warp1) t in
  do first_day_in_first_cycle <- Calendar__ith_day_in_cycle cal 1 (year t) 1;
  let warp1 := (day t - first_day_in_first_cycle) * b2z flag_either in
  let t := set_day (day t - warp1) t in
  do days_in_year <- MultiDate_count_days_in_year cal t;
  let integral := integral - b2z flag_over * (max_add + 1)
                  - b2z flag_under * (max_sub - days_in_year) in
  add_days_years_loop cal fuel t integral days_in_year flag_under.

Definition add_days_to_cycle (cal : Calendar) (fuel : nat) (t : TimeVector) (integral : Z)
    : outcome (TimeVector * Z) :=
  do days_in_cycle0 <- MultiDate_count_days_in_cycle cal t;
  do days_numbers <- MultiDate_day_number_in_cycle cal t;
  let max_add := days_in_cycle0 - days_numbers in
  let max_sub := 1 - days_numbers in
  let flag_over := max_add <? integral in
  let flag_under := integral <? max_sub in
  let flag_either := flag_over || flag_under in
  let t := set_cycle (cycle t + b2z flag_over - b2z flag_under) t in
  do first_day_in_cycle <- MultiDate_ith_day_in_cycle cal t 1;
  let warp1 := (day t - first_day_in_cycle) * b2z flag_either in
  let t := set_day (day t - warp1) t in
  do days_in_cycle0 <- MultiDate_count_days_in_cycle cal t;
  let integral := integral - b2z flag_over * (max_add + 1)
                  - b2z flag_under * (max_sub - days_in_cycle0) in
  add_days_cycles_loop cal fuel t integral days_in_cycle0 flag_under.

Definition add_days_in_cycle (cal : Calendar) (t : TimeVector) (integral : Z)
    : outcome TimeVector :=
  do days_numbers <- MultiDate_day_number_in_cycle cal t;
  let new_day_numbers := days_numbers + integral in
  do new_day_values <- MultiDate_ith_day_in_cycle cal t new_day_numbers;
  Ok (set_day new_day_values t).

(** ** Measures used by the statements below *)

(** The days of a run of years, and the seconds of a time of day. *)
Definition years_length (cal : Calendar) (ys : list Z) : Z :=
  fold_right (fun y s => year_days cal y + s) 0 ys.

Definition time_of_day (t : TimeVector) : Z :=
  3600 * hour t + 60 * minute t + second t.

(** Each time vector of [rest] is the one before it, beginning with [r],
    plus [deltat]. *)
Fixpoint stepped (fuel : nat) (cal : Calendar) (deltat : TimeVector) (r : TimeVector)
    (rest : list TimeVector) : Prop :=
  match rest with
  | [] => True
  | r' :: rest' =>
      MultiDate__add__ fuel (date_of cal r) deltat = Ok (date_of cal r') /\
      stepped fuel cal deltat r' rest'
  end.

(** The date part [(y', c', x')] lies [q] days after the date part that is
    at the position [i] of the cycle [c] of the year [y]. *)
Definition days_ahead (cal : Calendar) (y c i q y' c' x' : Z) : Prop :=
  exists i', at_position cal y' c' i' x' /\ y <= y' /\
    years_length cal (py_range y y') + days_before cal y' c' + i' =
      days_before cal y c + i + q.

(** * Properties *)

(** ** The built-in Gregorian calendar *)

Lemma days_in_month_gregorian_kind (y m : Z) :
  y <> 1582 ->
  days_in_month_gregorian m y =
  if gregorian_leap y then days_in_month_366 m y else days_in_month_365 m y.
Proof.
  intros Hy. unfold days_in_month_gregorian, gregorian_leap, standard_leap_rule.
  assert (Hne : (y =? 1582) = false) by (apply Z.eqb_neq; exact Hy).
  rewrite Hne. cbn [andb]. rewrite orb_false_r.
  destruct (1582 <? y).
  - unfold days_in_month_proleptic_gregorian, days_in_month_julian.
    destruct (y mod 100 =? 0) eqn:H100; destruct (y mod 400 =? 0) eqn:H400;
      destruct (y mod 4 =? 0) eqn:H4; reflexivity.
  - unfold days_in_month_julian. reflexivity.
Qed.






(** C2: October 1582 of the built-in Gregorian calendar has the days 1 to 4
    and 15 to 31, and one day after 1582-10-04 is 1582-10-15. *)
Theorem gregorian_transition :
  days_in_cycle CalGregorian 10 1582 =
    Ok [1; 2; 3; 4; 15; 16; 17; 18; 19; 20; 21; 22; 23; 24; 25; 26; 27; 28; 29; 30; 31] /\
  exists d e r : MultiDate,
    Date (nums [1582; 10; 4]) CalGregorian = Ok d /\
    Date (nums [1582; 10; 15]) CalGregorian = Ok e /\
    (forall fuel : nat, MultiDate__add__ (S fuel) d one_day = Ok r) /\
    MultiDate__eq__ r e = true.
Proof.
  split; [reflexivity |].
  eexists; eexists; eexists.
  split; [vm_compute; reflexivity |]. split; [vm_compute; reflexivity |].
  split; [intros fuel; vm_compute; reflexivity | reflexivity].
Qed.

(** ** Construction *)

(** When the year is set, the constructor fills every other slot and clears
    its mask. *)
Lemma MultiDate_init_all_set (t : MaskedArray) (cal : Calendar) (d : MultiDate) :
  MultiDate_init t cal = Ok d ->
  mask_year (mask t) = false ->
  mask (times d) = nomask /\ calendars d = cal.
Proof.
  unfold MultiDate_init. intros H Hy. rewrite Hy in H. cbn [andb negb] in H.
  rewrite andb_false_r in H.
  destruct (gap (mask t)); [discriminate |].
  destruct (negative_value (data t) (mask t)); [discriminate |].
  destruct (days_in_cycle cal _ _); cbn [bind] in H; try discriminate.
  destruct (if mask_day (mask t) then _ else _); cbn [bind] in H; try discriminate.
  destruct (_ || _); [discriminate |].
  destruct (_index _ _); try discriminate.
  destruct (24 <=? _); [discriminate |].
  destruct (60 <=? _); [discriminate |].
  destruct (60 <=? _); [discriminate |].
  injection H as <-. split; reflexivity.
Qed.

(** [Date([2001])] and [Date([2001, 1, 1, 0, 0, 0])] are the same object
    though the two inputs have resolutions 1 and 6. *)
Lemma Date_forgets_resolution :
  Date (nums [2001]) CalGregorian = Date (nums [2001; 1; 1; 0; 0; 0]) CalGregorian /\
  (do t <- _CollectionTime_init (_conversion_to_ma (nums [2001])); Ok (resolution t)) = Ok 1 /\
  (do t <- _CollectionTime_init (_conversion_to_ma (nums [2001; 1; 1; 0; 0; 0]));
   Ok (resolution t)) = Ok 6.
Proof. repeat split; reflexivity. Qed.

(** C10, at the input the claim misses: [Date([])] is accepted, and the
    object it builds has its year slot (and its day slot) still masked;
    nothing in [MultiDate.__init__] assigns slot 0. *)
Theorem Date_of_empty_list_keeps_year_masked :
  exists d : MultiDate,
    Date [] CalGregorian = Ok d /\
    mask (times d) = mkMask true false true false false false.
Proof. eexists. split; [vm_compute; reflexivity | reflexivity]. Qed.

(** ** Operands of [+] *)

(** C4, at a failing input: after [e = d + one_year] with
    [d = Date([2001, 1, 1])], the object [d] itself shows the year 2002;
    [e] and [d] read the same buffer. *)
Theorem add_writes_into_its_operand :
  exists (store store' : gmap positive MaskedArray) (d e : DateObject)
         (before after : MaskedArray),
    new_Date ∅ (nums [2001; 1; 1]) CalGregorian = Ok (store, d) /\
    read store d = Some before /\ year (data before) = 2001 /\
    MultiDate__add__object 1 store d one_year = Ok (store', e) /\
    read store' d = Some after /\ year (data after) = 2002 /\
    times_buffer e = times_buffer d.
Proof.
  do 6 eexists.
  split; [vm_compute; reflexivity |].
  split; [vm_compute; reflexivity |].
  split; [reflexivity |].
  split; [vm_compute; reflexivity |].
  split; [vm_compute; reflexivity |].
  split; reflexivity.
Qed.

(** ** Length of a period *)

(** C9, at a failing input: for the closed period from 1979-01-01T00 to
    1979-01-01T06, [count_seconds()] is 21601 and [len('hours')] is
    21601/360, which is neither 21601/3600 nor 6. *)
Theorem len_hours_divides_by_360 :
  exists (d1 d2 : MultiDate) (p : Period),
    Date (nums [1979; 1; 1; 0]) CalGregorian = Ok d1 /\
    Date (nums [1979; 1; 1; 6]) CalGregorian = Ok d2 /\
    explicit_period d1 d2 false false = Ok p /\
    count_seconds p = Ok 21601 /\
    len p "hours" = Ok (Some (21601 # 360)%Q) /\
    ~ (21601 # 360 == 21601 # 3600)%Q /\
    ~ (21601 # 360 == 6)%Q.
Proof.
  do 3 eexists.
  split; [vm_compute; reflexivity |]. split; [vm_compute; reflexivity |].
  split; [vm_compute; reflexivity |].
  split; [reflexivity |]. split; [reflexivity |].
  split; intros H; vm_compute in H; discriminate.
Qed.

(** ** Lists and tests *)

Lemma index_from_spec (l : list Z) (v i0 i : Z) :
  index_from l v i0 = Ok i ->
  i0 <= i < i0 + py_len l /\ nth_error l (Z.to_nat (i - i0)) = Some v.
Proof.
  revert i0. induction l as [| x r IH]; intros i0 H; cbn in H; [discriminate |].
  unfold py_len. cbn [length]. 
  destruct (x =? v) eqn:E.
  - injection H as <-. apply Z.eqb_eq in E. subst x.
    replace (i0 - i0) with 0 by lia. cbn. split; [lia | reflexivity].
  - apply IH in H. unfold py_len in H. destruct H as [Hr Hn]. split; [lia |].
    replace (Z.to_nat (i - i0)) with (S (Z.to_nat (i - (i0 + 1)))) by lia.
    exact Hn.
Qed.

Lemma _index_get_item (l : list Z) (v i : Z) :
  _index l v = Ok i -> 0 <= i < py_len l /\ _get_item l i = Ok v.
Proof.
  intros H. apply index_from_spec in H. destruct H as [Hr Hn].
  split; [lia |]. unfold _get_item.
  assert (E1 : (i <? 0) = false) by (apply Z.ltb_ge; lia). rewrite E1.
  assert (E2 : (py_len l <=? i) = false) by (apply Z.leb_gt; lia). rewrite E1, E2.
  cbn [orb]. rewrite Z.sub_0_r in Hn. rewrite Hn. reflexivity.
Qed.


Ltac norm :=
  repeat (progress (cbn [year cycle day hour minute second set_year set_cycle set_day
                         set_hour set_minute set_second b2z andb orb negb bind];
                    rewrite ?Z.mul_0_r, ?Z.mul_0_l, ?Z.add_0_r, ?Z.sub_0_r, ?Z.add_0_l,
                            ?Z.mul_1_r, ?Z.mul_1_l)).

Ltac decide_tests :=
  repeat match goal with
         | |- context [?a <? ?b] =>
             first
               [ let E := fresh in
                 assert (E : (a <? b) = false) by (apply Z.ltb_ge; lia); rewrite E; clear E
               | let E := fresh in
                 assert (E : (a <? b) = true) by (apply Z.ltb_lt; lia); rewrite E; clear E ]
         | |- context [?a <=? ?b] =>
             first
               [ let E := fresh in
                 assert (E : (a <=? b) = false) by (apply Z.leb_gt; lia); rewrite E; clear E
               | let E := fresh in
                 assert (E : (a <=? b) = true) by (apply Z.leb_le; lia); rewrite E; clear E ]
         end.

Lemma _get_item_in_range (l : list Z) (k : Z) :
  0 <= k < py_len l -> exists x, _get_item l k = Ok x.
Proof.
  intros H. unfold _get_item.
  assert (E1 : (k <? 0) = false) by (apply Z.ltb_ge; lia). rewrite E1.
  assert (E2 : (py_len l <=? k) = false) by (apply Z.leb_gt; lia). rewrite E1, E2.
  cbn [orb]. destruct (nth_error l (Z.to_nat k)) eqn:E; [eexists; reflexivity |].
  apply nth_error_None in E. unfold py_len in H. lia.
Qed.

(** ** Adding nothing *)

Section Zero.

Variable cal : Calendar.

Lemma add_days_zero fuel t diy dn f1 l i :
  Calendar_count_days_in_year cal (year t) = Ok diy ->
  MultiDate_day_number_in_year cal t = Ok dn -> 1 <= dn <= diy ->
  Calendar__ith_day_in_cycle cal 1 (year t) 1 = Ok f1 ->
  days_in_cycle cal (cycle t) (year t) = Ok l -> _index l (day t) = Ok i ->
  MultiDate_add_days cal (S fuel) t 0 = Ok t.
Proof.
  intros Hdiy Hdn Hr Hf1 Hl Hi.
  destruct (_index_get_item _ _ _ Hi) as [Hir Hget].
  destruct t as [y c d h m s]. cbn [year cycle day] in *.
  unfold MultiDate_add_days, MultiDate_count_days_in_year, MultiDate_day_number_in_cycle,
    MultiDate_count_days_in_cycle, MultiDate_ith_day_in_cycle, Calendar_count_days_in_cycle.
  cbn [year cycle day]. rewrite Hdiy. cbn [bind]. rewrite Hdn. cbn [bind].
  decide_tests. norm. rewrite Hf1. norm. rewrite Hdiy. norm.
  cbn [add_days_years_loop]. decide_tests. norm. rewrite Hf1. norm.
  unfold MultiDate_count_days_in_year. norm. rewrite Hdiy. norm.
  rewrite Hl. norm. rewrite Hi. norm. decide_tests. norm.
  unfold Calendar__ith_day_in_cycle at 1. rewrite Hl. norm.
  destruct (_get_item_in_range l 0 ltac:(lia)) as [first Hfirst].
  change (1 - 1) with 0. rewrite Hfirst. norm.
  cbn [add_days_cycles_loop]. decide_tests. norm.
  unfold MultiDate_ith_day_in_cycle, Calendar__ith_day_in_cycle. norm. rewrite Hl. norm.
  change (1 - 1) with 0. rewrite Hfirst. norm.
  unfold MultiDate_count_days_in_cycle, Calendar_count_days_in_cycle. norm. rewrite Hl. norm.
  rewrite Hl. norm. rewrite Hi. norm.
  replace (i + 1 - 1) with i by lia. rewrite Hget. norm. reflexivity.
Qed.

Lemma add_cycles_zero fuel t :
  1 <= cycle t <= MultiDate_count_cycles_in_year cal t ->
  MultiDate_add_cycles cal (S fuel) t 0 = Ok t.
Proof.
  destruct t as [y c d h m s]. unfold MultiDate_count_cycles_in_year. cbn [year cycle].
  intros Hc. unfold MultiDate_add_cycles, MultiDate_count_cycles_in_year. norm.
  decide_tests. norm. cbn [add_cycles_loop]. unfold MultiDate_count_cycles_in_year. norm.
  decide_tests. norm. reflexivity.
Qed.

Lemma add_hours_zero fuel t :
  0 <= hour t < 24 -> MultiDate_add_hours cal fuel t 0 = Ok t.
Proof.
  destruct t as [y c d h m s]. cbn [hour]. intros Hh.
  unfold MultiDate_add_hours. norm. decide_tests. norm. reflexivity.
Qed.

Lemma add_minutes_zero fuel t :
  0 <= minute t < 60 -> MultiDate_add_minutes cal fuel t 0 = Ok t.
Proof.
  destruct t as [y c d h m s]. cbn [minute]. intros Hm.
  unfold MultiDate_add_minutes. norm. decide_tests. norm. reflexivity.
Qed.

Lemma add_seconds_zero fuel t :
  0 <= minute t < 60 -> 0 <= second t < 60 -> MultiDate_add_seconds cal fuel t 0 = Ok t.
Proof.
  intros Hm Hs. unfold MultiDate_add_seconds. norm.
  assert (E1 : (60 <=? second t) = false) by (apply Z.leb_gt; lia).
  assert (E2 : (second t <? 0) = false) by (apply Z.ltb_ge; lia).
  rewrite E1, E2. norm. rewrite E1. norm.
  rewrite (add_minutes_zero fuel t Hm). norm.
  destruct t as [y c d h m s]. cbn [second] in *.
  destruct (Z.leb_spec s 0); norm; [replace s with 0 by lia |]; reflexivity.
Qed.

End Zero.

(** ** Ranges *)

Lemma map_seq_shift (k : nat) : forall (a : Z) (s : nat),
  map (fun i : nat => a + Z.of_nat i) (seq s k) =
  map (fun i : nat => a + Z.of_nat s + Z.of_nat i) (seq 0 k).
Proof.
  induction k as [| k IH]; intros a s; [reflexivity |].
  cbn [seq map]. f_equal; [lia |].
  rewrite (IH a (S s)). rewrite (IH (a + Z.of_nat s) 1%nat).
  apply map_ext. intros i. lia.
Qed.

Lemma py_range_app (a m b : Z) :
  a <= m <= b -> py_range a b = (py_range a m ++ py_range m b)%list.
Proof.
  intros H. unfold py_range.
  replace (Z.to_nat (b - a)) with (Z.to_nat (m - a) + Z.to_nat (b - m))%nat by lia.
  rewrite seq_app, map_app. f_equal. cbn [Nat.add].
  rewrite map_seq_shift. apply map_ext. intros i. lia.
Qed.

Lemma py_range_cons (a b : Z) : a < b -> py_range a b = a :: py_range (a + 1) b.
Proof.
  intros H. rewrite (py_range_app a (a + 1) b) by lia.
  unfold py_range at 1. replace (a + 1 - a) with 1 by lia.
  change (Z.to_nat 1) with 1%nat. cbn [seq map app Z.of_nat].
  f_equal. lia.
Qed.

Lemma In_py_range (a b m : Z) : In m (py_range a b) -> a <= m < b.
Proof.
  unfold py_range. intros H. apply in_map_iff in H. destruct H as [i [<- Hi]].
  apply in_seq in Hi. lia.
Qed.

(** ** Day numbers in a well-formed calendar *)

Section DayNumbers.

Variable cal : Calendar.
Hypothesis Hwf : calendar_well_formed cal.

Lemma total_length_cons y m r :
  total_length cal y (m :: r) = cycle_length cal y m + total_length cal y r.
Proof. reflexivity. Qed.

Lemma cycle_length_nonneg y m : 0 <= cycle_length cal y m.
Proof. unfold cycle_length. destruct (days_in_cycle cal m y); unfold py_len; lia. Qed.

Lemma total_length_nonneg y ms : 0 <= total_length cal y ms.
Proof.
  induction ms as [| m r IH]; [cbn; lia |].
  rewrite total_length_cons. pose proof (cycle_length_nonneg y m). lia.
Qed.

Lemma total_length_app y l1 l2 :
  total_length cal y (l1 ++ l2)%list = total_length cal y l1 + total_length cal y l2.
Proof.
  induction l1 as [| m r IH]; [reflexivity |].
  cbn [app]. rewrite !total_length_cons, IH. lia.
Qed.

Lemma sum_days_in_cycles_total y ms acc :
  (forall m, In m ms -> 1 <= m <= Calendar_count_cycles_in_year cal y) ->
  sum_days_in_cycles cal y ms acc = Ok (acc + total_length cal y ms).
Proof.
  revert acc. induction ms as [| m r IH]; intros acc H.
  - cbn. f_equal. lia.
  - destruct (Hwf y m (H m (or_introl eq_refl))) as [l [x [Hl _]]].
    cbn [sum_days_in_cycles]. rewrite total_length_cons.
    unfold cycle_length. rewrite Hl. cbn [bind].
    rewrite IH by (intros m' Hm'; apply H; right; exact Hm').
    f_equal. lia.
Qed.

Lemma day_number_loop_total t ms acc :
  (forall m, In m ms -> 1 <= m < cycle t) ->
  cycle t <= MultiDate_count_cycles_in_year cal t ->
  day_number_loop cal t ms acc = Ok (acc + total_length cal (year t) ms).
Proof.
  intros H Hc. revert acc H.
  induction ms as [| m r IH]; intros acc H.
  - cbn. f_equal. lia.
  - pose proof (H m (or_introl eq_refl)) as Hm.
    assert (Hm' : 1 <= m <= Calendar_count_cycles_in_year cal (year t))
      by (unfold MultiDate_count_cycles_in_year in Hc; lia).
    destruct (Hwf (year t) m Hm') as [l [x [Hl _]]].
    cbn [day_number_loop]. rewrite total_length_cons.
    assert (E1 : (MultiDate_count_cycles_in_year cal t <? m) = false)
      by (apply Z.ltb_ge; lia).
    assert (E2 : (m <? cycle t) = true) by (apply Z.ltb_lt; lia).
    rewrite E1, E2. cbn [b2z]. rewrite ?Z.mul_0_r, ?Z.sub_0_r, ?Z.mul_1_r.
    unfold Calendar_count_days_in_cycle. rewrite Hl. cbn [bind].
    rewrite IH by (intros m' Hm''; apply H; right; exact Hm'').
    unfold cycle_length. rewrite Hl. f_equal. lia.
Qed.

(** The day number of a date of the calendar lies within its year. *)
Lemma day_number_within_year t l i :
  1 <= cycle t <= MultiDate_count_cycles_in_year cal t ->
  days_in_cycle cal (cycle t) (year t) = Ok l ->
  _index l (day t) = Ok i ->
  exists diy dn,
    Calendar_count_days_in_year cal (year t) = Ok diy /\
    MultiDate_day_number_in_year cal t = Ok dn /\ 1 <= dn <= diy.
Proof.
  intros Hc Hl Hi.
  destruct (_index_get_item _ _ _ Hi) as [Hir _].
  set (n := Calendar_count_cycles_in_year cal (year t)).
  assert (Hn : MultiDate_count_cycles_in_year cal t = n) by reflexivity.
  exists (total_length cal (year t) (py_range 1 (n + 1))),
         (total_length cal (year t) (py_range 1 (cycle t)) + (i + 1)).
  split; [| split].
  - unfold Calendar_count_days_in_year.
    destruct (Hwf (year t) 1) as [l1 [x [Hl1 _]]]; [fold n; lia |].
    rewrite Hl1. cbn [bind].
    rewrite sum_days_in_cycles_total; [f_equal; lia |].
    intros m Hm. apply In_py_range in Hm.
    unfold Calendar_count_cycles_in_year. lia.
  - unfold MultiDate_day_number_in_year.
    rewrite day_number_loop_total; [| intros m Hm; apply In_py_range in Hm; lia | lia].
    cbn [bind]. unfold MultiDate_day_number_in_cycle. rewrite Hl. cbn [bind].
    rewrite Hi. cbn [bind]. f_equal.
  - rewrite (py_range_app 1 (cycle t) (n + 1)) by lia.
    rewrite (py_range_cons (cycle t) (n + 1)) by lia.
    rewrite total_length_app, total_length_cons.
    unfold cycle_length. rewrite Hl.
    pose proof (total_length_nonneg (year t) (py_range 1 (cycle t))).
    pose proof (total_length_nonneg (year t) (py_range (cycle t + 1) (n + 1))).
    lia.
Qed.

End DayNumbers.

(** ** Dates of a well-formed calendar *)

Section ValidDates.

Variable cal : Calendar.
Hypothesis Hwf : calendar_well_formed cal.

(** Building a date again from the time vector of a date gives the same
    date. *)
Lemma MultiDate_init_idempotent (t : MaskedArray) (d : MultiDate) :
  MultiDate_init t cal = Ok d ->
  mask_year (mask t) = false ->
  MultiDate_init (times d) cal = Ok d.
Proof.
  intros H Hy.
  destruct t as [[y c dd h mi s] [my mc md mh mmi ms]]. cbn in Hy. subst my.
  unfold MultiDate_init in H.
  destruct mc, md, mh, mmi, ms;
    cbn -[_get_item _index Calendar_count_cycles_in_year Z.ltb Z.leb] in H;
    try discriminate.
  all: repeat match type of H with
       | (if ?b then _ else _) = _ => destruct b eqn:?; [discriminate |]
       | bind ?m _ = _ => destruct m eqn:?; cbn [bind] in H; try discriminate
       | match ?m with _ => _ end = _ => destruct m eqn:?; try discriminate
       end.
  all: injection H as <-.
  all: unfold MultiDate_init;
    cbn -[_get_item _index Calendar_count_cycles_in_year Z.ltb Z.leb].
  all: unfold set_second, set_minute, set_hour, set_day, set_cycle, negative_value in *;
    cbn [year cycle day hour minute second mask_year mask_cycle mask_day mask_hour
         mask_minute mask_second negb andb] in *.
  all: repeat match goal with
       | H : _ || _ = false |- _ => apply orb_false_elim in H; destruct H
       | H : (_ <? _) = false |- _ => apply Z.ltb_ge in H
       | H : (_ <=? _) = false |- _ => apply Z.leb_gt in H
       | H : Ok _ = Ok _ |- _ => injection H as H; try subst
       end.
  all: repeat match goal with
       | Hd : days_in_cycle _ ?c ?y = Ok ?l, Hg : _get_item ?l 0 = Ok ?x |- _ =>
           let l' := fresh in
           let x' := fresh in
           let A := fresh in
           let B := fresh in
           let C := fresh in
           destruct (Hwf y c ltac:(lia)) as [l' [x' [A [B C]]]];
           rewrite Hd in A; injection A as <-;
           rewrite Hg in B; injection B as <-; clear Hg
       end.
  all: decide_tests.
  all: cbn [orb].
  all: repeat match goal with
       | H : ?x = Ok _ |- context [?x] => rewrite H; cbn [bind]
       end.
  all: reflexivity.
Qed.

Lemma MultiDate_init_valid (t : MaskedArray) (d : MultiDate) :
  MultiDate_init t cal = Ok d ->
  mask_year (mask t) = false ->
  d = mkMultiDate (mkMA (data (times d)) nomask) cal false /\
  valid_date cal (data (times d)).
Proof.
  intros H Hy.
  pose proof (MultiDate_init_idempotent t d H Hy) as Hi.
  destruct (MultiDate_init_all_set t cal d H Hy) as [Hm Hc].
  assert (Hd : decimals d = false).
  { clear Hi Hm Hc Hy. unfold MultiDate_init in H.
    repeat match type of H with
           | (if ?b then _ else _) = _ => destruct b; [discriminate |]
           | bind ?m _ = _ => destruct m; cbn [bind] in H; try discriminate
           | match ?m with _ => _ end = _ => destruct m; try discriminate
           end.
    injection H as <-. reflexivity. }
  assert (E : d = mkMultiDate (mkMA (data (times d)) nomask) cal false).
  { destruct d as [[td tm] c dec]. cbn in *. subst. reflexivity. }
  split; [exact E |].
  unfold valid_date.
  assert (T : mkMA (data (times d)) nomask = times d)
    by (destruct d as [[td tm] c dec]; cbn in *; subst; reflexivity).
  rewrite T, Hi. f_equal. destruct d as [[td tm] c dec]. cbn in *. subst. reflexivity.
Qed.

Lemma valid_date_init (t : TimeVector) :
  valid_date cal t ->
  MultiDate_init (mkMA t nomask) cal = Ok (mkMultiDate (mkMA t nomask) cal false).
Proof. intros H. exact H. Qed.

(** What the constructor has checked of a valid date. *)
Lemma valid_date_facts (t : TimeVector) :
  valid_date cal t ->
  1 <= cycle t <= MultiDate_count_cycles_in_year cal t /\
  (exists l i, days_in_cycle cal (cycle t) (year t) = Ok l /\ _index l (day t) = Ok i) /\
  0 <= hour t < 24 /\ 0 <= minute t < 60 /\ 0 <= second t < 60.
Proof.
  unfold valid_date, MultiDate_init. destruct t as [y c d h m s].
  cbn -[_get_item _index Calendar_count_cycles_in_year Z.ltb Z.leb].
  unfold negative_value, MultiDate_count_cycles_in_year.
  cbn [year cycle day hour minute second mask_year mask_cycle mask_day mask_hour
       mask_minute mask_second negb andb nomask].
  intros H.
  repeat match type of H with
         | (if ?b then _ else _) = _ => destruct b eqn:?; [discriminate |]
         | bind ?m _ = _ => destruct m eqn:?; cbn [bind] in H; try discriminate
         | match ?m with _ => _ end = _ => destruct m eqn:?; try discriminate
         end.
  repeat match goal with
         | H : _ || _ = false |- _ => apply orb_false_elim in H; destruct H
         | H : (_ <? _) = false |- _ => apply Z.ltb_ge in H
         | H : (_ <=? _) = false |- _ => apply Z.leb_gt in H
         end.
  clear H. cbn [year cycle day hour minute second].
  split; [lia |]. split; [| lia].
  match goal with
  | Hi : _index ?l _ = Ok ?i |- _ => exists l, i; split; [reflexivity | assumption]
  end.
Qed.

(** Adding no cycle, no day, no hour, no minute and no second to a valid
    date leaves it as it is. *)
Lemma add_days_zero_valid fuel t :
  valid_date cal t -> MultiDate_add_days cal (S fuel) t 0 = Ok t.
Proof.
  intros Hv. destruct (valid_date_facts t Hv) as [Hc [[l [i [Hl Hi]]] _]].
  destruct (day_number_within_year cal Hwf t l i Hc Hl Hi) as [diy [dn [Hdiy [Hdn Hr]]]].
  destruct (Hwf (year t) 1) as [l1 [x [Hl1 [Hx _]]]];
    [unfold MultiDate_count_cycles_in_year in Hc; lia |].
  eapply add_days_zero; try eassumption.
  unfold Calendar__ith_day_in_cycle. rewrite Hl1. cbn [bind]. exact Hx.
Qed.

Lemma add_zero_tail fuel t :
  valid_date cal t ->
  (do t <- MultiDate_add_cycles cal (S fuel) t 0;
   do t <- MultiDate_add_days cal (S fuel) t 0;
   do t <- MultiDate_add_hours cal (S fuel) t 0;
   do t <- MultiDate_add_minutes cal (S fuel) t 0;
   MultiDate_add_seconds cal (S fuel) t 0) = Ok t.
Proof.
  intros Hv. destruct (valid_date_facts t Hv) as [Hc [_ [Hh [Hm Hs]]]].
  rewrite add_cycles_zero by exact Hc. cbn [bind].
  rewrite add_days_zero_valid by exact Hv. cbn [bind].
  rewrite add_hours_zero by exact Hh. cbn [bind].
  rewrite add_minutes_zero by exact Hm. cbn [bind].
  apply add_seconds_zero; assumption.
Qed.

(** Adding whole years moves the year slot, when the moved vector is a date
    of the calendar. *)
Lemma add_steps_years fuel t k :
  valid_date cal (set_year (year t + k) t) ->
  add_steps cal (S fuel) t (mkTV k 0 0 0 0 0) = Ok (set_year (year t + k) t).
Proof.
  intros Hv. unfold add_steps, MultiDate_add_years.
  cbn [year cycle day hour minute second]. apply add_zero_tail. exact Hv.
Qed.

Lemma set_year_same t : set_year (year t) t = t.
Proof. destruct t. reflexivity. Qed.

Lemma add_steps_zero fuel t :
  valid_date cal t -> add_steps cal (S fuel) t zero_deltat = Ok t.
Proof.
  intros Hv. unfold zero_deltat.
  rewrite add_steps_years; rewrite Z.add_0_r, set_year_same; [reflexivity | exact Hv].
Qed.

Lemma MultiDate__add__years fuel t k :
  valid_date cal t ->
  valid_date cal (set_year (year t + k) t) ->
  MultiDate__add__ (S fuel) (date_of cal t) (mkTV k 0 0 0 0 0) =
  Ok (date_of cal (set_year (year t + k) t)).
Proof.
  intros Hv Hk. unfold MultiDate__add__, date_of. cbn [times calendars].
  rewrite (valid_date_init t Hv). cbn [bind times calendars data mask].
  rewrite add_steps_years by exact Hk. reflexivity.
Qed.

Lemma MultiDate__add__zero fuel t :
  valid_date cal t ->
  MultiDate__add__ (S fuel) (date_of cal t) zero_deltat = Ok (date_of cal t).
Proof.
  intros Hv. unfold zero_deltat.
  rewrite MultiDate__add__years; rewrite ?Z.add_0_r, ?set_year_same; auto.
Qed.

End ValidDates.

(** ** The built-in Gregorian calendar is well formed *)

Lemma gregorian_well_formed : calendar_well_formed CalGregorian.
Proof.
  intros y c Hc. change (Calendar_count_cycles_in_year CalGregorian y) with 12 in Hc.
  cbn [days_in_cycle CalGregorian].
  assert (Hcases : c = 1 \/ c = 2 \/ c = 3 \/ c = 4 \/ c = 5 \/ c = 6 \/ c = 7 \/ c = 8 \/
                   c = 9 \/ c = 10 \/ c = 11 \/ c = 12) by lia.
  destruct (Z.eq_dec y 1582) as [-> | Hy].
  - repeat (destruct Hcases as [-> | Hcases]); try subst c;
      (eexists; eexists; split; [vm_compute; reflexivity | split; [vm_compute; reflexivity | lia]]).
  - rewrite days_in_month_gregorian_kind by exact Hy.
    destruct (gregorian_leap y);
      repeat (destruct Hcases as [-> | Hcases]); try subst c;
      (eexists; eexists; split; [vm_compute; reflexivity | split; [vm_compute; reflexivity | lia]]).
Qed.

(** ** The order operators compare slot by slot *)

Ltac chain_slot x y :=
  destruct (Z.compare_spec x y);
  [ subst; rewrite ?Z.ltb_irrefl, ?Z.eqb_refl, ?Z.leb_refl
  | decide_tests;
    repeat match goal with
           | |- context [?a =? ?b] =>
               let E := fresh in
               assert (E : (a =? b) = false) by (apply Z.eqb_neq; lia); rewrite E; clear E
           end
  | decide_tests;
    repeat match goal with
           | |- context [?a =? ?b] =>
               let E := fresh in
               assert (E : (a =? b) = false) by (apply Z.eqb_neq; lia); rewrite E; clear E
           end ];
  cbn [andb orb negb]; try reflexivity.

Lemma lt_chain_lexicographic a b :
  lt_chain a b = lexicographic false (tv_list a) (tv_list b).
Proof.
  destruct a as [y1 c1 d1 h1 m1 s1], b as [y2 c2 d2 h2 m2 s2].
  unfold lt_chain, tv_list. cbn [year cycle day hour minute second lexicographic].
  chain_slot y1 y2. chain_slot c1 c2. chain_slot d1 d2. chain_slot h1 h2.
  chain_slot m1 m2. chain_slot s1 s2.
Qed.

Lemma le_chain_lexicographic a b :
  le_chain a b = lexicographic true (tv_list a) (tv_list b).
Proof.
  destruct a as [y1 c1 d1 h1 m1 s1], b as [y2 c2 d2 h2 m2 s2].
  unfold le_chain, tv_list. cbn [year cycle day hour minute second lexicographic].
  chain_slot y1 y2. chain_slot c1 c2. chain_slot d1 d2. chain_slot h1 h2.
  chain_slot m1 m2. chain_slot s1 s2.
Qed.

Lemma gt_chain_lexicographic a b :
  gt_chain a b = lexicographic false (tv_list b) (tv_list a).
Proof.
  destruct a as [y1 c1 d1 h1 m1 s1], b as [y2 c2 d2 h2 m2 s2].
  unfold gt_chain, tv_list. cbn [year cycle day hour minute second lexicographic].
  chain_slot y1 y2. chain_slot c1 c2. chain_slot d1 d2. chain_slot h1 h2.
  chain_slot m1 m2. chain_slot s1 s2.
Qed.

Lemma ge_chain_lexicographic a b :
  ge_chain a b = lexicographic true (tv_list b) (tv_list a).
Proof.
  destruct a as [y1 c1 d1 h1 m1 s1], b as [y2 c2 d2 h2 m2 s2].
  unfold ge_chain, tv_list. cbn [year cycle day hour minute second lexicographic].
  chain_slot y1 y2. chain_slot c1 c2. chain_slot d1 d2. chain_slot h1 h2.
  chain_slot m1 m2. chain_slot s1 s2.
Qed.

(** When [a >= b] is false, [a <= b] is true, [a > b] is false and the two
    vectors differ. *)
Lemma not_ge_chain a b :
  ge_chain a b = false ->
  le_chain a b = true /\ gt_chain a b = false /\ tv_eqb a b = false.
Proof.
  destruct a as [y1 c1 d1 h1 m1 s1], b as [y2 c2 d2 h2 m2 s2].
  unfold ge_chain, le_chain, gt_chain, tv_eqb.
  cbn [year cycle day hour minute second].
  chain_slot y1 y2; try (intros; discriminate); try (intros _; repeat split; reflexivity).
  chain_slot c1 c2; try (intros; discriminate); try (intros _; repeat split; reflexivity).
  chain_slot d1 d2; try (intros; discriminate); try (intros _; repeat split; reflexivity).
  chain_slot h1 h2; try (intros; discriminate); try (intros _; repeat split; reflexivity).
  chain_slot m1 m2; try (intros; discriminate); try (intros _; repeat split; reflexivity).
  chain_slot s1 s2; try (intros; discriminate); try (intros _; repeat split; reflexivity).
Qed.

Lemma MultiDate_init_calendars (t : MaskedArray) (cal : Calendar) (d : MultiDate) :
  MultiDate_init t cal = Ok d ->
  calendars d = cal /\ mask_year (mask (times d)) = mask_year (mask t).
Proof.
  unfold MultiDate_init. intros H.
  repeat match type of H with
         | (if ?b then _ else _) = _ => destruct b; [discriminate |]
         | bind ?m _ = _ => destruct m; cbn [bind] in H; try discriminate
         | match ?m with _ => _ end = _ => destruct m; try discriminate
         end.
  injection H as <-. split; reflexivity.
Qed.

Lemma Date_year_set (time : list (option Z)) (cal : Calendar) (d : MultiDate) :
  calendar_well_formed cal ->
  Date time cal = Ok d ->
  mask_year (mask (times d)) = false ->
  d = date_of cal (data (times d)) /\ valid_date cal (data (times d)).
Proof.
  intros Hwf H Hy. unfold Date in H.
  destruct (_CollectionTime_init (_conversion_to_ma time)) as [t | |]; cbn [bind] in H;
    try discriminate.
  destruct (MultiDate_init_calendars t cal d H) as [_ Hm]. rewrite Hy in Hm.
  apply (MultiDate_init_valid cal Hwf t d H). symmetry. exact Hm.
Qed.

Lemma Calendar_eq_refl (cal : Calendar) : Calendar_eq cal cal = true.
Proof. unfold Calendar_eq. rewrite String.eqb_refl. reflexivity. Qed.

Lemma tv_eqb_refl (t : TimeVector) : tv_eqb t t = true.
Proof. unfold tv_eqb. rewrite !Z.eqb_refl. reflexivity. Qed.

Lemma MultiDate__eq__refl (cal : Calendar) (t : TimeVector) :
  MultiDate__eq__ (date_of cal t) (date_of cal t) = true.
Proof.
  unfold MultiDate__eq__, _CollectionTime_eq, date_of. cbn [times calendars data mask].
  rewrite tv_eqb_refl, Calendar_eq_refl. reflexivity.
Qed.

(** C7, as the code has it: a [Date] has all six slots set, so for two dates
    of one (well-formed) calendar built from inputs of any resolutions, with
    their year given, [<], [<=], [>] and [>=] return the lexicographic
    comparison of the six completed slots, without warning and without
    raising. *)
Theorem order_of_dates_is_lexicographic (cal : Calendar) (a b : list (option Z))
    (da db : MultiDate) :
  calendar_well_formed cal ->
  Date a cal = Ok da ->
  Date b cal = Ok db ->
  mask_year (mask (times db)) = false ->
  let x := tv_list (data (times da)) in
  let y := tv_list (data (times db)) in
  MultiDate__lt__ da db = Ok (mkCompared (lexicographic false x y) []) /\
  MultiDate__le__ da db = Ok (mkCompared (lexicographic true x y) []) /\
  MultiDate__gt__ da db = Ok (mkCompared (lexicographic false y x) []) /\
  MultiDate__ge__ da db = Ok (mkCompared (lexicographic true y x) []).
Proof.
  intros Hwf Ha Hb Hy x y. subst x y.
  destruct (Date_year_set b cal db Hwf Hb Hy) as [Edb Hvb].
  assert (Hca : calendars da = cal).
  { unfold Date in Ha.
    destruct (_CollectionTime_init (_conversion_to_ma a)) as [t | |]; cbn [bind] in Ha;
      try discriminate.
    apply (MultiDate_init_calendars t cal da Ha). }
  remember (data (times db)) as tb eqn:Etb. clear Etb Hb Hy. subst db.
  unfold MultiDate__lt__, MultiDate__le__, MultiDate__gt__, MultiDate__ge__, MultiDate_compare.
  unfold date_of. cbn [times calendars data].
  rewrite (valid_date_init cal _ Hvb). cbn [bind times calendars data].
  rewrite Hca, Calendar_eq_refl. cbn [negb].
  rewrite lt_chain_lexicographic, le_chain_lexicographic, gt_chain_lexicographic,
    ge_chain_lexicographic.
  repeat split; reflexivity.
Qed.

(** [Date([2001]) < Date([2001, 6])] is [True], and
    [Date([2001, 1, 1]) < Date([2001, 6, 1])] is [True]. *)
Lemma order_of_dates_is_lexicographic_witness :
  (exists da db,
     Date (nums [2001]) CalGregorian = Ok da /\
     Date (nums [2001; 6]) CalGregorian = Ok db /\
     MultiDate__lt__ da db = Ok (mkCompared true []) /\
     MultiDate__gt__ da db = Ok (mkCompared false [])) /\
  (exists da db,
     Date (nums [2001; 1; 1]) CalGregorian = Ok da /\
     Date (nums [2001; 6; 1]) CalGregorian = Ok db /\
     MultiDate__lt__ da db = Ok (mkCompared true [])).
Proof.
  split.
  - eexists; eexists. split; [vm_compute; reflexivity |]. split; [vm_compute; reflexivity |].
    pose proof (order_of_dates_is_lexicographic CalGregorian
                  (nums [2001]) (nums [2001; 6]) _ _ gregorian_well_formed
                  eq_refl eq_refl eq_refl) as H.
    cbv zeta in H. destruct H as [H1 [_ [H3 _]]]. split; [exact H1 | exact H3].
  - eexists; eexists. split; [vm_compute; reflexivity |]. split; [vm_compute; reflexivity |].
    pose proof (order_of_dates_is_lexicographic CalGregorian
                  (nums [2001; 1; 1]) (nums [2001; 6; 1]) _ _ gregorian_well_formed
                  eq_refl eq_refl eq_refl) as H.
    cbv zeta in H. destruct H as [H1 _]. exact H1.
Defined.

(** C7 fails as stated: [Date([2001]) > Date([2001, 6])] returns [False]; no
    error is raised though the two inputs differ in resolution and agree on
    the year, the only slot both of them give. *)
Lemma comparing_resolutions_does_not_raise :
  exists da db,
    Date (nums [2001]) CalGregorian = Ok da /\
    Date (nums [2001; 6]) CalGregorian = Ok db /\
    MultiDate__gt__ da db = Ok (mkCompared false []) /\
    MultiDate__ge__ da db = Ok (mkCompared false []) /\
    MultiDate__lt__ da db = Ok (mkCompared true []) /\
    MultiDate__le__ da db = Ok (mkCompared true []).
Proof.
  eexists; eexists. split; [vm_compute; reflexivity |]. split; [vm_compute; reflexivity |].
  repeat split; reflexivity.
Qed.

(** The operators of [Date2], which [Date] keeps under the names
    [__gt_obsolete_] and so on, do raise on the masked vectors [2001] and
    [2001, 6]; they are not the ones a [Date] answers with. *)
Lemma Date2_order_is_ambiguous :
  exists a b,
    _CollectionTime_init (_conversion_to_ma (nums [2001])) = Ok a /\
    _CollectionTime_init (_conversion_to_ma (nums [2001; 6])) = Ok b /\
    Date2__gt__ a b CalGregorian CalGregorian = Raise (TimelyError "Ambiguous operations.") /\
    Date2__lt__ a b CalGregorian CalGregorian = Raise (TimelyError "Ambiguous operations.").
Proof.
  eexists; eexists. split; [vm_compute; reflexivity |]. split; [vm_compute; reflexivity |].
  split; reflexivity.
Qed.

(** C8, as the code has it: comparing two dates of calendars with different
    aliases issues a warning and returns the slot-by-slot comparison; no
    error is raised. *)
Theorem comparing_across_calendars_warns (ca cb : Calendar) (a b : list (option Z))
    (da db : MultiDate) :
  calendar_well_formed cb ->
  Date a ca = Ok da ->
  Date b cb = Ok db ->
  mask_year (mask (times db)) = false ->
  alias ca <> alias cb ->
  let x := data (times da) in
  let y := data (times db) in
  MultiDate__lt__ da db = Ok (mkCompared (lt_chain x y) [different_calendars_warning]) /\
  MultiDate__le__ da db = Ok (mkCompared (le_chain x y) [different_calendars_warning]) /\
  MultiDate__gt__ da db = Ok (mkCompared (gt_chain x y) [different_calendars_warning]) /\
  MultiDate__ge__ da db = Ok (mkCompared (ge_chain x y) [different_calendars_warning]).
Proof.
  intros Hwf Ha Hb Hy Hne x y. subst x y.
  destruct (Date_year_set b cb db Hwf Hb Hy) as [Edb Hvb].
  assert (Hca : calendars da = ca).
  { unfold Date in Ha.
    destruct (_CollectionTime_init (_conversion_to_ma a)) as [t | |]; cbn [bind] in Ha;
      try discriminate.
    apply (MultiDate_init_calendars t ca da Ha). }
  remember (data (times db)) as tb eqn:Etb. clear Etb Hb Hy. subst db.
  unfold MultiDate__lt__, MultiDate__le__, MultiDate__gt__, MultiDate__ge__, MultiDate_compare.
  unfold date_of. cbn [times calendars data].
  rewrite (valid_date_init cb _ Hvb). cbn [bind times calendars data].
  rewrite Hca. unfold Calendar_eq.
  apply String.eqb_neq in Hne. rewrite Hne. cbn [negb].
  repeat split; reflexivity.
Qed.

Lemma comparing_across_calendars_warns_witness :
  exists da db,
    Date (nums [2000]) Cal360 = Ok da /\
    Date (nums [2001]) CalGregorian = Ok db /\
    MultiDate__lt__ da db = Ok (mkCompared true [different_calendars_warning]) /\
    MultiDate__ge__ da db = Ok (mkCompared false [different_calendars_warning]).
Proof.
  eexists; eexists. split; [vm_compute; reflexivity |]. split; [vm_compute; reflexivity |].
  assert (Hne : alias Cal360 <> alias CalGregorian) by (vm_compute; discriminate).
  pose proof (comparing_across_calendars_warns Cal360 CalGregorian
                (nums [2000]) (nums [2001]) _ _ gregorian_well_formed
                eq_refl eq_refl eq_refl Hne) as H.
  cbv zeta in H. destruct H as [H1 [_ [_ H4]]]. split; [exact H1 | exact H4].
Defined.

(** C8 fails as stated: [Date([2001]) > Date([2000], Cal360)] returns
    [True] together with a warning; it does not raise. *)
Lemma comparing_across_calendars_returns :
  exists da db,
    Date (nums [2001]) CalGregorian = Ok da /\
    Date (nums [2000]) Cal360 = Ok db /\
    Calendar_eq (calendars da) (calendars db) = false /\
    MultiDate__gt__ da db = Ok (mkCompared true [different_calendars_warning]) /\
    MultiDate__ge__ da db = Ok (mkCompared true [different_calendars_warning]) /\
    MultiDate__lt__ da db = Ok (mkCompared false [different_calendars_warning]) /\
    MultiDate__le__ da db = Ok (mkCompared false [different_calendars_warning]).
Proof.
  eexists; eexists. split; [vm_compute; reflexivity |]. split; [vm_compute; reflexivity |].
  repeat split; reflexivity.
Qed.

(** ** Adding and subtracting *)




(** ** Sampling a period *)

Section ZeroStep.

Variable cal : Calendar.
Hypothesis Hwf : calendar_well_formed cal.

Lemma MultiDate_compare_valid (chain : TimeVector -> TimeVector -> bool)
    (t0 t1 : TimeVector) :
  valid_date cal t1 ->
  MultiDate_compare chain (date_of cal t0) (date_of cal t1) =
  Ok (mkCompared (chain t0 t1) []).
Proof.
  intros Hv1. unfold MultiDate_compare, date_of. cbn [times calendars data].
  rewrite (valid_date_init cal t1 Hv1). cbn [bind times calendars data].
  rewrite Calendar_eq_refl. reflexivity.
Qed.

Lemma MultiDate__eq__differ (t0 t1 : TimeVector) :
  tv_eqb t0 t1 = false -> MultiDate__eq__ (date_of cal t0) (date_of cal t1) = false.
Proof.
  intros Hne. unfold MultiDate__eq__, _CollectionTime_eq, date_of.
  cbn [times data mask calendars]. rewrite Hne.
  destruct (mask_eqb nomask nomask); reflexivity.
Qed.

(** With a step that leaves the date where it is, the loop of
    [regular_sample] uses up any number of rounds. *)
Lemma regular_sample_loop_zero_step (fuel : nat) (self : Period) (t0 t1 : TimeVector) :
  valid_date cal t0 -> valid_date cal t1 ->
  ge_chain t0 t1 = false ->
  forall (n : nat) (rows : list TimeVector),
    regular_sample_loop (S fuel) n self zero_deltat (date_of cal t1) (date_of cal t0) rows
    = Timeout.
Proof.
  intros Hv0 Hv1 Hge. destruct (not_ge_chain t0 t1 Hge) as [Hle [_ Hne]].
  induction n as [| n IH]; intros rows; [reflexivity |].
  cbn [regular_sample_loop]. unfold MultiDate__le__.
  rewrite (MultiDate_compare_valid le_chain t0 t1 Hv1). cbn [bind value].
  rewrite Hle, (MultiDate__eq__differ t0 t1 Hne), andb_false_r.
  rewrite (MultiDate__add__zero cal Hwf fuel t0 Hv0). cbn [bind].
  apply IH.
Qed.

End ZeroStep.

(** C6, as the code has it: [regular_sample] does not look at the step
    before it loops.  For every period of a well-formed calendar, built
    from two time vectors with their year given, sampling with the step
    [DeltaT([0])] raises nothing and never returns: whatever the number of
    rounds allowed, the loop is still running. *)
Theorem regular_sample_zero_step_never_returns (cal : Calendar) (row0 row1 : MaskedArray)
    (lo ro : bool) (p : Period) :
  calendar_well_formed cal ->
  Period_init row0 row1 lo ro cal = Ok p ->
  mask_year (mask row0) = false ->
  mask_year (mask row1) = false ->
  forall fuel : nat, regular_sample fuel p zero_deltat None = Timeout.
Proof.
  intros Hwf Hp Hy0 Hy1 fuel.
  unfold Period_init in Hp.
  destruct (MultiDate_init row0 cal) as [d0 | |] eqn:E0; cbn [bind] in Hp; try discriminate.
  destruct (MultiDate_init row1 cal) as [d1 | |] eqn:E1; cbn [bind] in Hp; try discriminate.
  destruct (MultiDate_init_valid cal Hwf row0 d0 E0 Hy0) as [Ed0 Hv0].
  destruct (MultiDate_init_valid cal Hwf row1 d1 E1 Hy1) as [Ed1 Hv1].
  remember (data (times d0)) as t0 eqn:Et0. clear Et0 E0. subst d0.
  remember (data (times d1)) as t1 eqn:Et1. clear Et1 E1. subst d1.
  unfold initial_date, final_date in Hp. cbn [times initial final period_calendar] in Hp.
  rewrite (valid_date_init cal t0 Hv0), (valid_date_init cal t1 Hv1) in Hp.
  cbn [bind] in Hp. fold (date_of cal t0) in Hp. fold (date_of cal t1) in Hp.
  unfold MultiDate__ge__, MultiDate_compare in Hp.
  unfold date_of at 1 2 in Hp. cbn [times calendars data] in Hp.
  rewrite (valid_date_init cal t1 Hv1) in Hp. cbn [bind times calendars data value] in Hp.
  change (data (times (date_of cal t0))) with t0 in Hp.
  destruct (ge_chain t0 t1) eqn:Hge; [discriminate |]. injection Hp as <-.
  destruct (not_ge_chain t0 t1 Hge) as [Hle [Hgt Hne]].
  unfold regular_sample, initial_date, final_date.
  cbn [initial final period_calendar left_open right_open].
  rewrite (valid_date_init cal t0 Hv0), (valid_date_init cal t1 Hv1).
  cbn [bind]. fold (date_of cal t0). fold (date_of cal t1).
  rewrite MultiDate__eq__refl.
  unfold MultiDate__ge__, MultiDate__gt__.
  destruct fuel as [| fuel].
  - (* no round at all: the first addition is already cut short *)
    assert (E : MultiDate__add__ 0 (date_of cal t0) zero_deltat = Timeout).
    { unfold MultiDate__add__, date_of. cbn [times calendars].
      rewrite (valid_date_init cal t0 Hv0). cbn [bind times calendars data].
      reflexivity. }
    destruct lo, ro; rewrite ?E; cbn [bind value];
      rewrite ?(MultiDate_compare_valid cal ge_chain t0 t1 Hv1),
              ?(MultiDate_compare_valid cal gt_chain t0 t1 Hv1), ?Hge, ?Hgt;
      cbn [bind value]; rewrite ?E; reflexivity.
  - rewrite (MultiDate__add__zero cal Hwf fuel t0 Hv0).
    destruct lo, ro; cbn [bind value];
      rewrite ?(MultiDate_compare_valid cal ge_chain t0 t1 Hv1),
              ?(MultiDate_compare_valid cal gt_chain t0 t1 Hv1), ?Hge, ?Hgt;
      cbn [bind value];
      rewrite (MultiDate__add__zero cal Hwf fuel t0 Hv0); cbn [bind];
      rewrite (regular_sample_loop_zero_step cal Hwf fuel _ t0 t1 Hv0 Hv1 Hge);
      reflexivity.
Qed.

Lemma regular_sample_zero_step_never_returns_witness :
  regular_sample 5
    (mkPeriod (mkMA (mkTV 1979 1 1 0 0 0) nomask) (mkMA (mkTV 1979 1 1 6 0 0) nomask)
              false false CalGregorian)
    zero_deltat None = Timeout.
Proof.
  apply (regular_sample_zero_step_never_returns CalGregorian
           (mkMA (mkTV 1979 1 1 0 0 0) nomask) (mkMA (mkTV 1979 1 1 6 0 0) nomask)
           false false _ gregorian_well_formed); reflexivity.
Defined.

(** C6 fails as stated: on the period from 1979-01-01T00 to 1979-01-01T06
    the step [DeltaT([0])] is not rejected; after twenty rounds of the loop
    nothing has been raised. *)
Lemma zero_step_is_not_rejected :
  exists (d1 d2 : MultiDate) (p : Period) (step : TimeVector),
    Date (nums [1979; 1; 1; 0]) CalGregorian = Ok d1 /\
    Date (nums [1979; 1; 1; 6]) CalGregorian = Ok d2 /\
    explicit_period d1 d2 false false = Ok p /\
    DeltaT (nums [0]) = Ok step /\
    regular_sample 20 p step None = Timeout /\
    forall e : exn, regular_sample 20 p step None <> Raise e.
Proof.
  do 4 eexists.
  split; [vm_compute; reflexivity |]. split; [vm_compute; reflexivity |].
  split; [vm_compute; reflexivity |]. split; [vm_compute; reflexivity |].
  split; [vm_compute; reflexivity | intros e H; vm_compute in H; discriminate].
Qed.


(** ** One day further *)

Section Steps.
Variable cal : Calendar.




End Steps.

(** ** Sampling a whole year day by day *)

Lemma _get_item_range (l : list Z) (i x : Z) :
  0 <= i -> _get_item l i = Ok x -> i < py_len l.
Proof.
  intros Hi H. unfold _get_item in H.
  assert (E : (i <? 0) = false) by (apply Z.ltb_ge; lia). rewrite E in H.
  destruct (Z.leb_spec (py_len l) i); [| lia].
  rewrite E in H. cbn [orb] in H. discriminate.
Qed.

Lemma regular_well_formed (cal : Calendar) : calendar_regular cal -> calendar_well_formed cal.
Proof.
  intros Hreg y c Hc. destruct (Hreg y) as [_ H]. destruct (H c Hc) as [l [Hl [Hpos Hall]]].
  destruct (_get_item_in_range l 0 ltac:(lia)) as [x Hx].
  exists l, x. split; [exact Hl |]. split; [exact Hx |].
  apply (Hall 0 x); [lia | exact Hx].
Qed.

Lemma bind_assoc {A B C : Type} (m : outcome A) (f : A -> outcome B) (g : B -> outcome C) :
  bind (bind m f) g = bind m (fun x => bind (f x) g).
Proof. destruct m; reflexivity. Qed.

Lemma py_range_empty (a : Z) : py_range a a = [].
Proof. unfold py_range. rewrite Z.sub_diag. reflexivity. Qed.

Section Year.

Variable cal : Calendar.
Hypothesis Hreg : calendar_regular cal.
Variable y : Z.

Let Hwf : calendar_well_formed cal := regular_well_formed cal Hreg.

Local Abbreviation N := (Calendar_count_cycles_in_year cal y).
Local Abbreviation before := (days_before cal y).
Local Abbreviation diy := (year_days cal y).

Lemma year_length : Calendar_count_days_in_year cal y = Ok diy.
Proof.
  unfold Calendar_count_days_in_year.
  destruct (Hreg y) as [HN _].
  destruct (Hwf y 1) as [l1 [x [Hl1 _]]]; [lia |].
  rewrite Hl1. cbn [bind].
  rewrite (sum_days_in_cycles_total cal Hwf); [f_equal |].
  intros m Hm. apply In_py_range in Hm. unfold Calendar_count_cycles_in_year. lia.
Qed.

Lemma before_next (c : Z) (l : list Z) :
  1 <= c -> days_in_cycle cal c y = Ok l -> before (c + 1) = before c + py_len l.
Proof.
  intros Hc Hl. unfold days_before.
  rewrite (py_range_app 1 c (c + 1)) by lia. rewrite total_length_app.
  rewrite (py_range_cons c (c + 1)) by lia. rewrite py_range_empty.
  rewrite total_length_cons. unfold cycle_length. rewrite Hl. cbn. lia.
Qed.

Lemma before_le (c : Z) : 1 <= c <= N + 1 -> before c <= diy.
Proof.
  intros Hc. unfold year_days, days_before. rewrite (py_range_app 1 c (N + 1)) by lia.
  rewrite total_length_app.
  pose proof (total_length_nonneg cal y (py_range c (N + 1))). lia.
Qed.

Lemma before_end : before (N + 1) = diy.
Proof. reflexivity. Qed.

Section Position.

Variables c i x : Z.
Hypothesis Hpos : at_position cal y c i x.

Lemma position_list :
  exists l, days_in_cycle cal c y = Ok l /\ _get_item l i = Ok x /\ _index l x = Ok i /\
            0 <= x /\ i < py_len l /\ before c + py_len l <= diy /\
            (c = N -> before c + py_len l = diy) /\
            (c < N -> before c + py_len l + 1 <= diy).
Proof.
  destruct Hpos as [Hc [Hi [l [Hl Hx]]]].
  destruct (Hreg y) as [_ H]. destruct (H c Hc) as [l' [Hl' [Hlen Hall]]].
  rewrite Hl in Hl'. injection Hl' as <-.
  destruct (Hall i x Hi Hx) as [Hx0 Hidx].
  exists l. split; [exact Hl |]. split; [exact Hx |]. split; [exact Hidx |].
  split; [exact Hx0 |]. split; [exact (_get_item_range l i x Hi Hx) |].
  pose proof (before_next c l ltac:(lia) Hl) as Hn.
  split; [| split].
  - rewrite <- Hn. apply before_le. lia.
  - intros ->. rewrite <- Hn. apply before_end.
  - intros Hlt. destruct (H (c + 1) ltac:(lia)) as [l2 [Hl2 [Hlen2 _]]].
    pose proof (before_next (c + 1) l2 ltac:(lia) Hl2) as Hn2.
    pose proof (before_le (c + 1 + 1) ltac:(lia)). lia.
Qed.

Variables h m s : Z.
Hypothesis Hh : 0 <= h < 24.
Hypothesis Hm : 0 <= m < 60.
Hypothesis Hs : 0 <= s < 60.


Lemma position_day_number :
  MultiDate_day_number_in_year cal (mkTV y c x h m s) = Ok (before c + i + 1).
Proof.
  destruct position_list as [l [Hl [Hx [Hidx _]]]].
  destruct Hpos as [Hc _].
  unfold MultiDate_day_number_in_year.
  rewrite (day_number_loop_total cal Hwf);
    [| intros k Hk; apply In_py_range in Hk; cbn [cycle] in *; lia
     | unfold MultiDate_count_cycles_in_year, Calendar_count_cycles_in_year in *;
       cbn [cycle year]; lia].
  cbn [bind year cycle]. unfold MultiDate_day_number_in_cycle. cbn [year cycle day].
  rewrite Hl. cbn [bind]. rewrite Hidx. cbn [bind]. f_equal. unfold days_before. lia.
Qed.

End Position.

End Year.

Section OneDay.

Variable cal : Calendar.
Hypothesis Hreg : calendar_regular cal.

Let Hwf : calendar_well_formed cal := regular_well_formed cal Hreg.


Lemma MultiDate__add__steps (fuel : nat) (t t' delta : TimeVector) :
  valid_date cal t ->
  add_steps cal (S fuel) t delta = Ok t' ->
  MultiDate__add__ (S fuel) (date_of cal t) delta = Ok (date_of cal t').
Proof.
  intros Hv H. unfold MultiDate__add__, date_of. cbn [times calendars].
  rewrite (valid_date_init cal t Hv). cbn [bind times calendars data mask].
  rewrite H. reflexivity.
Qed.

Variable y : Z.

Local Abbreviation N := (Calendar_count_cycles_in_year cal y).

(** The date at midnight of a day of the year [y]. *)
Local Abbreviation day_at c x := (mkTV y c x 0 0 0).


End OneDay.


Section Sample.

Variable cal : Calendar.
Hypothesis Hreg : calendar_regular cal.
Variable y f1 : Z.
Hypothesis Hnext : at_position cal (y + 1) 1 0 f1.
Variable self : Period.
Hypothesis Hopen : right_open self = true.

Let Hwf : calendar_well_formed cal := regular_well_formed cal Hreg.

Local Abbreviation day_at c x := (mkTV y c x 0 0 0).
Local Abbreviation final_t := (mkTV (y + 1) 1 f1 0 0 0).






End Sample.

Lemma bind_Ok {A B : Type} (m : outcome A) (f : A -> outcome B) (b : B) :
  bind m f = Ok b -> exists a, m = Ok a /\ f a = Ok b.
Proof. destruct m as [a | |]; cbn; try discriminate. intros H. exists a. split; auto. Qed.



(** ** The built-in Gregorian calendar is regular *)

Lemma index_from_py_range (k : nat) : forall a b x i0,
  Z.of_nat k = x - a -> x < b ->
  index_from (py_range a b) x i0 = Ok (i0 + (x - a)).
Proof.
  induction k as [| k IH]; intros a b x i0 Hk Hx.
  - assert (x = a) by lia. subst x. rewrite py_range_cons by lia.
    cbn [index_from]. rewrite Z.eqb_refl. f_equal. lia.
  - rewrite py_range_cons by lia. cbn [index_from].
    assert (E : (a =? x) = false) by (apply Z.eqb_neq; lia). rewrite E.
    rewrite (IH (a + 1) b x (i0 + 1)) by lia. f_equal. lia.
Qed.

Lemma nth_error_py_range (k : nat) : forall a b x,
  nth_error (py_range a b) k = Some x -> x = a + Z.of_nat k /\ x < b.
Proof.
  induction k as [| k IH]; intros a b x H.
  - destruct (Z_lt_le_dec a b) as [Hlt | Hge].
    + rewrite py_range_cons in H by exact Hlt. cbn in H. injection H as <-. lia.
    + unfold py_range in H. replace (Z.to_nat (b - a)) with 0%nat in H by lia. discriminate.
  - destruct (Z_lt_le_dec a b) as [Hlt | Hge].
    + rewrite py_range_cons in H by exact Hlt. cbn [nth_error] in H.
      apply IH in H. lia.
    + unfold py_range in H. replace (Z.to_nat (b - a)) with 0%nat in H by lia. discriminate.
Qed.

Lemma py_range_regular (a b : Z) :
  0 <= a ->
  forall i x, 0 <= i -> _get_item (py_range a b) i = Ok x ->
    0 <= x /\ _index (py_range a b) x = Ok i.
Proof.
  intros Ha i x Hi H. unfold _get_item in H.
  assert (E : (i <? 0) = false) by (apply Z.ltb_ge; lia). rewrite E in H.
  destruct ((i <? 0) || (py_len (py_range a b) <=? i)); [discriminate |].
  destruct (nth_error (py_range a b) (Z.to_nat i)) as [v |] eqn:Hn; [| discriminate].
  injection H as <-. apply nth_error_py_range in Hn. destruct Hn as [Hv Hb].
  split; [lia |]. unfold _index.
  rewrite (index_from_py_range (Z.to_nat i) a b v 0) by lia. f_equal. lia.
Qed.

Lemma days_in_month_365_range (c y : Z) :
  1 <= c <= 12 ->
  exists n, 28 <= n /\ days_in_month_365 c y = Ok (py_range 1 (n + 1)).
Proof.
  intros Hc.
  assert (Hcases : c = 1 \/ c = 2 \/ c = 3 \/ c = 4 \/ c = 5 \/ c = 6 \/ c = 7 \/ c = 8 \/
                   c = 9 \/ c = 10 \/ c = 11 \/ c = 12) by lia.
  repeat (destruct Hcases as [-> | Hcases]); try subst c;
    first [ exists 31; split; [lia | reflexivity]
          | exists 30; split; [lia | reflexivity]
          | exists 29; split; [lia | reflexivity]
          | exists 28; split; [lia | reflexivity] ].
Qed.

Lemma days_in_month_366_range (c y : Z) :
  1 <= c <= 12 ->
  exists n, 28 <= n /\ days_in_month_366 c y = Ok (py_range 1 (n + 1)).
Proof.
  intros Hc.
  assert (Hcases : c = 1 \/ c = 2 \/ c = 3 \/ c = 4 \/ c = 5 \/ c = 6 \/ c = 7 \/ c = 8 \/
                   c = 9 \/ c = 10 \/ c = 11 \/ c = 12) by lia.
  repeat (destruct Hcases as [-> | Hcases]); try subst c;
    first [ exists 31; split; [lia | reflexivity]
          | exists 30; split; [lia | reflexivity]
          | exists 29; split; [lia | reflexivity]
          | exists 28; split; [lia | reflexivity] ].
Qed.

Lemma py_len_py_range (a b : Z) : a <= b -> py_len (py_range a b) = b - a.
Proof. intros H. unfold py_len, py_range. rewrite length_map, length_seq. lia. Qed.

Lemma october_1582_regular :
  forall i x, 0 <= i ->
    _get_item [1; 2; 3; 4; 15; 16; 17; 18; 19; 20; 21; 22; 23; 24; 25; 26; 27; 28; 29; 30; 31]
              i = Ok x ->
    0 <= x /\
    _index [1; 2; 3; 4; 15; 16; 17; 18; 19; 20; 21; 22; 23; 24; 25; 26; 27; 28; 29; 30; 31]
           x = Ok i.
Proof.
  intros i x Hi H.
  assert (Hcases : i = 0 \/ i = 1 \/ i = 2 \/ i = 3 \/ i = 4 \/ i = 5 \/ i = 6 \/ i = 7 \/
                   i = 8 \/ i = 9 \/ i = 10 \/ i = 11 \/ i = 12 \/ i = 13 \/ i = 14 \/
                   i = 15 \/ i = 16 \/ i = 17 \/ i = 18 \/ i = 19 \/ i = 20 \/ 21 <= i)
    by lia.
  repeat (destruct Hcases as [-> | Hcases]);
    try (vm_compute in H; injection H as <-; split; [lia | reflexivity]).
  apply _get_item_range in H; [| lia]. unfold py_len in H. cbn [length] in H. lia.
Qed.

Lemma gregorian_regular : calendar_regular CalGregorian.
Proof.
  intros y. change (Calendar_count_cycles_in_year CalGregorian y) with 12.
  split; [lia |]. intros c Hc. cbn [days_in_cycle CalGregorian].
  assert (Hrange : forall n, 28 <= n ->
            0 < py_len (py_range 1 (n + 1)) /\
            forall i x, 0 <= i -> _get_item (py_range 1 (n + 1)) i = Ok x ->
              0 <= x /\ _index (py_range 1 (n + 1)) x = Ok i).
  { intros n Hn. split; [rewrite py_len_py_range; lia | apply py_range_regular; lia]. }
  destruct (Z.eq_dec y 1582) as [-> | Hy].
  - destruct (Z.eq_dec c 10) as [-> | Hc10].
    + eexists. split; [reflexivity |]. split; [reflexivity | exact october_1582_regular].
    + assert (E : days_in_month_gregorian c 1582 = days_in_month_365 c 1582).
      { unfold days_in_month_gregorian.
        assert (E10 : (c =? 10) = false) by (apply Z.eqb_neq; exact Hc10).
        cbn [Z.ltb Z.eqb Z.compare Pos.compare Pos.compare_cont Pos.eqb orb andb].
        rewrite E10. destruct (10 <? c); reflexivity. }
      rewrite E. destruct (days_in_month_365_range c 1582 Hc) as [n [Hn ->]].
      eexists. split; [reflexivity |]. apply Hrange. exact Hn.
  - rewrite days_in_month_gregorian_kind by exact Hy.
    destruct (gregorian_leap y).
    + destruct (days_in_month_366_range c y Hc) as [n [Hn ->]].
      eexists. split; [reflexivity |]. apply Hrange. exact Hn.
    + destruct (days_in_month_365_range c y Hc) as [n [Hn ->]].
      eexists. split; [reflexivity |]. apply Hrange. exact Hn.
Qed.








(** * Further properties of the code *)

(** ** The other built-in calendars *)




(** X3: the calendars of fixed length.  Whatever the year, [360_day] has
    360 days, [noleap] and [365_days_no_months] have 365 and [all_leap] has
    366; of these only [all_leap] has leap years, and it has nothing else.
    [years_only] has one day a year and [seasons] four.  [months_only] has
    no leap-year function: asking raises [TimelyError]. *)
Theorem calendars_of_fixed_length (y : Z) :
  (Calendar_count_days_in_year Cal360 y = Ok 360 /\ Calendar_is_leap Cal360 y = Ok false) /\
  (Calendar_count_days_in_year Cal365 y = Ok 365 /\ Calendar_is_leap Cal365 y = Ok false) /\
  (Calendar_count_days_in_year Cal366 y = Ok 366 /\ Calendar_is_leap Cal366 y = Ok true) /\
  (Calendar_count_days_in_year Cal365NoMonths y = Ok 365 /\
   Calendar_is_leap Cal365NoMonths y = Ok false) /\
  (Calendar_count_days_in_year CalYearsOnly y = Ok 1 /\
   Calendar_is_leap CalYearsOnly y = Ok false) /\
  (Calendar_count_days_in_year CalSeasons y = Ok 4 /\
   Calendar_is_leap CalSeasons y = Ok false) /\
  (Calendar_count_days_in_year CalMonthsOnly y = Ok 12 /\
   exists msg, Calendar_is_leap CalMonthsOnly y = Raise (TimelyError msg)).
Proof.
  repeat split; try reflexivity.
  eexists. reflexivity.
Qed.

(** X4: [calendar_from_alias] gives back each built-in calendar from its
    own alias; the calendar it returns for an accepted name carries that
    name as its alias unless the name is one of the three synonyms of the CF
    conventions; any other name raises [TimelyError]. *)
Theorem calendar_from_alias_round_trip :
  (forall cal, In cal built_in_calendars -> calendar_from_alias (alias cal) = Ok cal) /\
  (forall a cal, calendar_from_alias a = Ok cal ->
     In cal built_in_calendars /\
     (alias cal = a \/
      (a = "365_day" /\ cal = Cal365) \/ (a = "366_day" /\ cal = Cal366) \/
      (a = "standard" /\ cal = CalGregorian))) /\
  (forall a, (forall cal, In cal built_in_calendars -> alias cal <> a) ->
     a <> "365_day" -> a <> "366_day" -> a <> "standard" ->
     calendar_from_alias a =
     Raise (TimelyError (String.append "Unknown calendar: " (String.append a ".")))).
Proof.
  split; [| split].
  - intros cal Hin. cbn in Hin.
    repeat (destruct Hin as [<- | Hin]; [reflexivity |]). destruct Hin.
  - intros a cal. unfold calendar_from_alias.
    repeat match goal with
           | |- context [String.eqb a ?s] =>
               destruct (String.eqb_spec a s) as [-> | ?]; cbn [orb]
           end;
      intros H; try discriminate; injection H as <-;
      (split; [cbn; tauto | cbn; tauto]).
  - intros a Hno H1 H2 H3. unfold calendar_from_alias.
    repeat match goal with
           | |- context [String.eqb a ?s] =>
               destruct (String.eqb_spec a s) as [E | ?]; cbn [orb];
               [exfalso; subst a;
                first [ exact (H1 eq_refl) | exact (H2 eq_refl) | exact (H3 eq_refl)
                      | refine (Hno Cal360 _ eq_refl); cbn; tauto
                      | refine (Hno Cal365 _ eq_refl); cbn; tauto
                      | refine (Hno Cal366 _ eq_refl); cbn; tauto
                      | refine (Hno CalJulian _ eq_refl); cbn; tauto
                      | refine (Hno CalProleptic _ eq_refl); cbn; tauto
                      | refine (Hno CalGregorian _ eq_refl); cbn; tauto
                      | refine (Hno CalYearsOnly _ eq_refl); cbn; tauto
                      | refine (Hno CalMonthsOnly _ eq_refl); cbn; tauto
                      | refine (Hno CalSeasons _ eq_refl); cbn; tauto
                      | refine (Hno Cal365NoMonths _ eq_refl); cbn; tauto ] |]
           end.
    reflexivity.
Qed.

Lemma calendar_from_alias_round_trip_witness :
  calendar_from_alias "weekly" =
  Raise (TimelyError "Unknown calendar: weekly.").
Proof.
  apply (proj2 (proj2 calendar_from_alias_round_trip) "weekly").
  - intros cal Hin. cbn in Hin.
    repeat (destruct Hin as [<- | Hin]; [discriminate |]). destruct Hin.
  - discriminate.
  - discriminate.
  - discriminate.
Defined.

(** ** What the constructor stores *)

Lemma _index_In (l : list Z) (v i : Z) : _index l v = Ok i -> In v l.
Proof.
  intros H. apply index_from_spec in H. destruct H as [_ H].
  eapply nth_error_In. exact H.
Qed.

Lemma In_get_first (l : list Z) (v : Z) : In v l -> exists f, _get_item l 0 = Ok f.
Proof.
  destruct l as [| f r]; [intros [] |]. intros _. exists f.
  unfold _get_item, py_len. cbn [length].
  replace (0 <? 0) with false by reflexivity.
  replace (0 <? 0) with false by reflexivity.
  replace (Z.of_nat (S (length r)) <=? 0) with false by (symmetry; apply Z.leb_gt; lia).
  reflexivity.
Qed.

(** X5: a date built from a list of one to six numbers keeps the numbers
    given and fills the slots left out with the first cycle, the first day
    of the cycle and midnight; every slot ends up unmasked, the cycle is one
    of the year, the day is one of the cycle, and hour, minute and second
    are within 0..23, 0..59 and 0..59. *)
Theorem Date_fills_the_slots_left_out (cal : Calendar) (l : list Z) (d : MultiDate) :
  l <> [] ->
  Date (nums l) cal = Ok d ->
  let t := data (times d) in
  exists days first,
    days_in_cycle cal (cycle t) (year t) = Ok days /\
    _get_item days 0 = Ok first /\
    tv_list t = (l ++ drop (length l) [0; 1; first; 0; 0; 0])%list /\
    mask (times d) = nomask /\ calendars d = cal /\
    1 <= cycle t <= Calendar_count_cycles_in_year cal (year t) /\
    In (day t) days /\
    0 <= hour t < 24 /\ 0 <= minute t < 60 /\ 0 <= second t < 60.
Proof.
  intros Hne H.
  destruct l as [| y [| c [| dd [| h [| m [| s [| x r]]]]]]];
    [congruence | | | | | | | discriminate H];
    unfold Date in H; cbn [nums map _conversion_to_ma length repeat app Nat.sub
                           _CollectionTime_init bind] in H;
    unfold MultiDate_init in H;
    cbn [data mask gap negative_value mask_year mask_cycle mask_day mask_hour mask_minute
         mask_second andb orb negb year cycle day hour minute second set_cycle set_day
         set_hour set_minute set_second] in H;
    repeat match type of H with
           | (if ?b then Raise _ else _) = Ok _ =>
               let E := fresh "E" in destruct b eqn:E; [discriminate H |]
           | bind ?m _ = Ok _ =>
               let E := fresh "E" in let v := fresh "v" in
               destruct m as [v | |] eqn:E; cbn [bind] in H; [| discriminate H ..]
           | match ?m with Ok _ => _ | _ => _ end = Ok _ =>
               let E := fresh "E" in let v := fresh "v" in
               destruct m as [v | |] eqn:E; [| discriminate H ..]
           end;
    cbn [year cycle day hour minute second set_cycle set_day set_hour set_minute
         set_second] in *;
    injection H as <-; cbn [data times mask calendars year cycle day hour minute second
                            tv_list length drop app];
    repeat match goal with
           | E : (_ || _) = false |- _ => apply orb_false_elim in E; destruct E
           | E : (_ <? _) = false |- _ => apply Z.ltb_ge in E
           | E : (_ <=? _) = false |- _ => apply Z.leb_gt in E
           end;
    match goal with
    | E : _index ?days ?x = Ok _ |- _ =>
        pose proof (_index_In _ _ _ E) as Hin;
        destruct (In_get_first _ _ Hin) as [f Hf];
        exists days, f
    end;
    repeat match goal with
           | E : _get_item ?days 0 = Ok ?a, F : _get_item ?days 0 = Ok ?b |- _ =>
               assert (a = b) by congruence; subst a; clear E
           end;
    (split; [assumption |]); (split; [assumption |]); (split; [reflexivity |]);
    (split; [reflexivity |]); (split; [reflexivity |]);
    unfold negative_value in *;
    cbn [year cycle day hour minute second set_cycle set_day set_hour set_minute
         set_second mask_cycle mask_day mask_hour mask_minute mask_second negb andb orb]
      in *;
    repeat match goal with
           | E : (_ || _) = false |- _ => apply orb_false_elim in E; destruct E
           | E : (_ <? _) = false |- _ => apply Z.ltb_ge in E
           end;
    repeat split; try assumption; try lia.
Qed.

Lemma Date_fills_the_slots_left_out_witness :
  let t := mkTV 2010 2 1 0 0 0 in
  exists days first,
    days_in_cycle CalGregorian (cycle t) (year t) = Ok days /\
    _get_item days 0 = Ok first /\
    tv_list t = ([2010; 2] ++ drop 2 [0; 1; first; 0; 0; 0])%list /\
    nomask = nomask /\ CalGregorian = CalGregorian /\
    1 <= cycle t <= Calendar_count_cycles_in_year CalGregorian (year t) /\
    In (day t) days /\
    0 <= hour t < 24 /\ 0 <= minute t < 60 /\ 0 <= second t < 60.
Proof.
  apply (Date_fills_the_slots_left_out CalGregorian [2010; 2]
           (date_of CalGregorian (mkTV 2010 2 1 0 0 0))).
  - discriminate.
  - vm_compute. reflexivity.
Defined.

(** ** The number of a day in its year *)

Lemma before_mono (cal : Calendar) (y a b : Z) :
  1 <= a <= b -> days_before cal y a <= days_before cal y b.
Proof.
  intros H. unfold days_before.
  rewrite (py_range_app 1 a b) by lia. rewrite total_length_app.
  pose proof (total_length_nonneg cal y (py_range a b)). lia.
Qed.

Lemma valid_date_position (cal : Calendar) (t : TimeVector) :
  valid_date cal t ->
  exists i, at_position cal (year t) (cycle t) i (day t).
Proof.
  intros Hv. destruct (valid_date_facts cal t Hv) as [Hc [[l [i [Hl Hi]]] _]].
  destruct (_index_get_item l (day t) i Hi) as [Hr Hg].
  exists i. split; [exact Hc | split; [lia | exists l; split; assumption]].
Qed.

Section DayOfYear.

Variable cal : Calendar.
Hypothesis Hreg : calendar_regular cal.
Variable y : Z.

Lemma count_days_in_cycle_regular (c : Z) :
  1 <= c <= Calendar_count_cycles_in_year cal y ->
  exists l, days_in_cycle cal c y = Ok l /\
            Calendar_count_days_in_cycle cal c y = Ok (py_len l) /\ 0 < py_len l.
Proof.
  intros Hc. destruct (Hreg y) as [_ Hcycles].
  destruct (Hcycles c Hc) as [l [Hl [Hlen _]]].
  exists l. split; [exact Hl |]. split; [| exact Hlen].
  unfold Calendar_count_days_in_cycle. rewrite Hl. reflexivity.
Qed.

Lemma ith_day_in_year_loop_finds (c i : Z) (l : list Z) :
  c <= Calendar_count_cycles_in_year cal y ->
  days_in_cycle cal c y = Ok l -> 0 <= i < py_len l ->
  forall (k : nat) (c' : Z) (l' : list Z) (fuel : nat),
    1 <= c' -> c' + Z.of_nat k = c -> (k < fuel)%nat ->
    days_in_cycle cal c' y = Ok l' ->
    ith_day_in_year_loop fuel cal y c'
      (days_before cal y c - days_before cal y c' + i + 1) (py_len l') = Ok (c, i + 1).
Proof.
  intros HcN Hl Hi. induction k as [| k IH]; intros c' l' fuel Hc' Hk Hfuel Hl'.
  - assert (c' = c) by lia. subst c'. assert (l' = l) by congruence. subst l'.
    destruct fuel as [| fuel]; [lia |]. cbn [ith_day_in_year_loop].
    replace (days_before cal y c - days_before cal y c + i + 1) with (i + 1) by lia.
    replace (py_len l <? i + 1) with false by (symmetry; apply Z.ltb_ge; lia).
    reflexivity.
  - destruct fuel as [| fuel]; [lia |]. cbn [ith_day_in_year_loop].
    pose proof (before_next cal y c' l' Hc' Hl') as Hnext.
    pose proof (before_mono cal y (c' + 1) c ltac:(lia)) as Hmono.
    replace (py_len l' <? days_before cal y c - days_before cal y c' + i + 1) with true
      by (symmetry; apply Z.ltb_lt; lia).
    destruct (count_days_in_cycle_regular (c' + 1) ltac:(lia)) as [l2 [Hl2 [Hn2 _]]].
    rewrite Hn2. cbn [bind].
    replace (days_before cal y c - days_before cal y c' + i + 1 - py_len l')
      with (days_before cal y c - days_before cal y (c' + 1) + i + 1) by lia.
    apply IH; [lia | lia | lia | exact Hl2].
Qed.

End DayOfYear.

(** X6: in a regular calendar, the number of a date in its year lies
    between 1 and the number of days of the year, and
    [Calendar._ith_day_in_year] finds the day of the date back from that
    number. *)
Theorem day_number_round_trip (cal : Calendar) (t : TimeVector) (fuel : nat) :
  calendar_regular cal ->
  valid_date cal t ->
  cycle t <= Z.of_nat fuel ->
  exists n diy,
    MultiDate_day_number_in_year cal t = Ok n /\
    Calendar_count_days_in_year cal (year t) = Ok diy /\
    1 <= n <= diy /\
    Calendar__ith_day_in_year fuel cal (year t) n = Ok (day t).
Proof.
  intros Hreg Hv Hfuel.
  destruct (valid_date_position cal t Hv) as [i Hpos].
  destruct t as [y c x h m s]. cbn [year cycle day] in *.
  destruct (position_list cal Hreg y c i x Hpos)
    as [l [Hl [Hx [Hidx [Hx0 [Hlen [Hle _]]]]]]].
  assert (Hb0 : 0 <= days_before cal y c) by apply total_length_nonneg.
  destruct Hpos as [Hc [Hi _]].
  exists (days_before cal y c + i + 1), (year_days cal y).
  split; [apply (position_day_number cal Hreg y c i x);
          split; [exact Hc | split; [exact Hi | exists l; split; assumption]] |].
  split; [apply year_length; exact Hreg |].
  split; [unfold py_len in *; lia |].
  unfold Calendar__ith_day_in_year.
  destruct (count_days_in_cycle_regular cal Hreg y 1 ltac:(lia)) as [l1 [Hl1 [Hn1 _]]].
  rewrite Hn1. cbn [bind].
  assert (Hb1 : days_before cal y 1 = 0)
    by (unfold days_before; rewrite py_range_empty; reflexivity).
  pose proof (ith_day_in_year_loop_finds cal Hreg y c i l ltac:(lia) Hl ltac:(lia)
                (Z.to_nat (c - 1)) 1 l1 fuel ltac:(lia) ltac:(lia) ltac:(lia) Hl1) as Hloop.
  rewrite Hb1 in Hloop.
  replace (days_before cal y c - 0 + i + 1) with (days_before cal y c + i + 1) in Hloop by lia.
  rewrite Hloop. cbn [bind]. rewrite Hl. cbn [bind].
  replace (i + 1 - 1) with i by lia. exact Hx.
Qed.

Lemma day_number_round_trip_witness :
  exists n diy,
    MultiDate_day_number_in_year CalGregorian (mkTV 1582 10 15 0 0 0) = Ok n /\
    Calendar_count_days_in_year CalGregorian 1582 = Ok diy /\
    1 <= n <= diy /\
    Calendar__ith_day_in_year 12 CalGregorian 1582 n = Ok 15.
Proof.
  apply (day_number_round_trip CalGregorian (mkTV 1582 10 15 0 0 0) 12).
  - exact gregorian_regular.
  - reflexivity.
  - cbn. lia.
Defined.

(** ** Adding cycles *)

Lemma set_year_add_0 (t : TimeVector) : set_year (year t + 0 - 0) t = t.
Proof. destruct t. unfold set_year. cbn. f_equal. lia. Qed.

(** X7: one cycle back.  Where every year has a cycle,
    [add_cycles(-1)] moves a date to the cycle and the year that
    [Calendar._previous_cycle] names, leaving the other slots as they are;
    that cycle is one of its year, and
    [Calendar._count_days_in_previous_cycle] is its number of days. *)
Theorem one_cycle_back_is_the_previous_cycle (cal : Calendar) (t : TimeVector)
    (fuel : nat) :
  (forall y, 1 <= Calendar_count_cycles_in_year cal y) ->
  1 <= cycle t <= Calendar_count_cycles_in_year cal (year t) ->
  let '(c', y') := Calendar__previous_cycle cal (cycle t) (year t) in
  MultiDate_add_cycles cal (S (S fuel)) t (-1) = Ok (set_cycle c' (set_year y' t)) /\
  1 <= c' <= Calendar_count_cycles_in_year cal y' /\
  Calendar__count_days_in_previous_cycle cal (cycle t) (year t) =
    Calendar_count_days_in_cycle cal c' y' /\
  (cycle t = 1 -> c' = Calendar__count_cycles_in_previous_year cal (year t)).
Proof.
  intros HN Hc. unfold Calendar__count_days_in_previous_cycle, Calendar__previous_cycle,
    Calendar__count_cycles_in_previous_year.
  destruct t as [y c x h m s]. cbn [year cycle] in *.
  pose proof (HN y) as Hy. pose proof (HN (y - 1)) as Hy'.
  destruct (Z.eqb_spec c 1) as [-> | Hc1];
    (split; [| split; [lia | split; [reflexivity | first [reflexivity | lia]]]]);
    unfold MultiDate_add_cycles, MultiDate_count_cycles_in_year;
    cbn [year cycle set_year set_cycle]; decide_tests; norm;
    cbn [add_cycles_loop]; unfold MultiDate_count_cycles_in_year; norm;
    decide_tests; norm; decide_tests; norm;
    (f_equal; unfold set_cycle, set_year; cbn; f_equal; lia).
Qed.

Lemma one_cycle_back_is_the_previous_cycle_witness :
  MultiDate_add_cycles CalGregorian 2 (mkTV 2001 1 15 0 0 0) (-1) =
    Ok (mkTV 2000 12 15 0 0 0) /\ 1 <= 12 <= 12 /\
  Calendar__count_days_in_previous_cycle CalGregorian 1 2001 =
    Calendar_count_days_in_cycle CalGregorian 12 2000 /\
  (1 = 1 -> 12 = Calendar__count_cycles_in_previous_year CalGregorian 2001).
Proof.
  apply (one_cycle_back_is_the_previous_cycle CalGregorian (mkTV 2001 1 15 0 0 0) 0).
  - intros y. vm_compute. discriminate.
  - split; vm_compute; discriminate.
Defined.

Section Cycles.

Variable cal : Calendar.
Variable N : Z.
Hypothesis HN : forall y, Calendar_count_cycles_in_year cal y = N.
Hypothesis HN1 : 1 <= N.

Lemma loop_result (a b : TimeVector) (i j : Z) :
  a = b -> i = j ->
  @Ok (TimeVector * Z * bool * Z) (a, i, false, N) = Ok (b, j, false, N).
Proof. intros -> ->. reflexivity. Qed.

Lemma add_cycles_loop_up (k : nat) : forall (fuel : nat) (t : TimeVector) (r : Z),
  N * Z.of_nat k <= r < N * (Z.of_nat k + 1) -> (k < fuel)%nat ->
  add_cycles_loop cal fuel t r false =
  Ok (set_year (year t + Z.of_nat k) t, r - N * Z.of_nat k, false, N).
Proof.
  induction k as [| k IH]; intros fuel t r Hr Hfuel;
    (destruct fuel as [| fuel]; [lia |]); cbn [add_cycles_loop];
    unfold MultiDate_count_cycles_in_year; rewrite HN; cbn [b2z];
    rewrite Z.mul_0_r, Z.add_0_r.
  - replace (N <=? r) with false by (symmetry; apply Z.leb_gt; lia).
    replace (r <? 0) with false by (symmetry; apply Z.ltb_ge; lia).
    cbn [orb negb b2z]. apply loop_result; [destruct t; unfold set_year; cbn; f_equal; lia | lia].
  - replace (N <=? r) with true by (symmetry; apply Z.leb_le; nia).
    replace (r <? 0) with false by (symmetry; apply Z.ltb_ge; nia).
    cbn [orb negb b2z]. rewrite (IH fuel _ (r - N * 1)) by (nia || lia).
    apply loop_result; [destruct t; unfold set_year; cbn; f_equal; lia | lia].
Qed.

Lemma add_cycles_loop_down (k : nat) : forall (fuel : nat) (t : TimeVector) (r : Z),
  - N * Z.of_nat k <= r + N < - N * Z.of_nat k + N -> (k < fuel)%nat ->
  add_cycles_loop cal fuel t r true =
  Ok (set_year (year t - Z.of_nat k) t, r + N * (Z.of_nat k + 1), false, N).
Proof.
  induction k as [| k IH]; intros fuel t r Hr Hfuel;
    (destruct fuel as [| fuel]; [lia |]); cbn [add_cycles_loop];
    unfold MultiDate_count_cycles_in_year; rewrite HN; cbn [b2z];
    rewrite Z.mul_1_r.
  - replace (N <=? r + N) with false by (symmetry; apply Z.leb_gt; lia).
    replace (r + N <? 0) with false by (symmetry; apply Z.ltb_ge; lia).
    cbn [orb negb b2z]. apply loop_result; [destruct t; unfold set_year; cbn; f_equal; lia | lia].
  - replace (N <=? r + N) with false by (symmetry; apply Z.leb_gt; nia).
    replace (r + N <? 0) with true by (symmetry; apply Z.ltb_lt; nia).
    cbn [orb negb b2z]. rewrite (IH fuel _ (r + N - N * 0)) by (nia || lia).
    apply loop_result; [destruct t; unfold set_year; cbn; f_equal; lia | lia].
Qed.

Lemma add_cycles_closed_form (fuel : nat) (t : TimeVector) (k : Z) :
  1 <= cycle t <= N ->
  Z.abs k + 2 <= Z.of_nat fuel ->
  MultiDate_add_cycles cal fuel t k =
  Ok (set_cycle (1 + (cycle t - 1 + k) mod N)
                (set_year (year t + (cycle t - 1 + k) / N) t)).
Proof.
  intros Hc Hfuel. destruct t as [y c x h m s]. cbn [year cycle] in *.
  pose proof (Z.div_mod (c - 1 + k) N ltac:(lia)) as Hdm.
  pose proof (Z.mod_pos_bound (c - 1 + k) N ltac:(lia)) as Hmod.
  set (q := (c - 1 + k) / N) in *. set (r := (c - 1 + k) mod N) in *.
  unfold MultiDate_add_cycles, MultiDate_count_cycles_in_year.
  cbn [year cycle set_year set_cycle]. rewrite HN.
  destruct (Z.ltb_spec (N - c) k) as [Hover | Hnover].
  - (* past the end of the year *)
    replace (k <? 1 - c) with false by (symmetry; apply Z.ltb_ge; lia).
    replace (k <? 0) with false by (symmetry; apply Z.ltb_ge; lia).
    cbn [orb b2z]. rewrite ?Z.mul_1_r, ?Z.mul_1_l, ?Z.mul_0_l, ?Z.add_0_r, ?Z.sub_0_r.
    assert (Hq : 1 <= q) by nia.
    rewrite (add_cycles_loop_up (Z.to_nat (q - 1)) fuel _ (k - (N - c + 1)))
      by (try nia; rewrite ?Z2Nat.id by lia; nia).
    cbn [bind b2z year cycle set_year set_cycle]. rewrite Z2Nat.id by lia.
    f_equal. unfold set_cycle, set_year. cbn. f_equal; nia.
  - destruct (Z.ltb_spec k (1 - c)) as [Hunder | Hnunder].
    + (* before the beginning of the year *)
      replace (k <? 0) with true by (symmetry; apply Z.ltb_lt; lia).
      cbn [orb b2z]. rewrite ?Z.mul_1_r, ?Z.mul_1_l, ?Z.mul_0_l, ?Z.mul_0_r, ?Z.add_0_r,
        ?Z.sub_0_r.
      replace (1 * (1 - 1) * k) with 0 by lia.
      rewrite ?Z.add_0_r, ?Z.sub_0_r.
      assert (Hq : q <= -1) by nia.
      destruct fuel as [| fuel]; [lia |]. cbn [add_cycles_loop].
      unfold MultiDate_count_cycles_in_year. cbn [year cycle set_year set_cycle b2z].
      rewrite HN, Z.mul_0_r, Z.add_0_r.
      replace (N <=? k - (1 - c)) with false by (symmetry; apply Z.leb_gt; lia).
      replace (k - (1 - c) <? 0) with true by (symmetry; apply Z.ltb_lt; lia).
      cbn [orb negb b2z]. rewrite Z.mul_0_r, Z.sub_0_r.
      rewrite (add_cycles_loop_down (Z.to_nat (- q - 1)) fuel _ (k - (1 - c)))
        by (try nia; rewrite ?Z2Nat.id by lia; nia).
      cbn [bind b2z year cycle set_year set_cycle]. rewrite Z2Nat.id by lia.
      f_equal. unfold set_cycle, set_year. cbn. f_equal; nia.
    + (* within the year *)
      assert (Hq : q = 0) by nia.
      cbn [orb b2z]. rewrite ?Z.mul_1_r, ?Z.mul_1_l, ?Z.mul_0_l, ?Z.mul_0_r, ?Z.add_0_r,
        ?Z.sub_0_r.
      destruct (Z.ltb_spec k 0) as [Hneg | Hpos]; cbn [b2z];
        rewrite ?Z.mul_1_r, ?Z.mul_1_l, ?Z.mul_0_l, ?Z.mul_0_r, ?Z.add_0_r, ?Z.sub_0_r.
      * replace (k - k) with 0 by lia.
        rewrite (add_cycles_loop_up 0 fuel _ 0) by (cbn; lia).
        cbn [bind b2z year cycle set_year set_cycle].
        f_equal. unfold set_cycle, set_year. cbn. f_equal; nia.
      * rewrite (add_cycles_loop_up 0 fuel _ k) by (cbn; lia).
        cbn [bind b2z year cycle set_year set_cycle].
        f_equal. unfold set_cycle, set_year. cbn. f_equal; nia.
Qed.

End Cycles.

(** X8: where every year has the same number [N] of cycles (which is the
    case of every built-in calendar), [add_cycles(k)] counts in cycles of
    the year: from the cycle [c] of the year [y] it reaches the cycle
    [1 + (c - 1 + k) mod N] of the year [y + (c - 1 + k) / N], for negative
    [k] as well, and leaves the other slots as they are. *)
Theorem add_cycles_counts_cycles (cal : Calendar) (N : Z) (fuel : nat) (t : TimeVector)
    (k : Z) :
  (forall y, Calendar_count_cycles_in_year cal y = N) ->
  1 <= N ->
  1 <= cycle t <= N ->
  Z.abs k + 2 <= Z.of_nat fuel ->
  MultiDate_add_cycles cal fuel t k =
  Ok (set_cycle (1 + (cycle t - 1 + k) mod N)
                (set_year (year t + (cycle t - 1 + k) / N) t)).
Proof. intros HN HN1. apply add_cycles_closed_form; assumption. Qed.

Lemma add_cycles_counts_cycles_witness :
  MultiDate_add_cycles CalGregorian 16 (mkTV 2001 11 30 6 0 0) 14 =
  Ok (set_cycle (1 + (11 - 1 + 14) mod 12)
                (set_year (2001 + (11 - 1 + 14) / 12) (mkTV 2001 11 30 6 0 0))).
Proof.
  apply (add_cycles_counts_cycles CalGregorian 12 16 (mkTV 2001 11 30 6 0 0) 14).
  - intros y. reflexivity.
  - lia.
  - cbn. lia.
  - cbn. lia.
Defined.

(** X9: under the same condition, adding [a] cycles and then [b] cycles
    is adding [a + b] cycles, and adding [k] cycles and then [-k] gives the
    time vector back. *)
Theorem add_cycles_compose (cal : Calendar) (N : Z) (fuel : nat) (t : TimeVector)
    (a b : Z) :
  (forall y, Calendar_count_cycles_in_year cal y = N) ->
  1 <= N ->
  1 <= cycle t <= N ->
  Z.abs a + Z.abs b + 2 <= Z.of_nat fuel ->
  (do t1 <- MultiDate_add_cycles cal fuel t a; MultiDate_add_cycles cal fuel t1 b)
    = MultiDate_add_cycles cal fuel t (a + b) /\
  (do t1 <- MultiDate_add_cycles cal fuel t a; MultiDate_add_cycles cal fuel t1 (- a))
    = Ok t.
Proof.
  intros HN HN1 Hc Hfuel.
  pose proof (Z.mod_pos_bound (cycle t - 1 + a) N ltac:(lia)) as Hmod.
  pose proof (Z.div_mod (cycle t - 1 + a) N ltac:(lia)) as Hdm.
  assert (Hstep : forall b', Z.abs b' <= Z.abs a + Z.abs b ->
            (do t1 <- MultiDate_add_cycles cal fuel t a; MultiDate_add_cycles cal fuel t1 b')
            = Ok (set_cycle (1 + (cycle t - 1 + (a + b')) mod N)
                            (set_year (year t + (cycle t - 1 + (a + b')) / N) t))).
  { intros b' Hb'.
    rewrite (add_cycles_closed_form cal N HN HN1 fuel t a) by lia. cbn [bind].
    rewrite (add_cycles_closed_form cal N HN HN1 fuel _ b')
      by (cbn [cycle set_cycle set_year]; lia).
    destruct t as [y c x h m s]. cbn [year cycle set_year set_cycle] in *.
    replace (1 + (c - 1 + a) mod N - 1 + b') with ((c - 1 + a) mod N + b') by lia.
    replace (c - 1 + (a + b')) with (b' + (c - 1 + a)) by lia.
    rewrite (Z.add_comm ((c - 1 + a) mod N) b').
    rewrite Z.add_mod_idemp_r by lia.
    replace ((b' + (c - 1 + a)) / N) with ((c - 1 + a) / N + (b' + (c - 1 + a) mod N) / N).
    - unfold set_cycle, set_year. cbn. f_equal. f_equal; lia.
    - rewrite Hdm at 3.
      replace (b' + (N * ((c - 1 + a) / N) + (c - 1 + a) mod N))
        with ((c - 1 + a) / N * N + (b' + (c - 1 + a) mod N)) by lia.
      rewrite Z.div_add_l by lia. reflexivity. }
  split.
  - rewrite (Hstep b) by lia.
    rewrite (add_cycles_closed_form cal N HN HN1 fuel t (a + b)) by lia. reflexivity.
  - rewrite (Hstep (- a)) by lia.
    replace (cycle t - 1 + (a + - a)) with (cycle t - 1) by lia.
    rewrite Z.div_small, Z.mod_small by lia.
    destruct t as [y c x h m s]. unfold set_cycle, set_year. cbn. f_equal. f_equal; lia.
Qed.

Lemma add_cycles_compose_witness :
  (do t1 <- MultiDate_add_cycles CalGregorian 20 (mkTV 2001 11 30 6 0 0) 14;
   MultiDate_add_cycles CalGregorian 20 t1 (-3))
    = MultiDate_add_cycles CalGregorian 20 (mkTV 2001 11 30 6 0 0) (14 + -3) /\
  (do t1 <- MultiDate_add_cycles CalGregorian 20 (mkTV 2001 11 30 6 0 0) 14;
   MultiDate_add_cycles CalGregorian 20 t1 (- 14))
    = Ok (mkTV 2001 11 30 6 0 0).
Proof.
  apply (add_cycles_compose CalGregorian 12 20 (mkTV 2001 11 30 6 0 0) 14 (-3)).
  - intros y. reflexivity.
  - lia.
  - cbn. lia.
  - cbn. lia.
Defined.

(** ** A day that the target cycle does not have *)

Lemma index_from_not_In (l : list Z) (v : Z) : forall i,
  ~ In v l -> index_from l v i = Raise ValueError.
Proof.
  induction l as [| x r IH]; intros i Hn; [reflexivity |].
  cbn [index_from].
  destruct (Z.eqb_spec x v) as [-> | Hne]; [exfalso; apply Hn; left; reflexivity |].
  apply IH. intros Hin. apply Hn. right. exact Hin.
Qed.

(** X10: adding one cycle to a date whose day the next cycle of the year
    does not have (the 31st of January, say) raises [ValueError]: the day
    slot is kept by [add_cycles], and the [add_days] step that follows
    looks it up in the list of days of the new cycle. *)
Theorem adding_a_cycle_onto_a_missing_day (cal : Calendar) (t : TimeVector)
    (l' : list Z) (fuel : nat) :
  calendar_well_formed cal ->
  valid_date cal t ->
  cycle t < Calendar_count_cycles_in_year cal (year t) ->
  days_in_cycle cal (cycle t + 1) (year t) = Ok l' ->
  ~ In (day t) l' ->
  MultiDate__add__ (S fuel) (date_of cal t) one_cycle = Raise ValueError.
Proof.
  intros Hwf Hv HcN Hl' Hnot.
  destruct (valid_date_facts cal t Hv) as [Hc [_ [Hh [Hm Hs]]]].
  unfold MultiDate_count_cycles_in_year in Hc.
  unfold MultiDate__add__, date_of. cbn [times calendars].
  rewrite (valid_date_init cal t Hv). cbn [bind times calendars data mask].
  unfold add_steps, one_cycle, MultiDate_add_years.
  cbn [year cycle day hour minute second].
  rewrite Z.add_0_r, set_year_same.
  destruct t as [y c x h m s]. cbn [year cycle day hour minute second] in *.
  assert (Hcyc : MultiDate_add_cycles cal (S fuel) (mkTV y c x h m s) 1
                 = Ok (mkTV y (c + 1) x h m s)).
  { unfold MultiDate_add_cycles, MultiDate_count_cycles_in_year.
    cbn [year cycle set_year set_cycle]. decide_tests. norm.
    cbn [add_cycles_loop]. unfold MultiDate_count_cycles_in_year. norm.
    decide_tests. norm.
    first [reflexivity | (f_equal; unfold set_cycle, set_year; cbn; f_equal; lia)]. }
  rewrite Hcyc. cbn [bind].
  unfold MultiDate_add_days, MultiDate_count_days_in_year. cbn [year cycle day].
  unfold Calendar_count_days_in_year.
  destruct (Hwf y 1 ltac:(lia)) as [l1 [f0 [Hl1 _]]]. rewrite Hl1. cbn [bind].
  rewrite (sum_days_in_cycles_total cal Hwf)
    by (intros m0 Hin; apply In_py_range in Hin;
        unfold Calendar_count_cycles_in_year in *; lia).
  cbn [bind]. unfold MultiDate_day_number_in_year. cbn [year cycle day].
  rewrite (day_number_loop_total cal Hwf)
    by (cbn [year cycle];
        first [ intros m0 Hin; apply In_py_range in Hin; lia
              | unfold MultiDate_count_cycles_in_year; cbn [year]; lia ]).
  cbn [bind]. unfold MultiDate_day_number_in_cycle. cbn [year cycle day].
  rewrite Hl'. cbn [bind]. unfold _index. rewrite index_from_not_In by exact Hnot.
  reflexivity.
Qed.

Lemma adding_a_cycle_onto_a_missing_day_witness :
  MultiDate__add__ 1 (date_of CalGregorian (mkTV 2001 1 31 0 0 0)) one_cycle
  = Raise ValueError.
Proof.
  apply (adding_a_cycle_onto_a_missing_day CalGregorian (mkTV 2001 1 31 0 0 0)
           (py_range 1 29) 0).
  - exact gregorian_well_formed.
  - reflexivity.
  - vm_compute. reflexivity.
  - reflexivity.
  - vm_compute. intuition discriminate.
Defined.

(** ** Adding nothing *)

(** X11: adding the zero [DeltaT] to a date that the constructor accepted
    (from a list beginning with a year) gives a date equal to it. *)
Theorem adding_zero_changes_nothing (cal : Calendar) (y : Z) (rest : list (option Z))
    (d : MultiDate) (fuel : nat) :
  calendar_well_formed cal ->
  Date (Some y :: rest) cal = Ok d ->
  MultiDate__add__ (S fuel) d zero_deltat = Ok d /\ MultiDate__eq__ d d = true.
Proof.
  intros Hwf Hd.
  assert (Hm : mask_year (mask (times d)) = false).
  { unfold Date in Hd. apply bind_Ok in Hd. destruct Hd as [t0 [Ht0 Hinit]].
    destruct (MultiDate_init_calendars t0 cal d Hinit) as [_ ->].
    unfold _CollectionTime_init, _conversion_to_ma in Ht0.
    cbn [map length] in Ht0.
    destruct rest as [| c [| dd [| h [| m [| s [| z r]]]]]]; cbn in Ht0;
      try discriminate Ht0; injection Ht0 as <-; reflexivity. }
  destruct (Date_year_set _ cal d Hwf Hd Hm) as [E Hv].
  rewrite E. split.
  - apply MultiDate__add__zero; assumption.
  - apply MultiDate__eq__refl.
Qed.

Lemma adding_zero_changes_nothing_witness :
  MultiDate__add__ 1 (date_of CalGregorian (mkTV 2001 6 1 0 0 0)) zero_deltat
    = Ok (date_of CalGregorian (mkTV 2001 6 1 0 0 0)) /\
  MultiDate__eq__ (date_of CalGregorian (mkTV 2001 6 1 0 0 0))
                  (date_of CalGregorian (mkTV 2001 6 1 0 0 0)) = true.
Proof.
  apply (adding_zero_changes_nothing CalGregorian 2001 [Some 6]).
  - exact gregorian_well_formed.
  - vm_compute. reflexivity.
Defined.

(** ** The order of dates *)

Lemma lexicographic_flip (a : list Z) : forall b,
  lexicographic false a b = negb (lexicographic true b a).
Proof.
  induction a as [| x a IH]; intros [| y b]; try reflexivity.
  cbn [lexicographic].
  destruct (Z.ltb_spec x y); destruct (Z.ltb_spec y x); try reflexivity; try lia.
  apply IH.
Qed.

Lemma lexicographic_eq (a b : TimeVector) :
  lexicographic true (tv_list a) (tv_list b) =
  lexicographic false (tv_list a) (tv_list b) || tv_eqb a b.
Proof.
  destruct a as [y c d h m s], b as [y' c' d' h' m' s'].
  unfold tv_list, tv_eqb. cbn [lexicographic year cycle day hour minute second].
  repeat match goal with
         | |- context [?a <? ?b] =>
             destruct (Z.ltb_spec a b); cbn [orb andb]; try reflexivity; try lia
         end;
    repeat match goal with
           | |- context [?a =? ?b] =>
               destruct (Z.eqb_spec a b); cbn [orb andb]; try reflexivity; try lia
           end.
Qed.

(** X12: dates of one calendar are totally ordered by the four order
    operators and [==]: of [<], [==] and [>] exactly one holds, [<=] is
    [<] or [==], and [>=] is the negation of [<]. *)
Theorem dates_are_totally_ordered (cal : Calendar) (a b : TimeVector) :
  valid_date cal a ->
  valid_date cal b ->
  exists lt gt : bool,
    let eq := MultiDate__eq__ (date_of cal a) (date_of cal b) in
    MultiDate__lt__ (date_of cal a) (date_of cal b) = Ok (mkCompared lt []) /\
    MultiDate__gt__ (date_of cal a) (date_of cal b) = Ok (mkCompared gt []) /\
    MultiDate__le__ (date_of cal a) (date_of cal b) = Ok (mkCompared (lt || eq) []) /\
    MultiDate__ge__ (date_of cal a) (date_of cal b) = Ok (mkCompared (negb lt) []) /\
    (b2z lt + b2z eq + b2z gt = 1) /\
    (eq = true <-> a = b).
Proof.
  intros Ha Hb.
  exists (lexicographic false (tv_list a) (tv_list b)),
         (lexicographic false (tv_list b) (tv_list a)).
  cbn zeta.
  unfold MultiDate__lt__, MultiDate__gt__, MultiDate__le__, MultiDate__ge__.
  rewrite !(MultiDate_compare_valid cal _ a b Hb).
  rewrite lt_chain_lexicographic, gt_chain_lexicographic, le_chain_lexicographic,
    ge_chain_lexicographic.
  assert (Heq : MultiDate__eq__ (date_of cal a) (date_of cal b) = tv_eqb a b).
  { unfold MultiDate__eq__, date_of, _CollectionTime_eq. cbn [times calendars data mask].
    rewrite Calendar_eq_refl. replace (mask_eqb nomask nomask) with true by reflexivity.
    destruct (tv_eqb a b); reflexivity. }
  rewrite Heq.
  split; [reflexivity |]. split; [reflexivity |].
  split; [rewrite lexicographic_eq; reflexivity |].
  split; [rewrite (lexicographic_flip (tv_list a)), negb_involutive; reflexivity |].
  destruct a as [y c d h m s], b as [y' c' d' h' m' s'].
  unfold tv_list, tv_eqb. cbn [lexicographic year cycle day hour minute second].
  split.
  - repeat match goal with
           | |- context [?a <? ?b] =>
               destruct (Z.ltb_spec a b); cbn [orb andb b2z]; try reflexivity; try lia
           end;
      repeat match goal with
             | |- context [?a =? ?b] =>
                 destruct (Z.eqb_spec a b); cbn [orb andb b2z]; try reflexivity; try lia
             end.
  - split.
    + intros H. repeat (apply andb_prop in H; destruct H as [H ?]).
      repeat match goal with E : (_ =? _) = true |- _ => apply Z.eqb_eq in E end.
      congruence.
    + intros H. injection H as -> -> -> -> -> ->. rewrite !Z.eqb_refl. reflexivity.
Qed.

Lemma dates_are_totally_ordered_witness :
  exists lt gt : bool,
    let a := mkTV 2001 1 1 0 0 0 in
    let b := mkTV 2001 6 1 0 0 0 in
    let eq := MultiDate__eq__ (date_of CalGregorian a) (date_of CalGregorian b) in
    MultiDate__lt__ (date_of CalGregorian a) (date_of CalGregorian b)
      = Ok (mkCompared lt []) /\
    MultiDate__gt__ (date_of CalGregorian a) (date_of CalGregorian b)
      = Ok (mkCompared gt []) /\
    MultiDate__le__ (date_of CalGregorian a) (date_of CalGregorian b)
      = Ok (mkCompared (lt || eq) []) /\
    MultiDate__ge__ (date_of CalGregorian a) (date_of CalGregorian b)
      = Ok (mkCompared (negb lt) []) /\
    (b2z lt + b2z eq + b2z gt = 1) /\
    (eq = true <-> a = b).
Proof.
  apply (dates_are_totally_ordered CalGregorian (mkTV 2001 1 1 0 0 0) (mkTV 2001 6 1 0 0 0)).
  - reflexivity.
  - reflexivity.
Defined.

(** ** Periods *)

Section PeriodsOfValidDates.

Variable cal : Calendar.
Variables t0 t1 : TimeVector.
Hypothesis H0 : valid_date cal t0.
Hypothesis H1 : valid_date cal t1.

Lemma Period_init_valid (lo ro : bool) :
  Period_init (mkMA t0 nomask) (mkMA t1 nomask) lo ro cal =
  if lexicographic false (tv_list t0) (tv_list t1)
  then Ok (mkPeriod (mkMA t0 nomask) (mkMA t1 nomask) lo ro cal)
  else Raise (TimelyError "Initial date must precede final date.").
Proof.
  unfold Period_init, initial_date, final_date.
  rewrite (valid_date_init cal t0 H0), (valid_date_init cal t1 H1).
  cbn [bind times initial final period_calendar].
  rewrite (valid_date_init cal t0 H0), (valid_date_init cal t1 H1). cbn [bind].
  fold (date_of cal t0). fold (date_of cal t1). unfold MultiDate__ge__.
  rewrite (MultiDate_compare_valid cal _ t0 t1 H1). cbn [bind value].
  rewrite ge_chain_lexicographic, (lexicographic_flip (tv_list t0)).
  destruct (lexicographic true (tv_list t1) (tv_list t0)); reflexivity.
Qed.

End PeriodsOfValidDates.

(** X13: [explicit_period] accepts two dates of one calendar exactly when
    the first is before the second in the lexicographic order of the six
    slots; otherwise, an equal pair included, it raises [TimelyError].  Two
    dates whose calendars have different aliases are refused whatever their
    order. *)
Theorem explicit_period_needs_increasing_dates (cal : Calendar) (t0 t1 : TimeVector)
    (lo ro : bool) :
  valid_date cal t0 ->
  valid_date cal t1 ->
  explicit_period (date_of cal t0) (date_of cal t1) lo ro =
    (if lexicographic false (tv_list t0) (tv_list t1)
     then Ok (mkPeriod (mkMA t0 nomask) (mkMA t1 nomask) lo ro cal)
     else Raise (TimelyError "Initial date must precede final date.")) /\
  forall cal' : Calendar, alias cal <> alias cal' ->
    explicit_period (date_of cal t0) (date_of cal' t1) lo ro =
    Raise (TimelyError "The two dates defining the period must have the same calendar.").
Proof.
  intros H0 H1. split.
  - unfold explicit_period, Calendar_ne, date_of. cbn [calendars times].
    rewrite String.eqb_refl. cbn [negb]. apply Period_init_valid; assumption.
  - intros cal' Hne. unfold explicit_period, Calendar_ne, date_of. cbn [calendars].
    destruct (String.eqb_spec (alias cal) (alias cal')); [contradiction | reflexivity].
Qed.

Lemma explicit_period_needs_increasing_dates_witness :
  explicit_period (date_of CalGregorian (mkTV 2001 6 1 0 0 0))
                  (date_of CalGregorian (mkTV 2001 6 1 0 0 0)) false false =
    (if lexicographic false (tv_list (mkTV 2001 6 1 0 0 0)) (tv_list (mkTV 2001 6 1 0 0 0))
     then Ok (mkPeriod (mkMA (mkTV 2001 6 1 0 0 0) nomask) (mkMA (mkTV 2001 6 1 0 0 0) nomask)
                       false false CalGregorian)
     else Raise (TimelyError "Initial date must precede final date.")) /\
  forall cal' : Calendar, alias CalGregorian <> alias cal' ->
    explicit_period (date_of CalGregorian (mkTV 2001 6 1 0 0 0))
                    (date_of cal' (mkTV 2001 6 1 0 0 0)) false false =
    Raise (TimelyError "The two dates defining the period must have the same calendar.").
Proof.
  apply (explicit_period_needs_increasing_dates CalGregorian (mkTV 2001 6 1 0 0 0)
           (mkTV 2001 6 1 0 0 0) false false); reflexivity.
Defined.

(** A period as [explicit_period] builds it from two dates. *)
Lemma Period_dates (cal : Calendar) (t0 t1 : TimeVector) (lo ro : bool) :
  valid_date cal t0 -> valid_date cal t1 ->
  let p := mkPeriod (mkMA t0 nomask) (mkMA t1 nomask) lo ro cal in
  initial_date p = Ok (date_of cal t0) /\ final_date p = Ok (date_of cal t1).
Proof.
  intros H0 H1. unfold initial_date, final_date. cbn [initial final period_calendar].
  rewrite (valid_date_init cal t0 H0), (valid_date_init cal t1 H1). split; reflexivity.
Qed.

(** X14: [Period.contains] is strict at both ends whatever [left_open]
    and [right_open] say: a date is contained when it is after the initial
    date and before the final date, so that a period, closed or not,
    contains neither its initial nor its final date. *)
Theorem contains_is_strict_at_both_ends (cal : Calendar) (t0 t1 t : TimeVector)
    (lo ro : bool) :
  valid_date cal t0 -> valid_date cal t1 -> valid_date cal t ->
  let p := mkPeriod (mkMA t0 nomask) (mkMA t1 nomask) lo ro cal in
  Period_contains p (ADate (date_of cal t)) =
    Ok (lexicographic false (tv_list t0) (tv_list t) &&
        lexicographic false (tv_list t) (tv_list t1)) /\
  Period_contains p (ADate (date_of cal t0)) = Ok false /\
  Period_contains p (ADate (date_of cal t1)) = Ok false.
Proof.
  intros H0 H1 Ht p.
  assert (Hgen : forall u, valid_date cal u ->
            Period_contains p (ADate (date_of cal u)) =
            Ok (lexicographic false (tv_list t0) (tv_list u) &&
                lexicographic false (tv_list u) (tv_list t1))).
  { intros u Hu. unfold Period_contains.
    destruct (Period_dates cal t0 t1 lo ro H0 H1) as [Hi Hf]. fold p in Hi, Hf.
    rewrite Hi. cbn [bind]. unfold MultiDate__lt__, MultiDate__gt__.
    rewrite (MultiDate_compare_valid cal _ t0 u Hu). cbn [bind value].
    rewrite lt_chain_lexicographic.
    destruct (lexicographic false (tv_list t0) (tv_list u)); [| reflexivity].
    rewrite Hf. cbn [bind]. rewrite (MultiDate_compare_valid cal _ t1 u Hu).
    cbn [bind value]. rewrite gt_chain_lexicographic.
    destruct (lexicographic false (tv_list u) (tv_list t1)); reflexivity. }
  assert (Hirr : forall u, lexicographic false (tv_list u) (tv_list u) = false).
  { intros [y c d h m s]. unfold tv_list. cbn [lexicographic year cycle day hour minute second].
    rewrite !Z.ltb_irrefl. reflexivity. }
  split; [apply Hgen; exact Ht |]. split.
  - rewrite (Hgen t0 H0), Hirr. reflexivity.
  - rewrite (Hgen t1 H1), Hirr, andb_false_r. reflexivity.
Qed.

Lemma contains_is_strict_at_both_ends_witness :
  let t0 := mkTV 2001 1 1 0 0 0 in
  let t1 := mkTV 2002 1 1 0 0 0 in
  let t := mkTV 2001 6 1 0 0 0 in
  let p := mkPeriod (mkMA t0 nomask) (mkMA t1 nomask) false false CalGregorian in
  Period_contains p (ADate (date_of CalGregorian t)) =
    Ok (lexicographic false (tv_list t0) (tv_list t) &&
        lexicographic false (tv_list t) (tv_list t1)) /\
  Period_contains p (ADate (date_of CalGregorian t0)) = Ok false /\
  Period_contains p (ADate (date_of CalGregorian t1)) = Ok false.
Proof.
  apply (contains_is_strict_at_both_ends CalGregorian (mkTV 2001 1 1 0 0 0)
           (mkTV 2002 1 1 0 0 0) (mkTV 2001 6 1 0 0 0) false false); reflexivity.
Defined.

(** X15: [Period.overlap] is symmetric, and it looks at the dates only:
    two periods overlap when neither begins after the other ends, so that a
    period ending where the other begins overlaps it even when that end is
    open. *)
Theorem overlap_is_symmetric (cal : Calendar) (a0 a1 b0 b1 : TimeVector)
    (lo ro lo' ro' : bool) :
  valid_date cal a0 -> valid_date cal a1 -> valid_date cal b0 -> valid_date cal b1 ->
  let p := mkPeriod (mkMA a0 nomask) (mkMA a1 nomask) lo ro cal in
  let q := mkPeriod (mkMA b0 nomask) (mkMA b1 nomask) lo' ro' cal in
  Period_overlap p q =
    Ok (lexicographic true (tv_list a0) (tv_list b1) &&
        lexicographic true (tv_list b0) (tv_list a1)) /\
  Period_overlap q p = Period_overlap p q /\
  (a1 = b0 -> lexicographic true (tv_list a0) (tv_list b1) = true ->
   Period_overlap p q = Ok true).
Proof.
  intros Ha0 Ha1 Hb0 Hb1 p q.
  assert (Hgen : forall u0 u1 v0 v1 l r l' r',
            valid_date cal u0 -> valid_date cal u1 -> valid_date cal v0 -> valid_date cal v1 ->
            Period_overlap (mkPeriod (mkMA u0 nomask) (mkMA u1 nomask) l r cal)
                           (mkPeriod (mkMA v0 nomask) (mkMA v1 nomask) l' r' cal) =
            Ok (lexicographic true (tv_list u0) (tv_list v1) &&
                lexicographic true (tv_list v0) (tv_list u1))).
  { intros u0 u1 v0 v1 l r l' r' Hu0 Hu1 Hv0 Hv1. unfold Period_overlap.
    destruct (Period_dates cal u0 u1 l r Hu0 Hu1) as [Hi Hf].
    destruct (Period_dates cal v0 v1 l' r' Hv0 Hv1) as [Hi' Hf']. cbn zeta in *.
    rewrite Hi, Hf'. cbn [bind]. unfold MultiDate__gt__.
    rewrite (MultiDate_compare_valid cal _ u0 v1 Hv1). cbn [bind value].
    rewrite gt_chain_lexicographic, (lexicographic_flip (tv_list v1)).
    destruct (lexicographic true (tv_list u0) (tv_list v1)); [| reflexivity].
    cbn [negb andb]. rewrite Hi', Hf. cbn [bind].
    rewrite (MultiDate_compare_valid cal _ v0 u1 Hu1). cbn [bind value].
    rewrite gt_chain_lexicographic, (lexicographic_flip (tv_list u1)).
    destruct (lexicographic true (tv_list v0) (tv_list u1)); reflexivity. }
  split; [apply Hgen; assumption |]. split.
  - unfold p, q. rewrite !Hgen by assumption. rewrite andb_comm. reflexivity.
  - intros -> Hle. unfold p, q. rewrite Hgen by assumption. rewrite Hle.
    rewrite lexicographic_eq, tv_eqb_refl, orb_true_r. reflexivity.
Qed.

Lemma overlap_is_symmetric_witness :
  let a0 := mkTV 2001 1 1 0 0 0 in
  let a1 := mkTV 2002 1 1 0 0 0 in
  let b1 := mkTV 2003 1 1 0 0 0 in
  let p := mkPeriod (mkMA a0 nomask) (mkMA a1 nomask) false true CalGregorian in
  let q := mkPeriod (mkMA a1 nomask) (mkMA b1 nomask) false true CalGregorian in
  Period_overlap p q =
    Ok (lexicographic true (tv_list a0) (tv_list b1) &&
        lexicographic true (tv_list a1) (tv_list a1)) /\
  Period_overlap q p = Period_overlap p q /\
  (a1 = a1 -> lexicographic true (tv_list a0) (tv_list b1) = true ->
   Period_overlap p q = Ok true).
Proof.
  apply (overlap_is_symmetric CalGregorian (mkTV 2001 1 1 0 0 0) (mkTV 2002 1 1 0 0 0)
           (mkTV 2002 1 1 0 0 0) (mkTV 2003 1 1 0 0 0) false true false true); reflexivity.
Defined.

(** X16: [Period.__eq__] and [Period.equals] compare the two dates only:
    two periods on the same dates are equal whether their ends are open or
    closed, and periods that differ in a date are not. *)
Theorem period_equality_ignores_open_ends (cal : Calendar) (a0 a1 b0 b1 : TimeVector)
    (lo ro lo' ro' : bool) :
  valid_date cal a0 -> valid_date cal a1 -> valid_date cal b0 -> valid_date cal b1 ->
  let p := mkPeriod (mkMA a0 nomask) (mkMA a1 nomask) lo ro cal in
  let q := mkPeriod (mkMA b0 nomask) (mkMA b1 nomask) lo' ro' cal in
  Period__eq__ p q = Ok (tv_eqb a0 b0 && tv_eqb a1 b1) /\
  Period_equals p (APeriod q) = Ok (tv_eqb a0 b0 && tv_eqb a1 b1) /\
  Period_equals p (APeriod (mkPeriod (mkMA a0 nomask) (mkMA a1 nomask) (negb lo) (negb ro) cal))
    = Ok true.
Proof.
  intros Ha0 Ha1 Hb0 Hb1 p q.
  assert (Heq : forall a b, MultiDate__eq__ (date_of cal a) (date_of cal b) = tv_eqb a b).
  { intros a b. unfold MultiDate__eq__, date_of, _CollectionTime_eq.
    cbn [times calendars data mask].
    rewrite Calendar_eq_refl. replace (mask_eqb nomask nomask) with true by reflexivity.
    destruct (tv_eqb a b); reflexivity. }
  assert (Hgen : forall u0 u1 v0 v1 l r l' r',
            valid_date cal u0 -> valid_date cal u1 -> valid_date cal v0 -> valid_date cal v1 ->
            Period__eq__ (mkPeriod (mkMA u0 nomask) (mkMA u1 nomask) l r cal)
                         (mkPeriod (mkMA v0 nomask) (mkMA v1 nomask) l' r' cal) =
            Ok (tv_eqb u0 v0 && tv_eqb u1 v1)).
  { intros u0 u1 v0 v1 l r l' r' Hu0 Hu1 Hv0 Hv1. unfold Period__eq__.
    destruct (Period_dates cal u0 u1 l r Hu0 Hu1) as [Hi Hf].
    destruct (Period_dates cal v0 v1 l' r' Hv0 Hv1) as [Hi' Hf']. cbn zeta in *.
    rewrite Hi, Hi'. cbn [bind]. rewrite Heq.
    destruct (tv_eqb u0 v0); [| reflexivity].
    rewrite Hf, Hf'. cbn [bind]. rewrite Heq.
    destruct (tv_eqb u1 v1); reflexivity. }
  split; [apply Hgen; assumption |]. split.
  - unfold Period_equals, p, q. rewrite Hgen by assumption. cbn [bind].
    destruct (tv_eqb a0 b0 && tv_eqb a1 b1); reflexivity.
  - unfold Period_equals, p. rewrite Hgen by assumption. cbn [bind].
    rewrite !tv_eqb_refl. reflexivity.
Qed.

Lemma period_equality_ignores_open_ends_witness :
  let a0 := mkTV 2001 1 1 0 0 0 in
  let a1 := mkTV 2002 1 1 0 0 0 in
  let p := mkPeriod (mkMA a0 nomask) (mkMA a1 nomask) false false CalGregorian in
  let q := mkPeriod (mkMA a0 nomask) (mkMA a1 nomask) false true CalGregorian in
  Period__eq__ p q = Ok (tv_eqb a0 a0 && tv_eqb a1 a1) /\
  Period_equals p (APeriod q) = Ok (tv_eqb a0 a0 && tv_eqb a1 a1) /\
  Period_equals p (APeriod (mkPeriod (mkMA a0 nomask) (mkMA a1 nomask) (negb false)
                                     (negb false) CalGregorian))
    = Ok true.
Proof.
  apply (period_equality_ignores_open_ends CalGregorian (mkTV 2001 1 1 0 0 0)
           (mkTV 2002 1 1 0 0 0) (mkTV 2001 1 1 0 0 0) (mkTV 2002 1 1 0 0 0)
           false false false true); reflexivity.
Defined.

(** ** Counting the days and the seconds of a period *)

Section CountingDays.

Variable cal : Calendar.
Hypothesis Hreg : calendar_regular cal.

Variables y0 c0 i0 x0 h0 m0 s0 : Z.
Variables y1 c1 i1 x1 h1 m1 s1 : Z.
Hypothesis Hpos0 : at_position cal y0 c0 i0 x0.
Hypothesis Hpos1 : at_position cal y1 c1 i1 x1.
Variables lo ro : bool.

Local Abbreviation T0 := (mkTV y0 c0 x0 h0 m0 s0).
Local Abbreviation T1 := (mkTV y1 c1 x1 h1 m1 s1).
Local Abbreviation P := (mkPeriod (mkMA T0 nomask) (mkMA T1 nomask) lo ro cal).

Lemma day_number_in_cycle_at (y c i x h m s : Z) :
  at_position cal y c i x ->
  MultiDate_day_number_in_cycle cal (mkTV y c x h m s) = Ok (i + 1).
Proof.
  intros Hpos.
  destruct (position_list cal Hreg y c i x Hpos) as [l [Hl [_ [Hidx _]]]].
  unfold MultiDate_day_number_in_cycle. cbn [year cycle day].
  rewrite Hl. cbn [bind]. rewrite Hidx. reflexivity.
Qed.

Lemma cycle_length_list (y c : Z) (l : list Z) :
  days_in_cycle cal c y = Ok l -> cycle_length cal y c = py_len l.
Proof. intros H. unfold cycle_length. rewrite H. reflexivity. Qed.

Lemma initial_year_cycles_before (ccs : list Z) : forall acc,
  (forall cc, In cc ccs -> 1 <= cc < c0) ->
  initial_year_cycles P y0 ccs true acc = Ok (acc - total_length cal y0 ccs).
Proof.
  destruct Hpos0 as [Hc0 _].
  induction ccs as [| cc rest IH]; intros acc Hin.
  - cbn. f_equal. lia.
  - cbn [initial_year_cycles period_calendar initial final data].
    assert (Hcc : 1 <= cc < c0) by (apply Hin; left; reflexivity).
    destruct (count_days_in_cycle_regular cal Hreg y0 cc ltac:(lia)) as [l [Hl [Hn _]]].
    rewrite Hn. cbn [bind].
    rewrite (day_number_in_cycle_at y0 c0 i0 x0 h0 m0 s0 Hpos0),
      (day_number_in_cycle_at y1 c1 i1 x1 h1 m1 s1 Hpos1). cbn [bind cycle].
    replace (cc =? c0) with false by (symmetry; apply Z.eqb_neq; lia).
    replace (cc <? c0) with true by (symmetry; apply Z.ltb_lt; lia).
    cbn [b2z]. rewrite IH by (intros; apply Hin; right; assumption).
    rewrite total_length_cons, (cycle_length_list y0 cc l Hl). f_equal. lia.
Qed.

Lemma initial_year_cycles_app (l1 l2 : list Z) : forall y f acc,
  initial_year_cycles P y (l1 ++ l2)%list f acc =
  (do a <- initial_year_cycles P y l1 f acc; initial_year_cycles P y l2 f a).
Proof.
  induction l1 as [| cc rest IH]; intros y f acc; [reflexivity |].
  cbn [app initial_year_cycles].
  destruct (Calendar_count_days_in_cycle _ _ _); cbn [bind]; try reflexivity.
  destruct (MultiDate_day_number_in_cycle _ _); cbn [bind]; try reflexivity.
  destruct (MultiDate_day_number_in_cycle _ _); cbn [bind]; try reflexivity.
  apply IH.
Qed.

Lemma initial_year_total (acc : Z) :
  initial_year_cycles P y0 (py_range 1 (c0 + 1)) true acc =
  Ok (acc - (days_before cal y0 c0 + i0)).
Proof.
  pose proof Hpos0 as [Hc0 _].
  rewrite (py_range_app 1 c0 (c0 + 1)) by lia.
  rewrite initial_year_cycles_app.
  rewrite initial_year_cycles_before by (intros cc Hin; apply In_py_range in Hin; lia).
  cbn [bind]. rewrite (py_range_cons c0 (c0 + 1)) by lia.
  replace (c0 + 1) with (c0 + 1 + 0) at 1 by lia.
  rewrite Z.add_0_r, py_range_empty.
  cbn [initial_year_cycles period_calendar initial final data].
  destruct (count_days_in_cycle_regular cal Hreg y0 c0 ltac:(lia)) as [l [Hl [Hn _]]].
  rewrite Hn. cbn [bind].
  rewrite (day_number_in_cycle_at y0 c0 i0 x0 h0 m0 s0 Hpos0),
    (day_number_in_cycle_at y1 c1 i1 x1 h1 m1 s1 Hpos1). cbn [bind cycle].
  rewrite Z.eqb_refl, Z.ltb_irrefl. cbn [b2z]. unfold days_before. f_equal. lia.
Qed.

Lemma final_year_cycles_after (ccs : list Z) : forall acc,
  (forall cc, In cc ccs -> c1 < cc <= Calendar_count_cycles_in_year cal y1) ->
  final_year_cycles P y1 ccs true acc = Ok (acc - total_length cal y1 ccs).
Proof.
  destruct Hpos1 as [Hc1 _].
  induction ccs as [| cc rest IH]; intros acc Hin.
  - cbn. f_equal. lia.
  - cbn [final_year_cycles period_calendar initial final data].
    assert (Hcc : c1 < cc <= Calendar_count_cycles_in_year cal y1)
      by (apply Hin; left; reflexivity).
    destruct (count_days_in_cycle_regular cal Hreg y1 cc ltac:(lia)) as [l [Hl [Hn _]]].
    rewrite Hn. cbn [bind].
    rewrite (day_number_in_cycle_at y0 c0 i0 x0 h0 m0 s0 Hpos0),
      (day_number_in_cycle_at y1 c1 i1 x1 h1 m1 s1 Hpos1). cbn [bind cycle].
    replace (cc =? c1) with false by (symmetry; apply Z.eqb_neq; lia).
    replace (c1 <? cc) with true by (symmetry; apply Z.ltb_lt; lia).
    cbn [b2z]. rewrite IH by (intros; apply Hin; right; assumption).
    rewrite total_length_cons, (cycle_length_list y1 cc l Hl). f_equal. lia.
Qed.

Lemma final_year_total (y acc : Z) :
  y = y1 ->
  final_year_cycles P y (py_range c1 (Calendar_count_cycles_in_year cal y1 + 1)) true acc =
  Ok (acc - (year_days cal y1 - (days_before cal y1 c1 + i1 + 1))).
Proof.
  intros ->. pose proof Hpos1 as [Hc1 _].
  destruct (position_list cal Hreg y1 c1 i1 x1 Hpos1) as [l [Hl _]].
  rewrite (py_range_cons c1) by lia.
  cbn [final_year_cycles period_calendar initial final data].
  destruct (count_days_in_cycle_regular cal Hreg y1 c1 ltac:(lia)) as [l' [Hl' [Hn _]]].
  assert (l' = l) by congruence. subst l'.
  rewrite Hn. cbn [bind].
  rewrite (day_number_in_cycle_at y0 c0 i0 x0 h0 m0 s0 Hpos0),
    (day_number_in_cycle_at y1 c1 i1 x1 h1 m1 s1 Hpos1). cbn [bind cycle].
  rewrite Z.eqb_refl, Z.ltb_irrefl. cbn [b2z].
  rewrite final_year_cycles_after by (intros cc Hin; apply In_py_range in Hin; lia).
  pose proof (before_next cal y1 c1 l ltac:(lia) Hl) as Hnext.
  pose proof (before_end cal y1) as Hend.
  unfold days_before in *.
  rewrite (py_range_app 1 (c1 + 1) (Calendar_count_cycles_in_year cal y1 + 1)) in Hend by lia.
  rewrite total_length_app in Hend. f_equal. lia.
Qed.

Lemma count_days_years_app (l1 l2 : list Z) : forall acc,
  count_days_years P (l1 ++ l2)%list acc =
  (do a <- count_days_years P l1 acc; count_days_years P l2 a).
Proof.
  induction l1 as [| y rest IH]; intros acc; [reflexivity |].
  cbn [app count_days_years].
  destruct (if (_ <=? _) && (_ <=? _) then _ else _); cbn [bind]; try reflexivity.
  destruct (if _ =? _ then _ else _); cbn [bind]; try reflexivity.
  destruct (if _ =? _ then _ else _); cbn [bind]; try reflexivity.
  apply IH.
Qed.

Lemma count_days_years_between (ys : list Z) : forall acc,
  (forall y, In y ys -> y0 < y < y1) ->
  count_days_years P ys acc = Ok (acc + years_length cal ys).
Proof.
  induction ys as [| y rest IH]; intros acc Hin.
  - cbn. f_equal. lia.
  - cbn [count_days_years period_calendar initial final data year].
    assert (Hy : y0 < y < y1) by (apply Hin; left; reflexivity).
    replace (y =? y0) with false by (symmetry; apply Z.eqb_neq; lia).
    replace (y =? y1) with false by (symmetry; apply Z.eqb_neq; lia).
    replace (y0 <=? y) with true by (symmetry; apply Z.leb_le; lia).
    replace (y <=? y1) with true by (symmetry; apply Z.leb_le; lia).
    cbn [andb]. rewrite (year_length cal Hreg y). cbn [bind b2z].
    rewrite IH by (intros; apply Hin; right; assumption).
    cbn [years_length fold_right]. f_equal. unfold years_length. lia.
Qed.

Lemma years_length_app (l1 l2 : list Z) :
  years_length cal (l1 ++ l2)%list = years_length cal l1 + years_length cal l2.
Proof.
  induction l1 as [| y r IH]; [reflexivity |].
  cbn [app]. unfold years_length in *. cbn [fold_right]. rewrite IH. lia.
Qed.

Lemma count_days_years_total :
  y0 <= y1 ->
  count_days_years P (py_range y0 (y1 + 1)) 0 =
  Ok (years_length cal (py_range y0 y1)
      + (days_before cal y1 c1 + i1 + 1) - (days_before cal y0 c0 + i0 + 1) + 1).
Proof.
  intros Hy.
  destruct (Z.eq_dec y0 y1) as [E | Hne].
  - rewrite (py_range_cons y0) by lia.
    replace (py_range (y0 + 1) (y1 + 1)) with (@nil Z)
      by (rewrite <- E; symmetry; apply py_range_empty).
    replace (py_range y0 y1) with (@nil Z) by (rewrite <- E; symmetry; apply py_range_empty).
    cbn [count_days_years period_calendar initial final data year cycle years_length
         fold_right].
    rewrite Z.eqb_refl.
    replace (y0 =? y1) with true by (symmetry; apply Z.eqb_eq; exact E).
    replace (y0 <=? y0) with true by (symmetry; apply Z.leb_le; lia).
    replace (y0 <=? y1) with true by (symmetry; apply Z.leb_le; lia).
    cbn [andb]. rewrite (year_length cal Hreg y0). cbn [bind b2z].
    rewrite initial_year_total. cbn [bind].
    unfold MultiDate_count_cycles_in_year. cbn [year].
    rewrite final_year_total by exact E. cbn [bind].
    f_equal. rewrite <- E. lia.
  - rewrite (py_range_cons y0 (y1 + 1)) by lia.
    rewrite (py_range_app (y0 + 1) y1 (y1 + 1)) by lia.
    rewrite (py_range_cons y1 (y1 + 1)) by lia.
    replace (py_range (y1 + 1) (y1 + 1)) with (@nil Z) by (symmetry; apply py_range_empty).
    rewrite (py_range_cons y0 y1) by lia.
    change (y0 :: (py_range (y0 + 1) y1 ++ [y1])%list)
      with ([y0] ++ (py_range (y0 + 1) y1 ++ [y1]))%list.
    rewrite count_days_years_app.
    cbn [count_days_years period_calendar initial final data year cycle].
    rewrite Z.eqb_refl.
    replace (y0 =? y1) with false by (symmetry; apply Z.eqb_neq; lia).
    replace (y0 <=? y0) with true by (symmetry; apply Z.leb_le; lia).
    replace (y0 <=? y1) with true by (symmetry; apply Z.leb_le; lia).
    cbn [andb]. rewrite (year_length cal Hreg y0). cbn [bind b2z].
    rewrite initial_year_total. cbn [bind].
    rewrite count_days_years_app.
    rewrite count_days_years_between by (intros y Hin; apply In_py_range in Hin; lia).
    cbn [bind count_days_years period_calendar initial final data year cycle].
    rewrite Z.eqb_refl.
    replace (y1 =? y0) with false by (symmetry; apply Z.eqb_neq; lia).
    replace (y0 <=? y1) with true by (symmetry; apply Z.leb_le; lia).
    replace (y1 <=? y1) with true by (symmetry; apply Z.leb_le; lia).
    cbn [andb]. rewrite (year_length cal Hreg y1). cbn [bind b2z].
    unfold MultiDate_count_cycles_in_year. cbn [year].
    rewrite final_year_total by reflexivity. cbn [bind].
    cbn [years_length fold_right]. fold (years_length cal (py_range (y0 + 1) y1)).
    f_equal. lia.
Qed.

End CountingDays.

Lemma count_days_years_valid (cal : Calendar) (t0 t1 : TimeVector) (lo ro : bool) :
  calendar_regular cal -> valid_date cal t0 -> valid_date cal t1 -> year t0 <= year t1 ->
  exists n0 n1,
    MultiDate_day_number_in_year cal t0 = Ok n0 /\
    MultiDate_day_number_in_year cal t1 = Ok n1 /\
    count_days_years (mkPeriod (mkMA t0 nomask) (mkMA t1 nomask) lo ro cal)
                     (py_range (year t0) (year t1 + 1)) 0 =
    Ok (years_length cal (py_range (year t0) (year t1)) + n1 - n0 + 1).
Proof.
  intros Hreg H0 H1 Hy.
  destruct (valid_date_position cal t0 H0) as [i0 Hp0].
  destruct (valid_date_position cal t1 H1) as [i1 Hp1].
  destruct t0 as [y0 c0 x0 h0 m0 s0], t1 as [y1 c1 x1 h1 m1 s1].
  cbn [year cycle day] in *.
  exists (days_before cal y0 c0 + i0 + 1), (days_before cal y1 c1 + i1 + 1).
  split; [apply position_day_number; assumption |].
  split; [apply position_day_number; assumption |].
  rewrite (count_days_years_total cal Hreg y0 c0 i0 x0 h0 m0 s0 y1 c1 i1 x1 h1 m1 s1
             Hp0 Hp1 lo ro Hy).
  f_equal; lia.
Qed.

(** X17: in a regular calendar, [count_days] of a period is the number
    of days from the day of its initial date to the day of its final date,
    both counted: the days of the years begun in between, plus the
    difference of the two day numbers, plus one.  One day is taken off for a
    left-open period that begins at 23:59:59, and one for a right-open period
    that ends at 00:00:00. *)
Theorem count_days_counts_both_ends (cal : Calendar) (t0 t1 : TimeVector) (lo ro : bool) :
  calendar_regular cal -> valid_date cal t0 -> valid_date cal t1 -> year t0 <= year t1 ->
  exists n0 n1,
    MultiDate_day_number_in_year cal t0 = Ok n0 /\
    MultiDate_day_number_in_year cal t1 = Ok n1 /\
    count_days (mkPeriod (mkMA t0 nomask) (mkMA t1 nomask) lo ro cal) =
    Ok (years_length cal (py_range (year t0) (year t1)) + n1 - n0 + 1
        - b2z (lo && (time_of_day t0 =? 86399)) - b2z (ro && (time_of_day t1 =? 0))).
Proof.
  intros Hreg H0 H1 Hy.
  destruct (count_days_years_valid cal t0 t1 lo ro Hreg H0 H1 Hy) as [n0 [n1 [E0 [E1 Hc]]]].
  exists n0, n1. split; [exact E0 |]. split; [exact E1 |].
  destruct (valid_date_facts cal t0 H0) as [_ [_ [Hh0 [Hm0 Hs0]]]].
  destruct (valid_date_facts cal t1 H1) as [_ [_ [Hh1 [Hm1 Hs1]]]].
  unfold count_days. cbn [initial final data left_open right_open period_calendar].
  rewrite Hc. cbn [bind]. unfold time_of_day. f_equal.
  destruct lo, ro; cbn [andb b2z];
    repeat match goal with
           | |- context [?a =? ?b] =>
               destruct (Z.eqb_spec a b); cbn [andb b2z]; try lia
           end; lia.
Qed.

Lemma count_days_counts_both_ends_witness :
  exists n0 n1,
    MultiDate_day_number_in_year CalGregorian (mkTV 1999 12 31 0 0 0) = Ok n0 /\
    MultiDate_day_number_in_year CalGregorian (mkTV 2001 1 1 0 0 0) = Ok n1 /\
    count_days (mkPeriod (mkMA (mkTV 1999 12 31 0 0 0) nomask)
                         (mkMA (mkTV 2001 1 1 0 0 0) nomask) false true CalGregorian) =
    Ok (years_length CalGregorian (py_range (year (mkTV 1999 12 31 0 0 0))
                                            (year (mkTV 2001 1 1 0 0 0))) + n1 - n0 + 1
        - b2z (false && (time_of_day (mkTV 1999 12 31 0 0 0) =? 86399))
        - b2z (true && (time_of_day (mkTV 2001 1 1 0 0 0) =? 0))).
Proof.
  apply (count_days_counts_both_ends CalGregorian (mkTV 1999 12 31 0 0 0)
           (mkTV 2001 1 1 0 0 0) false true).
  - exact gregorian_regular.
  - reflexivity.
  - reflexivity.
  - cbn. lia.
Defined.

(** X18: in a regular calendar, [count_seconds] of a period is the time
    elapsed from its initial date to its final date in seconds (86400 for
    each day between the two, plus the difference of the two times of day)
    plus one, minus one for each open end: the seconds are counted with both
    ends, like the days. *)
Theorem count_seconds_is_the_elapsed_time (cal : Calendar) (t0 t1 : TimeVector)
    (lo ro : bool) :
  calendar_regular cal -> valid_date cal t0 -> valid_date cal t1 -> year t0 <= year t1 ->
  exists n0 n1,
    MultiDate_day_number_in_year cal t0 = Ok n0 /\
    MultiDate_day_number_in_year cal t1 = Ok n1 /\
    count_seconds (mkPeriod (mkMA t0 nomask) (mkMA t1 nomask) lo ro cal) =
    Ok (86400 * (years_length cal (py_range (year t0) (year t1)) + n1 - n0)
        + (time_of_day t1 - time_of_day t0) + 1 - b2z lo - b2z ro).
Proof.
  intros Hreg H0 H1 Hy.
  destruct (count_days_years_valid cal t0 t1 lo ro Hreg H0 H1 Hy) as [n0 [n1 [E0 [E1 Hc]]]].
  exists n0, n1. split; [exact E0 |]. split; [exact E1 |].
  destruct (valid_date_facts cal t0 H0) as [_ [_ [Hh0 [Hm0 Hs0]]]].
  destruct (valid_date_facts cal t1 H1) as [_ [_ [Hh1 [Hm1 Hs1]]]].
  unfold count_seconds, count_minutes, count_hours, count_days.
  cbn [initial final data left_open right_open period_calendar].
  rewrite Hc. cbn [bind]. unfold time_of_day. f_equal.
  set (D := years_length cal (py_range (year t0) (year t1)) + n1 - n0) in *.
  destruct lo, ro; cbn [andb b2z negb];
    repeat match goal with
           | |- context [?a =? ?b] =>
               destruct (Z.eqb_spec a b); cbn [andb b2z negb]; try lia
           end; lia.
Qed.

Lemma count_seconds_is_the_elapsed_time_witness :
  exists n0 n1,
    MultiDate_day_number_in_year CalGregorian (mkTV 1979 1 1 0 0 0) = Ok n0 /\
    MultiDate_day_number_in_year CalGregorian (mkTV 1979 1 1 6 0 0) = Ok n1 /\
    count_seconds (mkPeriod (mkMA (mkTV 1979 1 1 0 0 0) nomask)
                            (mkMA (mkTV 1979 1 1 6 0 0) nomask) false false CalGregorian) =
    Ok (86400 * (years_length CalGregorian (py_range (year (mkTV 1979 1 1 0 0 0))
                                                     (year (mkTV 1979 1 1 6 0 0)))
                 + n1 - n0)
        + (time_of_day (mkTV 1979 1 1 6 0 0) - time_of_day (mkTV 1979 1 1 0 0 0)) + 1
        - b2z false - b2z false).
Proof.
  apply (count_seconds_is_the_elapsed_time CalGregorian (mkTV 1979 1 1 0 0 0)
           (mkTV 1979 1 1 6 0 0) false false).
  - exact gregorian_regular.
  - reflexivity.
  - reflexivity.
  - cbn. lia.
Defined.

(** ** Time intervals *)

(** The arithmetic of one conversion: [x] is the slot converted, [hi] the
    slot that takes the carry, [b] the number of units of [x] in one of
    [hi]. *)
Lemma carry_spec (b x hi : Z) :
  0 < b ->
  let over := b <=? Z.abs x in
  let under := x <? 0 in
  let hi1 := if over then hi + Z.quot x b else hi in
  let x1 := if over then copysign (Z.abs x mod b) x else x in
  let x2 := if under then x1 + b else x1 in
  let hi2 := if under then hi1 - 1 else hi1 in
  b * hi2 + x2 = b * hi + x /\ 0 <= x2 <= b /\ (x2 = b <-> x < 0 /\ x mod b = 0).
Proof.
  intros Hb. cbn zeta. unfold copysign.
  pose proof (Z.quot_rem x b ltac:(lia)) as Hqr.
  pose proof (Z.mod_pos_bound (Z.abs x) b Hb) as Hm.
  pose proof (Z.mod_pos_bound x b Hb) as Hmx.
  pose proof (Z.div_mod x b ltac:(lia)) as Hdx.
  pose proof (Z.div_mod (Z.abs x) b ltac:(lia)) as Hda.
  assert (Hrem : Z.rem x b = if x <? 0 then - (Z.abs x mod b) else Z.abs x mod b).
  { destruct (Z.ltb_spec x 0).
    - rewrite <- (Z.opp_involutive x) at 1. rewrite Z.rem_opp_l by lia.
      rewrite Z.rem_mod_nonneg by lia. f_equal. f_equal. lia.
    - rewrite Z.rem_mod_nonneg by lia. f_equal. lia. }
  assert (Hzero : x < 0 -> (x mod b = 0 <-> Z.abs x mod b = 0)).
  { intros Hx. split; intros H.
    - apply Z.mod_divide in H; [| lia]. apply Z.mod_divide; [lia |].
      destruct H as [k Hk]. exists (- k). lia.
    - apply Z.mod_divide in H; [| lia]. apply Z.mod_divide; [lia |].
      destruct H as [k Hk]. exists (- k). lia. }
  rewrite (Z.abs_eq (Z.abs x mod b)) by lia.
  destruct (Z.leb_spec b (Z.abs x)) as [Hover | Hnover];
    destruct (Z.ltb_spec x 0) as [Hneg | Hpos].
  - specialize (Hzero Hneg). split; [nia |]. split; [lia |]. split.
    + intros E. split; [exact Hneg |]. apply Hzero. lia.
    + intros [_ E]. apply Hzero in E. lia.
  - split; [nia |]. split; [lia |]. split; [lia | intros [? _]; lia].
  - specialize (Hzero Hneg). split; [lia |]. split; [lia |]. split.
    + intros E. lia.
    + intros [_ E]. apply Hzero in E. rewrite Z.mod_small in E by lia. lia.
  - split; [lia |]. split; [lia |]. split; [lia | intros [? _]; lia].
Qed.

Lemma seconds_to_minutes_spec (t : TimeVector) :
  let t' := seconds_to_minutes t in
  year t' = year t /\ cycle t' = cycle t /\ day t' = day t /\ hour t' = hour t /\
  60 * minute t' + second t' = 60 * minute t + second t /\
  0 <= second t' <= 60 /\
  (second t' = 60 <-> second t < 0 /\ second t mod 60 = 0).
Proof.
  destruct t as [y c d h m s]. pose proof (carry_spec 60 s m ltac:(lia)) as H.
  unfold seconds_to_minutes.
  cbn [year cycle day hour minute second set_minute set_second] in *.
  destruct (60 <=? Z.abs s); destruct (s <? 0);
    cbn [year cycle day hour minute second set_minute set_second] in *;
    destruct H as (H1 & H2 & H3);
    (split; [reflexivity |]); (split; [reflexivity |]); (split; [reflexivity |]);
    (split; [reflexivity |]); (split; [exact H1 |]); (split; [exact H2 | exact H3]).
Qed.

Lemma minutes_to_hours_spec (t : TimeVector) :
  let t' := minutes_to_hours t in
  year t' = year t /\ cycle t' = cycle t /\ day t' = day t /\ second t' = second t /\
  60 * hour t' + minute t' = 60 * hour t + minute t /\
  0 <= minute t' <= 60 /\
  (minute t' = 60 <-> minute t < 0 /\ minute t mod 60 = 0).
Proof.
  destruct t as [y c d h m s]. pose proof (carry_spec 60 m h ltac:(lia)) as H.
  unfold minutes_to_hours.
  cbn [year cycle day hour minute second set_minute set_hour] in *.
  destruct (60 <=? Z.abs m); destruct (m <? 0);
    cbn [year cycle day hour minute second set_minute set_hour] in *;
    destruct H as (H1 & H2 & H3);
    (split; [reflexivity |]); (split; [reflexivity |]); (split; [reflexivity |]);
    (split; [reflexivity |]); (split; [exact H1 |]); (split; [exact H2 | exact H3]).
Qed.

Lemma hours_to_days_spec (t : TimeVector) :
  let t' := hours_to_days t in
  year t' = year t /\ cycle t' = cycle t /\ minute t' = minute t /\ second t' = second t /\
  24 * day t' + hour t' = 24 * day t + hour t /\
  0 <= hour t' <= 24 /\
  (hour t' = 24 <-> hour t < 0 /\ hour t mod 24 = 0).
Proof.
  destruct t as [y c d h m s]. pose proof (carry_spec 24 h d ltac:(lia)) as H.
  unfold hours_to_days.
  cbn [year cycle day hour minute second set_day set_hour] in *.
  destruct (24 <=? Z.abs h); destruct (h <? 0);
    cbn [year cycle day hour minute second set_day set_hour] in *;
    destruct H as (H1 & H2 & H3);
    (split; [reflexivity |]); (split; [reflexivity |]); (split; [reflexivity |]);
    (split; [reflexivity |]); (split; [exact H1 |]); (split; [exact H2 | exact H3]).
Qed.

Lemma conversions_spec (t : TimeVector) :
  let t' := hours_to_days (minutes_to_hours (seconds_to_minutes t)) in
  year t' = year t /\ cycle t' = cycle t /\
  86400 * day t' + time_of_day t' = 86400 * day t + time_of_day t /\
  0 <= second t' <= 60 /\ 0 <= minute t' <= 60 /\ 0 <= hour t' <= 24 /\
  (second t' = 60 <-> second t < 0 /\ second t mod 60 = 0) /\
  (0 <= hour t -> 0 <= minute t -> 0 <= second t ->
   second t' < 60 /\ minute t' < 60 /\ hour t' < 24).
Proof.
  cbn zeta. unfold time_of_day.
  destruct (seconds_to_minutes_spec t) as (Ey1 & Ec1 & Ed1 & Eh1 & Es1 & Hs1 & Hs60).
  set (t1 := seconds_to_minutes t) in *.
  destruct (minutes_to_hours_spec t1) as (Ey2 & Ec2 & Ed2 & Es2 & Em2 & Hm2 & Hm60).
  set (t2 := minutes_to_hours t1) in *.
  destruct (hours_to_days_spec t2) as (Ey3 & Ec3 & Em3 & Es3 & Eh3 & Hh3 & Hh60).
  set (t3 := hours_to_days t2) in *.
  split; [congruence |]. split; [congruence |].
  split; [lia |]. split; [lia |]. split; [lia |]. split; [lia |].
  split; [rewrite Es3, Es2; exact Hs60 |].
  intros Hh Hm Hs.
  assert (second t1 < 60) by (destruct (Z.eq_dec (second t1) 60) as [E | E];
                               [apply Hs60 in E; lia | lia]).
  assert (0 <= minute t1).
  { destruct (Z.quot_rem (second t) 60 ltac:(lia)).
    pose proof (Z.rem_bound_pos_pos (second t) 60 ltac:(lia) ltac:(lia)).
    pose proof (Z.quot_pos (second t) 60 ltac:(lia) ltac:(lia)). nia. }
  assert (minute t2 < 60) by (destruct (Z.eq_dec (minute t2) 60) as [E | E];
                               [apply Hm60 in E; lia | lia]).
  assert (0 <= hour t2) by nia.
  assert (hour t3 < 24) by (destruct (Z.eq_dec (hour t3) 24) as [E | E];
                             [apply Hh60 in E; lia | lia]).
  lia.
Qed.

(** X19: the three conversions that [DeltaT.__eq__] applies keep the
    length of the interval (the days, hours, minutes and seconds together,
    in seconds) and the years and cycles, and bring seconds, minutes and
    hours within 0..60, 0..60 and 0..24.  The upper ends are reached: a
    negative whole number of minutes in the seconds slot leaves 60 seconds.
    Where hours, minutes and seconds are not negative, the results are
    within 0..59, 0..59 and 0..23. *)
Theorem conversions_keep_the_length (t : TimeVector) :
  let t' := hours_to_days (minutes_to_hours (seconds_to_minutes t)) in
  year t' = year t /\ cycle t' = cycle t /\
  86400 * day t' + time_of_day t' = 86400 * day t + time_of_day t /\
  0 <= second t' <= 60 /\ 0 <= minute t' <= 60 /\ 0 <= hour t' <= 24 /\
  (second t' = 60 <-> second t < 0 /\ second t mod 60 = 0) /\
  (0 <= hour t -> 0 <= minute t -> 0 <= second t ->
   second t' < 60 /\ minute t' < 60 /\ hour t' < 24).
Proof. exact (conversions_spec t). Qed.

Lemma conversions_keep_the_length_witness :
  let t := mkTV 0 0 0 0 0 3600 in
  let t' := hours_to_days (minutes_to_hours (seconds_to_minutes t)) in
  year t' = year t /\ cycle t' = cycle t /\
  86400 * day t' + time_of_day t' = 86400 * day t + time_of_day t /\
  0 <= second t' <= 60 /\ 0 <= minute t' <= 60 /\ 0 <= hour t' <= 24 /\
  (second t' = 60 <-> second t < 0 /\ second t mod 60 = 0) /\
  (0 <= hour t -> 0 <= minute t -> 0 <= second t ->
   second t' < 60 /\ minute t' < 60 /\ hour t' < 24).
Proof. exact (conversions_keep_the_length (mkTV 0 0 0 0 0 3600)). Defined.

Lemma DeltaT__eq__true (a b : TimeVector) :
  DeltaT__eq__ a b = Ok true <->
  hours_to_days (minutes_to_hours (seconds_to_minutes a)) =
  hours_to_days (minutes_to_hours (seconds_to_minutes b)).
Proof.
  unfold DeltaT__eq__, _CollectionTime_eq. cbn [mask data].
  replace (mask_eqb nomask nomask) with true by reflexivity.
  set (na := hours_to_days (minutes_to_hours (seconds_to_minutes a))).
  set (nb := hours_to_days (minutes_to_hours (seconds_to_minutes b))).
  destruct (tv_eqb na nb) eqn:E.
  - split; [intros _ | reflexivity].
    destruct na as [y c d h m s], nb as [y' c' d' h' m' s'].
    unfold tv_eqb in E. cbn [year cycle day hour minute second] in E.
    repeat (apply andb_prop in E; destruct E as [E ?]).
    repeat match goal with H : (_ =? _) = true |- _ => apply Z.eqb_eq in H end.
    congruence.
  - split.
    + intros H. exfalso.
      repeat match type of H with
             | (if ?c then _ else _) = _ => destruct c; try discriminate H
             end.
    + intros H. rewrite H, tv_eqb_refl in E. discriminate E.
Qed.

(** X20: for intervals whose hours, minutes and seconds are not
    negative, [DeltaT.__eq__] returns [True] exactly when the two have the
    same years, the same cycles and the same length in seconds of their
    days, hours, minutes and seconds: 3600 seconds equal one hour. *)
Theorem equal_lengths_are_equal (a b : TimeVector) :
  0 <= hour a -> 0 <= minute a -> 0 <= second a ->
  0 <= hour b -> 0 <= minute b -> 0 <= second b ->
  (DeltaT__eq__ a b = Ok true <->
   year a = year b /\ cycle a = cycle b /\
   86400 * day a + time_of_day a = 86400 * day b + time_of_day b).
Proof.
  intros Hha Hma Hsa Hhb Hmb Hsb. rewrite DeltaT__eq__true.
  destruct (conversions_spec a) as (Ya & Ca & La & Sa & Ma & Ha & _ & Ra).
  destruct (conversions_spec b) as (Yb & Cb & Lb & Sb & Mb & Hb & _ & Rb).
  specialize (Ra Hha Hma Hsa). specialize (Rb Hhb Hmb Hsb).
  set (na := hours_to_days (minutes_to_hours (seconds_to_minutes a))) in *.
  set (nb := hours_to_days (minutes_to_hours (seconds_to_minutes b))) in *.
  unfold time_of_day in *. split.
  - intros E. rewrite E in *. lia.
  - intros (Ey & Ec & El).
    destruct na as [y c d h m s], nb as [y' c' d' h' m' s'].
    cbn [year cycle day hour minute second] in *. f_equal; lia.
Qed.

Lemma equal_lengths_are_equal_witness :
  DeltaT__eq__ (mkTV 0 0 0 0 0 3600) (mkTV 0 0 0 1 0 0) = Ok true.
Proof.
  apply (equal_lengths_are_equal (mkTV 0 0 0 0 0 3600) (mkTV 0 0 0 1 0 0)); cbn; try lia.
  repeat split; reflexivity.
Defined.

(** X21: with negative values the comparison misses equal lengths: a
    negative whole number of minutes written in seconds is found different
    from the same number written in minutes, because the first keeps 60
    in its seconds slot after the conversions. *)
Theorem negative_minutes_in_seconds_differ (k : Z) :
  0 < k ->
  DeltaT__eq__ (mkTV 0 0 0 0 0 (-60 * k)) (mkTV 0 0 0 0 (- k) 0) = Ok false /\
  86400 * 0 + time_of_day (mkTV 0 0 0 0 0 (-60 * k)) =
  86400 * 0 + time_of_day (mkTV 0 0 0 0 (- k) 0).
Proof.
  intros Hk. split; [| unfold time_of_day; cbn; lia].
  set (a := mkTV 0 0 0 0 0 (-60 * k)). set (b := mkTV 0 0 0 0 (- k) 0).
  destruct (conversions_spec a) as (Ya & Ca & La & Sa & Ma & Ha & S60 & _).
  destruct (conversions_spec b) as (Yb & Cb & Lb & Sb & Mb & Hb & S60b & _).
  assert (Hsa : second (hours_to_days (minutes_to_hours (seconds_to_minutes a))) = 60).
  { apply S60. cbn [second a]. split; [lia |].
    replace (-60 * k) with ((- k) * 60) by lia. apply Z.mod_mul. lia. }
  assert (Hsb : second (hours_to_days (minutes_to_hours (seconds_to_minutes b))) = 0).
  { destruct (hours_to_days_spec (minutes_to_hours (seconds_to_minutes b)))
      as (_ & _ & _ & E1 & _).
    destruct (minutes_to_hours_spec (seconds_to_minutes b)) as (_ & _ & _ & E2 & _).
    rewrite E1, E2. reflexivity. }
  unfold DeltaT__eq__, _CollectionTime_eq. cbn [mask data].
  replace (mask_eqb nomask nomask) with true by reflexivity.
  set (na := hours_to_days (minutes_to_hours (seconds_to_minutes a))) in *.
  set (nb := hours_to_days (minutes_to_hours (seconds_to_minutes b))) in *.
  assert (E : tv_eqb na nb = false).
  { unfold tv_eqb. rewrite Hsa, Hsb. replace (60 =? 0) with false by reflexivity.
    apply andb_false_r. }
  rewrite E, Ya, Yb, Ca, Cb. reflexivity.
Qed.

Lemma negative_minutes_in_seconds_differ_witness :
  DeltaT__eq__ (mkTV 0 0 0 0 0 (-60 * 1)) (mkTV 0 0 0 0 (- 1) 0) = Ok false /\
  86400 * 0 + time_of_day (mkTV 0 0 0 0 0 (-60 * 1)) =
  86400 * 0 + time_of_day (mkTV 0 0 0 0 (- 1) 0).
Proof. apply (negative_minutes_in_seconds_differ 1). lia. Defined.

(** X22: comparing an interval that has years with a different one that
    has cycles raises [TimelyError] rather than answering, in either order:
    one year against twelve cycles, say. *)
Theorem years_against_cycles_are_ambiguous (a b : TimeVector) :
  year a <> 0 -> cycle b <> 0 -> year a <> year b ->
  DeltaT__eq__ a b = Raise (TimelyError "Ambiguous operation.") /\
  DeltaT__eq__ b a = Raise (TimelyError "Ambiguous operation.").
Proof.
  intros Hy Hc Hne.
  destruct (conversions_spec a) as (Ya & Ca & _).
  destruct (conversions_spec b) as (Yb & Cb & _).
  unfold DeltaT__eq__, _CollectionTime_eq. cbn [mask data].
  replace (mask_eqb nomask nomask) with true by reflexivity.
  set (na := hours_to_days (minutes_to_hours (seconds_to_minutes a))) in *.
  set (nb := hours_to_days (minutes_to_hours (seconds_to_minutes b))) in *.
  assert (E : tv_eqb na nb = false).
  { unfold tv_eqb. rewrite Ya, Yb.
    replace (year a =? year b) with false by (symmetry; apply Z.eqb_neq; exact Hne).
    reflexivity. }
  assert (E' : tv_eqb nb na = false).
  { unfold tv_eqb. rewrite Ya, Yb.
    replace (year b =? year a) with false by (symmetry; apply Z.eqb_neq; congruence).
    reflexivity. }
  rewrite E, E', Ya, Ca, Yb, Cb.
  replace (year a =? 0) with false by (symmetry; apply Z.eqb_neq; exact Hy).
  replace (cycle b =? 0) with false by (symmetry; apply Z.eqb_neq; exact Hc).
  cbn [negb andb orb]. split; [reflexivity |].
  destruct (negb (year b =? 0) && (negb (cycle a =? 0) || negb (day na =? 0)));
    reflexivity.
Qed.

Lemma years_against_cycles_are_ambiguous_witness :
  DeltaT__eq__ (mkTV 1 0 0 0 0 0) (mkTV 0 12 0 0 0 0)
    = Raise (TimelyError "Ambiguous operation.") /\
  DeltaT__eq__ (mkTV 0 12 0 0 0 0) (mkTV 1 0 0 0 0 0)
    = Raise (TimelyError "Ambiguous operation.").
Proof.
  apply (years_against_cycles_are_ambiguous (mkTV 1 0 0 0 0 0) (mkTV 0 12 0 0 0 0));
    cbn; lia.
Defined.

(** ** Adding days *)

Lemma add_days_parts (cal : Calendar) (fuel : nat) (t : TimeVector) (integral : Z) :
  MultiDate_add_days cal fuel t integral =
  (do '(t, integral) <- add_days_to_year cal fuel t integral;
   do '(t, integral) <- add_days_to_cycle cal fuel t integral;
   add_days_in_cycle cal t integral).
Proof.
  unfold MultiDate_add_days, add_days_to_year, add_days_to_cycle, add_days_in_cycle.
  repeat first
    [ reflexivity
    | match goal with
      | |- context [bind ?m _] =>
          lazymatch m with
          | bind _ _ => fail
          | _ => destruct m as [? | |]; cbn [bind]
          end
      | |- context [let '(_, _) := ?v in _] => destruct v
      end ].
Qed.

Section AddingDays.

Variable cal : Calendar.
Hypothesis Hreg : calendar_regular cal.

Let Hwf : calendar_well_formed cal := regular_well_formed cal Hreg.

Lemma first_day_of_cycle (y c : Z) :
  1 <= c <= Calendar_count_cycles_in_year cal y ->
  exists f, at_position cal y c 0 f.
Proof.
  intros Hc. destruct (Hreg y) as [_ Hcycles].
  destruct (Hcycles c Hc) as [l [Hl [Hlen _]]].
  destruct (_get_item_in_range l 0 ltac:(lia)) as [f Hf].
  exists f. split; [exact Hc |]. split; [lia |]. exists l. split; assumption.
Qed.

Lemma first_day_of_year (y : Z) : exists f, at_position cal y 1 0 f.
Proof. apply first_day_of_cycle. destruct (Hreg y) as [HN _]. lia. Qed.

Lemma ith_day_first (y c f : Z) :
  at_position cal y c 0 f -> Calendar__ith_day_in_cycle cal c y 1 = Ok f.
Proof.
  intros [_ [_ [l [Hl Hf]]]]. unfold Calendar__ith_day_in_cycle.
  rewrite Hl. cbn [bind]. exact Hf.
Qed.

Lemma position_unique (y c i x x' : Z) :
  at_position cal y c i x -> at_position cal y c i x' -> x = x'.
Proof.
  intros [_ [_ [l [Hl Hx]]]] [_ [_ [l' [Hl' Hx']]]]. congruence.
Qed.

Lemma year_days_pos (y : Z) : 1 <= year_days cal y.
Proof.
  destruct (first_day_of_year y) as [f Hf].
  destruct (position_list cal Hreg y 1 0 f Hf) as [l [_ [_ [_ [_ [Hlen [Hle _]]]]]]].
  assert (Hb1 : days_before cal y 1 = 0)
    by (unfold days_before; rewrite py_range_empty; reflexivity).
  lia.
Qed.

Lemma years_length_cons (y : Z) (ys : list Z) :
  years_length cal (y :: ys) = year_days cal y + years_length cal ys.
Proof. reflexivity. Qed.

Lemma years_length_range (a : Z) (j : nat) :
  Z.of_nat j <= years_length cal (py_range a (a + Z.of_nat j)).
Proof.
  revert a. induction j as [| j IH]; intros a.
  - rewrite Z.add_0_r, py_range_empty. cbn. lia.
  - rewrite py_range_cons by lia. rewrite years_length_cons.
    pose proof (year_days_pos a). specialize (IH (a + 1)).
    replace (a + 1 + Z.of_nat j) with (a + Z.of_nat (S j)) in IH by lia. lia.
Qed.

Lemma years_length_next (a b : Z) :
  a <= b ->
  years_length cal (py_range a (b + 1)) = years_length cal (py_range a b) + year_days cal b.
Proof.
  intros H. rewrite (py_range_app a b (b + 1)) by lia.
  rewrite years_length_app, (py_range_cons b (b + 1)) by lia.
  rewrite py_range_empty. cbn. lia.
Qed.

Lemma ok_pair (t t' : TimeVector) (r r' : Z) :
  t = t' -> r = r' -> @Ok (TimeVector * Z) (t, r) = Ok (t', r').
Proof. intros -> ->. reflexivity. Qed.

(** The loop over whole years, from the first day of a year. *)
Lemma years_loop_run (j : nat) : forall (fuel : nat) (y f r h m s : Z),
  at_position cal y 1 0 f ->
  years_length cal (py_range y (y + Z.of_nat j)) <= r ->
  r < years_length cal (py_range y (y + Z.of_nat j + 1)) ->
  (j < fuel)%nat ->
  exists f', at_position cal (y + Z.of_nat j) 1 0 f' /\
    add_days_years_loop cal fuel (mkTV y 1 f h m s) r (year_days cal y) false =
    Ok (mkTV (y + Z.of_nat j) 1 f' h m s,
        r - years_length cal (py_range y (y + Z.of_nat j))).
Proof.
  induction j as [| j IH]; intros fuel y f r h m s Hf Hlo Hhi Hfuel;
    (destruct fuel as [| fuel]; [lia |]).
  - rewrite Z.add_0_r in *. rewrite py_range_empty in *.
    rewrite (py_range_cons y (y + 1)) in Hhi by lia. rewrite py_range_empty in Hhi.
    cbn [years_length fold_right] in *.
    exists f. split; [exact Hf |].
    cbn [add_days_years_loop]. decide_tests. norm.
    rewrite (ith_day_first y 1 f Hf). norm.
    unfold MultiDate_count_days_in_year. norm. rewrite (year_length cal Hreg y). norm.
    apply ok_pair; [f_equal; lia | lia].
  - pose proof (years_length_range (y + 1) j) as Hj.
    rewrite (py_range_cons y) in Hlo by lia.
    rewrite (py_range_cons y) in Hhi by lia.
    rewrite years_length_cons in Hlo, Hhi.
    replace (y + Z.of_nat (S j)) with (y + 1 + Z.of_nat j) in * by lia.
    destruct (first_day_of_year (y + 1)) as [f1 Hf1].
    destruct (IH fuel (y + 1) f1 (r - year_days cal y) h m s Hf1 ltac:(lia) ltac:(lia)
                ltac:(lia)) as [f' [Hf' Hrun]].
    exists f'. split; [exact Hf' |].
    cbn [add_days_years_loop]. decide_tests. norm.
    rewrite (ith_day_first (y + 1) 1 f1 Hf1). norm.
    unfold MultiDate_count_days_in_year. norm. rewrite (year_length cal Hreg (y + 1)). norm.
    rewrite ?andb_false_r. norm. unfold set_day, set_year.
    cbn [year cycle day hour minute second].
    replace (f - (f - f1)) with f1 by lia.
    rewrite Hrun. f_equal. f_equal.
    rewrite (py_range_cons y (y + 1 + Z.of_nat j)) by lia. rewrite years_length_cons. lia.
Qed.


Lemma before_range (y c : Z) (j : nat) :
  1 <= c -> c + Z.of_nat j <= Calendar_count_cycles_in_year cal y + 1 ->
  Z.of_nat j <= days_before cal y (c + Z.of_nat j) - days_before cal y c.
Proof.
  revert c. induction j as [| j IH]; intros c Hc Hn.
  - rewrite Z.add_0_r. lia.
  - destruct (count_days_in_cycle_regular cal Hreg y c ltac:(lia)) as [l [Hl [_ Hlen]]].
    pose proof (before_next cal y c l Hc Hl) as Hnext.
    specialize (IH (c + 1) ltac:(lia) ltac:(lia)).
    replace (c + 1 + Z.of_nat j) with (c + Z.of_nat (S j)) in IH by lia. lia.
Qed.

(** The loop over whole cycles, from the first day of a cycle. *)
Lemma cycles_loop_run (j : nat) : forall (fuel : nat) (y c f r h m s : Z) (l : list Z),
  at_position cal y c 0 f ->
  days_in_cycle cal c y = Ok l ->
  c + Z.of_nat j <= Calendar_count_cycles_in_year cal y ->
  days_before cal y (c + Z.of_nat j) - days_before cal y c <= r ->
  r < days_before cal y (c + Z.of_nat j + 1) - days_before cal y c ->
  (j < fuel)%nat ->
  exists f', at_position cal y (c + Z.of_nat j) 0 f' /\
    add_days_cycles_loop cal fuel (mkTV y c f h m s) r (py_len l) false =
    Ok (mkTV y (c + Z.of_nat j) f' h m s,
        r - (days_before cal y (c + Z.of_nat j) - days_before cal y c)).
Proof.
  induction j as [| j IH]; intros fuel y c f r h m s l Hf Hl HcN Hlo Hhi Hfuel;
    (destruct fuel as [| fuel]; [lia |]);
    pose proof Hf as [Hc _];
    pose proof (before_next cal y c l ltac:(lia) Hl) as Hnext.
  - rewrite Z.add_0_r in *.
    exists f. split; [exact Hf |].
    cbn [add_days_cycles_loop]. decide_tests. norm.
    unfold MultiDate_ith_day_in_cycle. norm. rewrite (ith_day_first y c f Hf). norm.
    unfold MultiDate_count_days_in_cycle, Calendar_count_days_in_cycle. norm.
    rewrite Hl. norm. rewrite ?andb_false_r. norm.
    apply ok_pair; [f_equal; lia | lia].
  - pose proof (before_range y (c + 1) j ltac:(lia) ltac:(lia)) as Hj.
    replace (c + Z.of_nat (S j)) with (c + 1 + Z.of_nat j) in * by lia.
    destruct (first_day_of_cycle y (c + 1) ltac:(lia)) as [f1 Hf1].
    destruct (count_days_in_cycle_regular cal Hreg y (c + 1) ltac:(lia))
      as [l1 [Hl1 [_ Hlen1]]].
    destruct (IH fuel y (c + 1) f1 (r - py_len l) h m s l1 Hf1 Hl1 ltac:(lia) ltac:(lia)
                ltac:(lia) ltac:(lia)) as [f' [Hf' Hrun]].
    exists f'. split; [exact Hf' |].
    cbn [add_days_cycles_loop]. decide_tests. norm.
    unfold MultiDate_ith_day_in_cycle. norm. rewrite (ith_day_first y (c + 1) f1 Hf1). norm.
    unfold MultiDate_count_days_in_cycle, Calendar_count_days_in_cycle. norm.
    rewrite Hl1. norm. rewrite ?andb_false_r. norm. unfold set_day, set_cycle.
    cbn [year cycle day hour minute second].
    replace (c + 1 - 0) with (c + 1) by lia.
    replace (f - (f - f1)) with f1 by lia.
    replace (r - py_len l + 0) with (r - py_len l) by lia.
    rewrite Hrun. apply ok_pair; [reflexivity | lia].
Qed.


(** The first part: to the first day of the year of the target. *)
Lemma to_year (fuel : nat) (y c i x h m s k y' : Z) :
  at_position cal y c i x -> 0 <= k -> y <= y' ->
  years_length cal (py_range y y') <= days_before cal y c + i + k ->
  days_before cal y c + i + k < years_length cal (py_range y (y' + 1)) ->
  y' - y < Z.of_nat fuel ->
  exists c1 i1 x1 r1,
    at_position cal y' c1 i1 x1 /\ 0 <= r1 <= k /\
    days_before cal y' c1 + i1 + r1 =
      days_before cal y c + i + k - years_length cal (py_range y y') /\
    add_days_to_year cal fuel (mkTV y c x h m s) k = Ok (mkTV y' c1 x1 h m s, r1).
Proof.
  intros Hpos Hk Hy Hlo Hhi Hfuel.
  destruct (position_list cal Hreg y c i x Hpos)
    as [l [Hl [Hx [Hidx [Hx0 [Hlen [Hle _]]]]]]].
  pose proof (position_day_number cal Hreg y c i x Hpos h m s) as Hdn.
  pose proof (year_length cal Hreg y) as Hdiy.
  assert (Hb0 : 0 <= days_before cal y c) by apply total_length_nonneg.
  pose proof Hpos as [Hc [Hi _]].
  destruct (first_day_of_year y) as [f0 Hf0].
  destruct (Z.eq_dec y' y) as [-> | Hne].
  - (* the target is in the year of the date *)
    rewrite py_range_empty in *. rewrite (py_range_cons y (y + 1)) in Hhi by lia.
    rewrite py_range_empty in Hhi. cbn [years_length fold_right] in *.
    exists c, i, x, k. split; [exact Hpos |]. split; [lia |]. split; [lia |].
    destruct fuel as [| fuel]; [lia |].
    unfold add_days_to_year, MultiDate_count_days_in_year. cbn [year cycle day].
    rewrite Hdiy. cbn [bind]. rewrite Hdn. cbn [bind].
    decide_tests. norm. rewrite (ith_day_first y 1 f0 Hf0). norm. rewrite Hdiy. norm.
    cbn [add_days_years_loop]. decide_tests. norm.
    rewrite (ith_day_first y 1 f0 Hf0). norm.
    unfold MultiDate_count_days_in_year. norm. rewrite Hdiy. norm.
    rewrite ?andb_false_r. norm. apply ok_pair; [f_equal; lia | lia].
  - (* the target is in a later year *)
    rewrite (py_range_cons y y') in * by lia.
    rewrite (py_range_cons y (y' + 1)) in Hhi by lia.
    rewrite years_length_cons in *.
    destruct (first_day_of_year (y + 1)) as [f1 Hf1].
    set (r0 := days_before cal y c + i + k - year_days cal y) in *.
    pose proof (years_length_range (y + 1) (Z.to_nat (y' - (y + 1)))) as Hj.
    replace (y + 1 + Z.of_nat (Z.to_nat (y' - (y + 1)))) with y' in Hj by lia.
    destruct (years_loop_run (Z.to_nat (y' - (y + 1))) fuel (y + 1) f1 r0 h m s Hf1)
      as [f' [Hf' Hrun]].
    + replace (y + 1 + Z.of_nat (Z.to_nat (y' - (y + 1)))) with y' by lia. unfold r0. lia.
    + replace (y + 1 + Z.of_nat (Z.to_nat (y' - (y + 1))) + 1) with (y' + 1) by lia.
      unfold r0. lia.
    + lia.
    + replace (y + 1 + Z.of_nat (Z.to_nat (y' - (y + 1)))) with y' in * by lia.
      assert (Hb1 : days_before cal y' 1 = 0)
        by (unfold days_before; rewrite py_range_empty; reflexivity).
      exists 1, 0, f', (r0 - years_length cal (py_range (y + 1) y')).
      split; [exact Hf' |]. split; [unfold r0; unfold py_len in *; lia |].
      split; [unfold r0; lia |].
      unfold add_days_to_year, MultiDate_count_days_in_year. cbn [year cycle day].
      rewrite Hdiy. cbn [bind]. rewrite Hdn. cbn [bind].
      decide_tests. norm. rewrite (ith_day_first (y + 1) 1 f1 Hf1). norm.
      rewrite (year_length cal Hreg (y + 1)). norm.
      unfold set_day, set_cycle, set_year. cbn [year cycle day hour minute second].
      replace (y + 1 - 0) with (y + 1) by lia.
      replace (c - (c - 1)) with 1 by lia.
      replace (x - (x - f1)) with f1 by lia.
      replace (k - (year_days cal y - (days_before cal y c + i + 1) + 1)) with r0
        by (unfold r0; lia).
      rewrite Hrun. reflexivity.
Qed.

(** The second part: to the first day of the cycle of the target. *)
Lemma to_cycle (fuel : nat) (y c i x h m s r c' : Z) :
  at_position cal y c i x -> 0 <= r ->
  c <= c' <= Calendar_count_cycles_in_year cal y ->
  days_before cal y c' <= days_before cal y c + i + r ->
  days_before cal y c + i + r < days_before cal y (c' + 1) ->
  c' - c < Z.of_nat fuel ->
  exists i1 x1 r1,
    at_position cal y c' i1 x1 /\ 0 <= r1 /\
    days_before cal y c' + i1 + r1 = days_before cal y c + i + r /\
    add_days_to_cycle cal fuel (mkTV y c x h m s) r = Ok (mkTV y c' x1 h m s, r1).
Proof.
  intros Hpos Hr Hc' Hlo Hhi Hfuel.
  destruct (position_list cal Hreg y c i x Hpos)
    as [l [Hl [Hx [Hidx [Hx0 [Hlen [Hle _]]]]]]].
  pose proof Hpos as [Hc [Hi _]].
  pose proof (before_next cal y c l ltac:(lia) Hl) as Hnext.
  destruct (Z.eq_dec c' c) as [-> | Hne].
  - (* the target is in the cycle of the date *)
    exists i, x, r. split; [exact Hpos |]. split; [lia |]. split; [lia |].
    destruct fuel as [| fuel]; [lia |].
    destruct (first_day_of_cycle y c Hc) as [f0 Hf0].
    unfold add_days_to_cycle, MultiDate_count_days_in_cycle, Calendar_count_days_in_cycle,
      MultiDate_day_number_in_cycle, MultiDate_ith_day_in_cycle.
    cbn [year cycle day]. rewrite Hl. norm. rewrite Hidx. norm.
    decide_tests. norm. rewrite (ith_day_first y c f0 Hf0). norm. rewrite Hl. norm.
    cbn [add_days_cycles_loop]. decide_tests. norm.
    unfold MultiDate_ith_day_in_cycle. norm. rewrite (ith_day_first y c f0 Hf0). norm.
    unfold MultiDate_count_days_in_cycle, Calendar_count_days_in_cycle. norm.
    rewrite Hl. norm. rewrite ?andb_false_r. norm. apply ok_pair; [f_equal; lia | lia].
  - (* the target is in a later cycle *)
    destruct (first_day_of_cycle y (c + 1) ltac:(lia)) as [f1 Hf1].
    destruct (count_days_in_cycle_regular cal Hreg y (c + 1) ltac:(lia))
      as [l1 [Hl1 [_ Hlen1]]].
    pose proof (before_mono cal y (c + 1) c' ltac:(lia)) as Hmono.
    set (r0 := r - py_len l + i) in *.
    destruct (cycles_loop_run (Z.to_nat (c' - (c + 1))) fuel y (c + 1) f1 r0 h m s l1
                Hf1 Hl1) as [f' [Hf' Hrun]].
    + lia.
    + replace (c + 1 + Z.of_nat (Z.to_nat (c' - (c + 1)))) with c' by lia. unfold r0. lia.
    + replace (c + 1 + Z.of_nat (Z.to_nat (c' - (c + 1))) + 1) with (c' + 1) by lia.
      unfold r0. lia.
    + lia.
    + replace (c + 1 + Z.of_nat (Z.to_nat (c' - (c + 1)))) with c' in * by lia.
      exists 0, f', (r0 - (days_before cal y c' - days_before cal y (c + 1))).
      split; [exact Hf' |]. split; [unfold r0; lia |]. split; [unfold r0; lia |].
      unfold add_days_to_cycle, MultiDate_count_days_in_cycle, Calendar_count_days_in_cycle,
        MultiDate_day_number_in_cycle, MultiDate_ith_day_in_cycle.
      cbn [year cycle day]. rewrite Hl. norm. rewrite Hidx. norm.
      decide_tests. norm. rewrite (ith_day_first y (c + 1) f1 Hf1). norm.
      rewrite Hl1. norm.
      unfold set_day, set_cycle. cbn [year cycle day hour minute second].
      replace (c + 1 - 0) with (c + 1) by lia.
      replace (x - (x - f1)) with f1 by lia.
      replace (r - (py_len l - (i + 1) + 1)) with r0 by (unfold r0; lia).
      rewrite Hrun. reflexivity.
Qed.

(** The third part: the day itself. *)
Lemma in_cycle (y c i x h m s r x' : Z) :
  at_position cal y c i x -> at_position cal y c (i + r) x' ->
  add_days_in_cycle cal (mkTV y c x h m s) r = Ok (mkTV y c x' h m s).
Proof.
  intros Hpos Hpos'.
  destruct (position_list cal Hreg y c i x Hpos) as [l [Hl [_ [Hidx _]]]].
  destruct Hpos' as [_ [_ [l' [Hl' Hx']]]]. assert (l' = l) by congruence. subst l'.
  unfold add_days_in_cycle, MultiDate_day_number_in_cycle, MultiDate_ith_day_in_cycle,
    Calendar__ith_day_in_cycle.
  cbn [year cycle day]. rewrite Hl. norm. rewrite Hidx. norm.
  replace (i + 1 + r - 1) with (i + r) by lia. rewrite Hx'. reflexivity.
Qed.

(** The three parts together. *)
Lemma add_days_forward (fuel : nat) (y c i x h m s k y' c' i' x' : Z) :
  at_position cal y c i x ->
  at_position cal y' c' i' x' ->
  0 <= k -> y <= y' ->
  years_length cal (py_range y y') + days_before cal y' c' + i' =
    days_before cal y c + i + k ->
  k + 2 <= Z.of_nat fuel ->
  MultiDate_add_days cal fuel (mkTV y c x h m s) k = Ok (mkTV y' c' x' h m s).
Proof.
  intros Hpos Hpos' Hk Hy Heq Hfuel.
  destruct (position_list cal Hreg y c i x Hpos) as [l [_ [_ [_ [_ [Hlen [Hle _]]]]]]].
  destruct (position_list cal Hreg y' c' i' x' Hpos')
    as [l' [Hl' [_ [_ [_ [Hlen' [Hle' _]]]]]]].
  assert (Hb0 : 0 <= days_before cal y c) by apply total_length_nonneg.
  assert (Hb0' : 0 <= days_before cal y' c') by apply total_length_nonneg.
  pose proof Hpos as [Hc [Hi _]]. pose proof Hpos' as [Hc' [Hi' _]].
  pose proof (years_length_next y y' Hy) as Hnext.
  pose proof (years_length_range y (Z.to_nat (y' - y))) as Hyears.
  replace (y + Z.of_nat (Z.to_nat (y' - y))) with y' in Hyears by lia.
  assert (Hyk : y' - y <= k + 1).
  { destruct (Z.eq_dec y' y) as [-> | Hne]; [lia |].
    rewrite (py_range_cons y y') in Heq, Hyears by lia.
    rewrite years_length_cons in Heq, Hyears.
    pose proof (years_length_range (y + 1) (Z.to_nat (y' - (y + 1)))) as Hj.
    replace (y + 1 + Z.of_nat (Z.to_nat (y' - (y + 1)))) with y' in Hj by lia.
    unfold py_len in *. lia. }
  rewrite add_days_parts.
  destruct (to_year fuel y c i x h m s k y' Hpos Hk Hy ltac:(lia)
              ltac:(unfold py_len in *; lia) ltac:(lia))
    as (c1 & i1 & x1 & r1 & Hp1 & Hr1 & E1 & HA).
  rewrite HA. cbn [bind].
  pose proof Hp1 as [Hc1 [Hi1 _]].
  assert (Hb1 : 0 <= days_before cal y' c1) by apply total_length_nonneg.
  pose proof (before_next cal y' c' l' ltac:(lia) Hl') as Hnext'.
  assert (Hcc : c1 <= c').
  { destruct (Z_le_gt_dec c1 c') as [? | Hgt]; [assumption |].
    pose proof (before_mono cal y' (c' + 1) c1 ltac:(lia)). unfold py_len in *. lia. }
  assert (Hck : c' - c1 <= k + 1).
  { destruct (Z.eq_dec c' c1) as [-> | Hne]; [lia |].
    destruct (position_list cal Hreg y' c1 i1 x1 Hp1) as [l1 [Hl1 [_ [_ [_ [Hlen1 _]]]]]].
    pose proof (before_next cal y' c1 l1 ltac:(lia) Hl1) as Hnext1.
    pose proof (before_range y' (c1 + 1) (Z.to_nat (c' - (c1 + 1))) ltac:(lia) ltac:(lia))
      as Hcycles.
    replace (c1 + 1 + Z.of_nat (Z.to_nat (c' - (c1 + 1)))) with c' in Hcycles by lia.
    unfold py_len in *. lia. }
  destruct (to_cycle fuel y' c1 i1 x1 h m s r1 c' Hp1 ltac:(lia) ltac:(lia) ltac:(lia)
              ltac:(unfold py_len in *; lia) ltac:(lia))
    as (i2 & x2 & r2 & Hp2 & Hr2 & E2 & HB).
  rewrite HB. cbn [bind].
  apply (in_cycle y' c' i2 x2 h m s r2 x' Hp2).
  replace (i2 + r2) with i' by lia. exact Hpos'.
Qed.

(** A position [q] days ahead exists. *)
Lemma position_ahead (q : nat) : forall y c i x,
  at_position cal y c i x ->
  exists y' c' i' x',
    at_position cal y' c' i' x' /\ y <= y' /\
    years_length cal (py_range y y') + days_before cal y' c' + i' =
      days_before cal y c + i + Z.of_nat q.
Proof.
  induction q as [| q IH]; intros y c i x Hpos.
  - exists y, c, i, x. split; [exact Hpos |]. split; [lia |].
    rewrite py_range_empty. cbn. lia.
  - destruct (IH y c i x Hpos) as (y' & c' & i' & x' & Hpos' & Hy & Heq).
    destruct (position_list cal Hreg y' c' i' x' Hpos')
      as [l [Hl [_ [_ [_ [Hlen [_ [Hend _]]]]]]]].
    pose proof Hpos' as [Hc' [Hi' _]].
    destruct (Z_lt_le_dec (i' + 1) (py_len l)) as [Hin | Hlast].
    + destruct (_get_item_in_range l (i' + 1) ltac:(lia)) as [x2 Hx2].
      exists y', c', (i' + 1), x2.
      split; [split; [exact Hc' | split; [lia | exists l; split; assumption]] |].
      split; [lia | lia].
    + destruct (Z_lt_le_dec c' (Calendar_count_cycles_in_year cal y')) as [Hmid | Hend'].
      * destruct (first_day_of_cycle y' (c' + 1) ltac:(lia)) as [f Hf].
        exists y', (c' + 1), 0, f. split; [exact Hf |]. split; [lia |].
        rewrite (before_next cal y' c' l ltac:(lia) Hl). lia.
      * destruct (first_day_of_year (y' + 1)) as [f Hf].
        exists (y' + 1), 1, 0, f. split; [exact Hf |]. split; [lia |].
        rewrite (years_length_next y y' Hy).
        assert (Hb1 : days_before cal (y' + 1) 1 = 0)
          by (unfold days_before; rewrite py_range_empty; reflexivity).
        specialize (Hend ltac:(lia)). lia.
Qed.

(** Two positions at the same distance from a third are the same. *)
Lemma position_by_distance (y c i x k ya ca ia xa yb cb ib xb : Z) :
  at_position cal y c i x -> 0 <= k ->
  at_position cal ya ca ia xa -> y <= ya ->
  years_length cal (py_range y ya) + days_before cal ya ca + ia =
    days_before cal y c + i + k ->
  at_position cal yb cb ib xb -> y <= yb ->
  years_length cal (py_range y yb) + days_before cal yb cb + ib =
    days_before cal y c + i + k ->
  ya = yb /\ ca = cb /\ xa = xb.
Proof.
  intros Hpos Hk Ha Hya Ea Hb Hyb Eb.
  pose proof (add_days_forward (Z.to_nat (k + 2)) y c i x 0 0 0 k ya ca ia xa Hpos Ha Hk Hya Ea
                ltac:(lia)) as Ra.
  pose proof (add_days_forward (Z.to_nat (k + 2)) y c i x 0 0 0 k yb cb ib xb Hpos Hb Hk Hyb Eb
                ltac:(lia)) as Rb.
  rewrite Ra in Rb. injection Rb as -> -> ->. repeat split.
Qed.

Section Carries.

Variables y c i x : Z.
Hypothesis Hpos : at_position cal y c i x.

Local Abbreviation days_ahead := (days_ahead cal y c i).

Lemma days_ahead_zero (y' c' x' : Z) :
  days_ahead 0 y' c' x' -> y' = y /\ c' = c /\ x' = x.
Proof.
  intros (i' & Hpos' & Hy & Heq).
  assert (E0 : years_length cal (py_range y y) + days_before cal y c + i =
               days_before cal y c + i + 0)
    by (rewrite py_range_empty; cbn; lia).
  apply (position_by_distance y c i x 0 y' c' i' x' y c i x); try assumption; lia.
Qed.

Lemma add_days_ahead (fuel : nat) (h m s q y' c' x' : Z) :
  0 <= q -> days_ahead q y' c' x' -> q + 2 <= Z.of_nat fuel ->
  MultiDate_add_days cal fuel (mkTV y c x h m s) q = Ok (mkTV y' c' x' h m s).
Proof.
  intros Hq (i' & Hpos' & Hy & Heq) Hfuel.
  apply (add_days_forward fuel y c i x h m s q y' c' i' x'); assumption.
Qed.

Lemma add_hours_forward (fuel : nat) (h m s a y' c' x' : Z) :
  0 <= h < 24 -> 0 <= a ->
  days_ahead ((h + a) / 24) y' c' x' ->
  (h + a) / 24 + 2 <= Z.of_nat fuel ->
  MultiDate_add_hours cal fuel (mkTV y c x h m s) a =
  Ok (mkTV y' c' x' ((h + a) mod 24) m s).
Proof.
  intros Hh Ha Hahead Hfuel.
  pose proof (Z.div_mod (h + a) 24 ltac:(lia)) as Hdm.
  pose proof (Z.mod_pos_bound (h + a) 24 ltac:(lia)) as Hmod.
  unfold MultiDate_add_hours. cbn [hour].
  replace (a <? - h) with false by (symmetry; apply Z.ltb_ge; lia).
  destruct (Z.leb_spec (24 - h) a) as [Hover | Hno]; cbn [orb b2z].
  - replace (a + h) with (h + a) by lia.
    rewrite (add_days_ahead fuel h m s _ y' c' x') by (try assumption; lia).
    cbn [bind hour set_hour]. rewrite ?(Z.add_comm a h).
    f_equal. unfold set_hour; cbn [year cycle day hour minute second]; f_equal; lia.
  - assert (Hq : (h + a) / 24 = 0) by (apply Z.div_small; lia).
    rewrite Hq in Hahead. destruct (days_ahead_zero _ _ _ Hahead) as (-> & -> & ->).
    cbn [bind hour set_hour]. rewrite ?(Z.add_comm a h).
    f_equal. unfold set_hour; cbn [year cycle day hour minute second].
    rewrite Z.mod_small by lia. f_equal; lia.
Qed.

Lemma add_minutes_forward (fuel : nat) (h m s b y' c' x' : Z) :
  0 <= h < 24 -> 0 <= m < 60 -> 0 <= b ->
  days_ahead ((h + (m + b) / 60) / 24) y' c' x' ->
  (h + (m + b) / 60) / 24 + 2 <= Z.of_nat fuel ->
  MultiDate_add_minutes cal fuel (mkTV y c x h m s) b =
  Ok (mkTV y' c' x' ((h + (m + b) / 60) mod 24) ((m + b) mod 60) s).
Proof.
  intros Hh Hm Hb Hahead Hfuel.
  pose proof (Z.div_mod (m + b) 60 ltac:(lia)) as Hdm.
  pose proof (Z.mod_pos_bound (m + b) 60 ltac:(lia)) as Hmod.
  assert (Hj : 0 <= (m + b) / 60) by (apply Z.div_pos; lia).
  unfold MultiDate_add_minutes. cbn [minute].
  replace (b <? - m) with false by (symmetry; apply Z.ltb_ge; lia).
  destruct (Z.leb_spec (60 - m) b) as [Hover | Hno]; cbn [orb b2z].
  - replace (b + m) with (m + b) by lia.
    rewrite (add_hours_forward fuel h m s _ y' c' x') by (try assumption; lia).
    cbn [bind minute set_minute]. rewrite ?(Z.add_comm b m).
    f_equal. unfold set_minute; cbn [year cycle day hour minute second]; f_equal; lia.
  - assert (Hq : (m + b) / 60 = 0) by (apply Z.div_small; lia).
    rewrite Hq, Z.add_0_r in Hahead. rewrite (Z.div_small h 24) in Hahead by lia.
    destruct (days_ahead_zero _ _ _ Hahead) as (-> & -> & ->).
    cbn [bind minute set_minute]. rewrite ?(Z.add_comm b m).
    unfold set_minute; cbn [year cycle day hour minute second].
    rewrite ?Hq, ?Z.add_0_r, ?(Z.mod_small h 24), ?(Z.mod_small (m + b) 60) by lia.
    f_equal; f_equal; lia.
Qed.

Lemma add_seconds_forward (fuel : nat) (h m s k y' c' x' : Z) :
  0 <= h < 24 -> 0 <= m < 60 -> 0 <= s < 60 -> 0 <= k ->
  days_ahead ((h + (m + (s + k) / 60) / 60) / 24) y' c' x' ->
  (h + (m + (s + k) / 60) / 60) / 24 + 2 <= Z.of_nat fuel ->
  MultiDate_add_seconds cal fuel (mkTV y c x h m s) k =
  Ok (mkTV y' c' x' ((h + (m + (s + k) / 60) / 60) mod 24)
           ((m + (s + k) / 60) mod 60) ((s + k) mod 60)).
Proof.
  intros Hh Hm Hs Hk Hahead Hfuel.
  pose proof (Z.div_mod (s + k) 60 ltac:(lia)) as Hdm.
  pose proof (Z.mod_pos_bound (s + k) 60 ltac:(lia)) as Hmod.
  assert (Hj : 0 <= (s + k) / 60) by (apply Z.div_pos; lia).
  pose proof (Z.mod_pos_bound (m + (s + k) / 60) 60 ltac:(lia)) as Hmod2.
  unfold MultiDate_add_seconds. cbn [second].
  replace (s + k <? 0) with false by (symmetry; apply Z.ltb_ge; lia).
  destruct (Z.leb_spec 60 (s + k)) as [Hover | Hno]; cbn [orb b2z].
  - rewrite (add_minutes_forward fuel h m s _ y' c' x') by (try assumption; lia).
    cbn [bind]. rewrite !Z.mul_1_l, !Z.mul_0_l, !Z.add_0_r.
    replace (s + k + (- (s + k) + (s + k) mod 60)) with ((s + k) mod 60) by lia.
    replace (60 <=? (s + k) mod 60) with false by (symmetry; apply Z.leb_gt; lia).
    rewrite orb_false_r. cbn [b2z].
    rewrite add_minutes_zero by (cbn [minute]; lia). cbn [bind].
    destruct ((s + k) mod 60 <=? 0) eqn:E.
    + apply Z.leb_le in E. unfold set_second; cbn [year cycle day hour minute second]; f_equal; f_equal; lia.
    + reflexivity.
  - assert (Hq : (s + k) / 60 = 0) by (apply Z.div_small; lia).
    rewrite Hq, Z.add_0_r in Hahead. rewrite (Z.div_small m 60), Z.add_0_r in Hahead by lia.
    rewrite (Z.div_small h 24) in Hahead by lia.
    destruct (days_ahead_zero _ _ _ Hahead) as (-> & -> & ->).
    cbn [bind]. rewrite !Z.mul_0_l, !Z.add_0_r.
    replace (60 <=? s + k) with false by (symmetry; apply Z.leb_gt; lia).
    rewrite orb_false_r. cbn [b2z].
    rewrite add_minutes_zero by (cbn [minute]; lia). cbn [bind].
    rewrite ?Hq, ?Z.add_0_r, ?(Z.div_small m 60), ?Z.add_0_r by lia.
    rewrite ?(Z.mod_small h 24), ?(Z.mod_small m 60), ?(Z.mod_small (s + k) 60) by lia.
    destruct (s + k <=? 0) eqn:E.
    + apply Z.leb_le in E. unfold set_second; cbn [year cycle day hour minute second]; f_equal; f_equal; lia.
    + reflexivity.
Qed.

End Carries.

End AddingDays.


Lemma add_steps_days_and_time (cal : Calendar) (fuel : nat) (t delta t1 t2 t3 t4 : TimeVector) :
  valid_date cal t ->
  year delta = 0 -> cycle delta = 0 ->
  MultiDate_add_days cal (S fuel) t (day delta) = Ok t1 ->
  MultiDate_add_hours cal (S fuel) t1 (hour delta) = Ok t2 ->
  MultiDate_add_minutes cal (S fuel) t2 (minute delta) = Ok t3 ->
  MultiDate_add_seconds cal (S fuel) t3 (second delta) = Ok t4 ->
  add_steps cal (S fuel) t delta = Ok t4.
Proof.
  intros Hv Ey Ec H1 H2 H3 H4.
  destruct (valid_date_facts cal t Hv) as [Hc _].
  unfold add_steps, MultiDate_add_years. rewrite Ey, Ec.
  rewrite Z.add_0_r, set_year_same.
  rewrite add_cycles_zero by exact Hc. cbn [bind].
  rewrite H1. cbn [bind]. rewrite H2. cbn [bind]. rewrite H3. cbn [bind]. exact H4.
Qed.

Lemma years_length_split (cal : Calendar) (a b c : Z) :
  a <= b <= c ->
  years_length cal (py_range a c) =
  years_length cal (py_range a b) + years_length cal (py_range b c).
Proof. intros H. rewrite (py_range_app a b c) by lia. apply years_length_app. Qed.

(** X23: in a regular calendar, adding an interval of days, hours,
    minutes and seconds, none of them negative, gives the date that lies
    that many days and seconds later in the order of the calendar, whatever
    ends of cycles and years lie in between.  With [T] the time of day of
    the date plus the hours, minutes and seconds of the interval, in
    seconds, a date [t'] is the result as soon as its time of day is
    [T mod 86400] and the days of the years from that of [t] up to that of
    [t'], plus the day number of [t'] in its year, make the day number of
    [t] plus the days of the interval plus [T / 86400]. *)
Theorem adding_an_interval_counts_days_and_seconds (cal : Calendar) (fuel : nat)
    (t t' delta : TimeVector) (n n' : Z) :
  calendar_regular cal ->
  valid_date cal t -> valid_date cal t' ->
  MultiDate_day_number_in_year cal t = Ok n ->
  MultiDate_day_number_in_year cal t' = Ok n' ->
  year delta = 0 -> cycle delta = 0 ->
  0 <= day delta -> 0 <= hour delta -> 0 <= minute delta -> 0 <= second delta ->
  year t <= year t' ->
  years_length cal (py_range (year t) (year t')) + n' =
    n + day delta + (time_of_day t + time_of_day delta) / 86400 ->
  time_of_day t' = (time_of_day t + time_of_day delta) mod 86400 ->
  day delta + (time_of_day t + time_of_day delta) / 86400 + 2 <= Z.of_nat fuel ->
  MultiDate__add__ fuel (date_of cal t) delta = Ok (date_of cal t').
Proof.
  intros Hreg Hv Hv' Hn Hn' Ey Ec Hkd Ha Hb Hc0 Hy Hdays Htod Hfuel.
  pose proof (regular_well_formed cal Hreg) as Hwf.
  destruct (valid_date_facts cal t Hv) as [_ [_ [Hh [Hm Hs]]]].
  destruct (valid_date_facts cal t' Hv') as [_ [_ [Hh' [Hm' Hs']]]].
  destruct (valid_date_position cal t Hv) as [i Hpos].
  destruct (valid_date_position cal t' Hv') as [i' Hpos'].
  destruct t as [y c x h m s], t' as [y' c' x' h' m' s'], delta as [dy dc kd a b c0].
  unfold time_of_day in *. cbn [year cycle day hour minute second] in *. subst dy dc.
  rewrite (position_day_number cal Hreg y c i x Hpos h m s) in Hn.
  rewrite (position_day_number cal Hreg y' c' i' x' Hpos' h' m' s') in Hn'.
  injection Hn as <-. injection Hn' as <-.
  (* the carries *)
  set (T := 3600 * h + 60 * m + s + (3600 * a + 60 * b + c0)) in *.
  set (q1 := (h + a) / 24). set (h1 := (h + a) mod 24).
  set (jb := (m + b) / 60). set (m2 := (m + b) mod 60).
  set (q2 := (h1 + jb) / 24). set (h2 := (h1 + jb) mod 24).
  set (jc := (s + c0) / 60). set (s3 := (s + c0) mod 60).
  set (jb2 := (m2 + jc) / 60). set (m3 := (m2 + jc) mod 60).
  set (q3 := (h2 + jb2) / 24). set (h3 := (h2 + jb2) mod 24).
  pose proof (Z.div_mod (h + a) 24 ltac:(lia)) as D1. fold q1 h1 in D1.
  pose proof (Z.mod_pos_bound (h + a) 24 ltac:(lia)) as B1. fold h1 in B1.
  pose proof (Z.div_mod (m + b) 60 ltac:(lia)) as D2. fold jb m2 in D2.
  pose proof (Z.mod_pos_bound (m + b) 60 ltac:(lia)) as B2. fold m2 in B2.
  pose proof (Z.div_mod (h1 + jb) 24 ltac:(lia)) as D3. fold q2 h2 in D3.
  pose proof (Z.mod_pos_bound (h1 + jb) 24 ltac:(lia)) as B3. fold h2 in B3.
  pose proof (Z.div_mod (s + c0) 60 ltac:(lia)) as D4. fold jc s3 in D4.
  pose proof (Z.mod_pos_bound (s + c0) 60 ltac:(lia)) as B4. fold s3 in B4.
  pose proof (Z.div_mod (m2 + jc) 60 ltac:(lia)) as D5. fold jb2 m3 in D5.
  pose proof (Z.mod_pos_bound (m2 + jc) 60 ltac:(lia)) as B5. fold m3 in B5.
  pose proof (Z.div_mod (h2 + jb2) 24 ltac:(lia)) as D6. fold q3 h3 in D6.
  pose proof (Z.mod_pos_bound (h2 + jb2) 24 ltac:(lia)) as B6. fold h3 in B6.
  assert (Hq1 : 0 <= q1) by lia. assert (Hjb : 0 <= jb) by lia.
  assert (Hq2 : 0 <= q2) by lia. assert (Hjc : 0 <= jc) by lia.
  assert (Hjb2 : 0 <= jb2) by lia. assert (Hq3 : 0 <= q3) by lia.
  assert (HT : T = 86400 * (q1 + q2 + q3) + (3600 * h3 + 60 * m3 + s3)) by (unfold T; lia).
  assert (HTq : T / 86400 = q1 + q2 + q3)
    by (symmetry; apply (Z.div_unique T 86400 _ (3600 * h3 + 60 * m3 + s3)); lia).
  assert (HTr : T mod 86400 = 3600 * h3 + 60 * m3 + s3)
    by (symmetry; apply (Z.mod_unique T 86400 (q1 + q2 + q3)); lia).
  rewrite HTq in Hdays, Hfuel. rewrite HTr in Htod.
  assert (h' = h3 /\ m' = m3 /\ s' = s3) as (-> & -> & ->) by lia.
  (* the positions passed through *)
  destruct (position_ahead cal Hreg (Z.to_nat kd) y c i x Hpos)
    as (y1 & c1 & i1 & x1 & P1 & Hy1 & E1). rewrite Z2Nat.id in E1 by lia.
  destruct (position_ahead cal Hreg (Z.to_nat q1) y1 c1 i1 x1 P1)
    as (y2 & c2 & i2 & x2 & P2 & Hy2 & E2). rewrite Z2Nat.id in E2 by lia.
  destruct (position_ahead cal Hreg (Z.to_nat q2) y2 c2 i2 x2 P2)
    as (y3 & c3 & i3 & x3 & P3 & Hy3 & E3). rewrite Z2Nat.id in E3 by lia.
  destruct (position_ahead cal Hreg (Z.to_nat q3) y3 c3 i3 x3 P3)
    as (y4 & c4 & i4 & x4 & P4 & Hy4 & E4). rewrite Z2Nat.id in E4 by lia.
  pose proof (years_length_split cal y y1 y2 ltac:(lia)) as S2.
  pose proof (years_length_split cal y y2 y3 ltac:(lia)) as S3.
  pose proof (years_length_split cal y y3 y4 ltac:(lia)) as S4.
  destruct (position_by_distance cal Hreg y c i x (kd + q1 + q2 + q3)
              y4 c4 i4 x4 y' c' i' x' Hpos ltac:(lia) P4 ltac:(lia) ltac:(lia)
              Hpos' Hy ltac:(lia)) as (-> & -> & ->).
  destruct fuel as [| fuel]; [lia |].
  apply MultiDate__add__steps; [exact Hv |].
  apply (add_steps_days_and_time cal fuel _ _ (mkTV y1 c1 x1 h m s) (mkTV y2 c2 x2 h1 m s)
           (mkTV y3 c3 x3 h2 m2 s)); try reflexivity; try exact Hv;
    cbn [year cycle day hour minute second].
  - apply (add_days_forward cal Hreg (S fuel) y c i x h m s kd y1 c1 i1 x1);
      try assumption; lia.
  - apply (add_hours_forward cal Hreg y1 c1 i1 x1 P1 (S fuel) h m s a y2 c2 x2);
      try assumption; try lia.
    exists i2. split; [exact P2 | split; [exact Hy2 | exact E2]].
  - apply (add_minutes_forward cal Hreg y2 c2 i2 x2 P2 (S fuel) h1 m s b y3 c3 x3);
      try assumption; try lia; fold jb; fold q2; try lia.
    exists i3. split; [exact P3 | split; [exact Hy3 | exact E3]].
  - apply (add_seconds_forward cal Hreg y3 c3 i3 x3 P3 (S fuel) h2 m2 s c0 y' c' x');
      try assumption; try lia; fold jc; fold jb2; fold q3; try lia.
    exists i4. split; [exact P4 | split; [exact Hy4 | exact E4]].
Qed.

Lemma adding_an_interval_counts_days_and_seconds_witness :
  MultiDate__add__ 400 (date_of CalGregorian (mkTV 1999 12 31 18 30 0)) (mkTV 0 0 365 6 0 0)
  = Ok (date_of CalGregorian (mkTV 2000 12 31 0 30 0)).
Proof.
  apply (adding_an_interval_counts_days_and_seconds CalGregorian 400
           (mkTV 1999 12 31 18 30 0) (mkTV 2000 12 31 0 30 0) (mkTV 0 0 365 6 0 0) 365 366).
  - exact gregorian_regular.
  - reflexivity.
  - reflexivity.
  - reflexivity.
  - reflexivity.
  - reflexivity.
  - reflexivity.
  - cbn. lia.
  - cbn. lia.
  - cbn. lia.
  - cbn. lia.
  - cbn. lia.
  - vm_compute. reflexivity.
  - vm_compute. reflexivity.
  - vm_compute. discriminate.
Defined.


(** ** The dates of a regular sample *)

Lemma MultiDate__eq__date_of (cal : Calendar) (a b : TimeVector) :
  MultiDate__eq__ (date_of cal a) (date_of cal b) = tv_eqb a b.
Proof.
  unfold MultiDate__eq__, date_of, _CollectionTime_eq. cbn [times calendars data mask].
  rewrite Calendar_eq_refl. replace (mask_eqb nomask nomask) with true by reflexivity.
  destruct (tv_eqb a b); reflexivity.
Qed.

Lemma tv_eqb_eq (a b : TimeVector) : tv_eqb a b = true -> a = b.
Proof.
  destruct a as [y c d h m s], b as [y' c' d' h' m' s'].
  unfold tv_eqb. cbn [year cycle day hour minute second]. intros H.
  repeat (apply andb_prop in H; destruct H as [H ?]).
  repeat match goal with E : (_ =? _) = true |- _ => apply Z.eqb_eq in E end.
  congruence.
Qed.

Lemma MultiDate_init_nomask (cal : Calendar) (r : TimeVector) (d : MultiDate) :
  MultiDate_init (mkMA r nomask) cal = Ok d -> d = date_of cal r.
Proof.
  unfold MultiDate_init. cbn [data mask gap nomask mask_year mask_cycle mask_day mask_hour
                              mask_minute mask_second andb orb negb].
  intros H.
  destruct (negative_value r _); [discriminate |].
  destruct (days_in_cycle cal _ _); cbn [bind] in H; try discriminate.
  destruct (_ || _); [discriminate |].
  destruct (_index _ _); try discriminate.
  destruct (24 <=? _); [discriminate |].
  destruct (60 <=? _); [discriminate |].
  destruct (60 <=? _); [discriminate |].
  injection H as <-. destruct r. reflexivity.
Qed.

Lemma MultiDate__add__shape (cal : Calendar) (fuel : nat) (t delta : TimeVector)
    (d : MultiDate) :
  MultiDate__add__ fuel (date_of cal t) delta = Ok d -> exists t', d = date_of cal t'.
Proof.
  unfold MultiDate__add__, date_of. cbn [times calendars]. intros H.
  apply bind_Ok in H. destruct H as [new [Hinit H]].
  apply MultiDate_init_nomask in Hinit. subst new.
  apply bind_Ok in H. destruct H as [t' [_ H]]. injection H as <-.
  exists t'. reflexivity.
Qed.

Lemma TimeSeries_Ok (cal : Calendar) (rows : list TimeVector) : forall out,
  TimeSeries rows cal = Ok out -> out = rows.
Proof.
  induction rows as [| r rest IH]; intros out H.
  - injection H as <-. reflexivity.
  - cbn [TimeSeries] in H. apply bind_Ok in H. destruct H as [d [Hd H]].
    apply bind_Ok in H. destruct H as [ds [Hds H]]. injection H as <-.
    apply MultiDate_init_nomask in Hd. subst d. rewrite (IH ds Hds). reflexivity.
Qed.

Section Sampling.

Variable cal : Calendar.
Variables t0 t1 : TimeVector.
Hypothesis H1 : valid_date cal t1.
Variable ro : bool.
Variable deltat : TimeVector.
Variable fuel : nat.

Local Abbreviation within r :=
  (lexicographic true (tv_list r) (tv_list t1) = true /\ (ro = true -> r <> t1)).

Lemma sample_loop_steps (self : Period) :
  right_open self = ro ->
  forall (n : nat) (next : TimeVector) (rows out : list TimeVector),
    regular_sample_loop fuel n self deltat (date_of cal t1) (date_of cal next) rows = Ok out ->
    exists added,
      out = (rows ++ added)%list /\
      match added with
      | [] => True
      | a :: rest => a = next /\ stepped fuel cal deltat a rest
      end /\
      Forall (fun r => within r) added.
Proof.
  intros Hro. induction n as [| n IH]; intros next rows out H; [discriminate |].
  cbn [regular_sample_loop] in H. unfold MultiDate__le__ in H.
  rewrite (MultiDate_compare_valid cal le_chain next t1 H1) in H. cbn [bind value] in H.
  rewrite MultiDate__eq__date_of, Hro in H.
  destruct (le_chain next t1) eqn:Hle.
  - destruct (ro && tv_eqb next t1) eqn:Hstop.
    + injection H as <-. exists []. rewrite app_nil_r.
      split; [reflexivity |]. split; [exact I | constructor].
    + apply bind_Ok in H. destruct H as [d [Hadd Hloop]].
      destruct (MultiDate__add__shape cal fuel next deltat d Hadd) as [nxt ->].
      destruct (IH nxt _ out Hloop) as [added [-> [Hstep Hall]]].
      exists (next :: added). split; [rewrite <- app_assoc; reflexivity |]. split.
      * split; [reflexivity |].
        destruct added as [| a rest]; [exact I |].
        destruct Hstep as [-> Hrest]. split; assumption.
      * constructor; [| exact Hall]. split.
        -- rewrite <- le_chain_lexicographic. exact Hle.
        -- intros -> ->. rewrite tv_eqb_refl in Hstop. discriminate Hstop.
  - injection H as <-. exists []. rewrite app_nil_r.
    split; [reflexivity |]. split; [exact I | constructor].
Qed.

End Sampling.

(** X24: what a regular sample is made of.  For a period closed on the
    left, the time series that [regular_sample] returns begins with the
    initial date, each of its dates is the one before it plus the step, and
    none of them is after the final date, nor equal to it when the period
    is open on the right. *)
Theorem a_sample_steps_within_the_period (cal : Calendar) (t0 t1 deltat : TimeVector)
    (ro : bool) (fuel : nat) (rows : list TimeVector) :
  valid_date cal t0 -> valid_date cal t1 ->
  regular_sample fuel (mkPeriod (mkMA t0 nomask) (mkMA t1 nomask) false ro cal) deltat None
    = Ok (Some rows) ->
  exists rest,
    rows = t0 :: rest /\
    stepped fuel cal deltat t0 rest /\
    Forall (fun r => lexicographic true (tv_list r) (tv_list t1) = true /\
                     (ro = true -> r <> t1)) rows.
Proof.
  intros H0 H1 H.
  unfold regular_sample, initial_date, final_date in H.
  cbn [initial final period_calendar left_open right_open] in H.
  rewrite (valid_date_init cal t0 H0), (valid_date_init cal t1 H1) in H. cbn [bind] in H.
  fold (date_of cal t0) in H. fold (date_of cal t1) in H.
  assert (Hfirst : (if ro then ge_chain t0 t1 else gt_chain t0 t1) = false /\
                   exists d rows0 series,
                     MultiDate__add__ fuel (date_of cal t0) deltat = Ok d /\
                     regular_sample_loop fuel fuel
                       (mkPeriod (mkMA t0 nomask) (mkMA t1 nomask) false ro cal) deltat
                       (date_of cal t1) d [t0] = Ok rows0 /\
                     TimeSeries rows0 cal = Ok series /\ rows = series).
  { destruct ro; unfold MultiDate__ge__, MultiDate__gt__ in H;
      rewrite (MultiDate_compare_valid cal _ t0 t1 H1) in H; cbn [bind value] in H;
      match type of H with (if ?c then _ else _) = _ => destruct c eqn:Hc end;
      try discriminate H; (split; [reflexivity |]);
      cbn [date_of times data] in H; fold (date_of cal t0) in H;
      apply bind_Ok in H; destruct H as [d [Hadd H]];
      apply bind_Ok in H; destruct H as [rows0 [Hloop H]];
      apply bind_Ok in H; destruct H as [series [Hts H]];
      injection H as <-; exists d, rows0, series; repeat split; assumption. }
  destruct Hfirst as [Hcmp (d & rows0 & series & Hadd & Hloop & Hts & ->)].
  apply TimeSeries_Ok in Hts. subst series.
  destruct (MultiDate__add__shape cal fuel t0 deltat d Hadd) as [nxt ->].
  destruct (sample_loop_steps cal t1 H1 ro deltat fuel
              (mkPeriod (mkMA t0 nomask) (mkMA t1 nomask) false ro cal) eq_refl
              fuel nxt [t0] rows0 Hloop)
    as [added [-> [Hstep Hall]]].
  exists added. split; [reflexivity |]. split.
  - destruct added as [| a rest]; [exact I |].
    destruct Hstep as [-> Hrest]. split; assumption.
  - cbn [app]. constructor; [| exact Hall]. split.
    + destruct ro.
      * destruct (not_ge_chain t0 t1 Hcmp) as [Hle _].
        rewrite <- le_chain_lexicographic. exact Hle.
      * rewrite gt_chain_lexicographic, lexicographic_flip in Hcmp.
        apply negb_false_iff in Hcmp. exact Hcmp.
    + intros -> ->. destruct (not_ge_chain t1 t1 Hcmp) as [_ [_ Hne]].
      rewrite tv_eqb_refl in Hne. discriminate Hne.
Qed.

Lemma a_sample_steps_within_the_period_witness :
  exists rest,
    [mkTV 1979 1 1 0 0 0; mkTV 1979 1 1 3 0 0] = mkTV 1979 1 1 0 0 0 :: rest /\
    stepped 5 CalGregorian (mkTV 0 0 0 3 0 0) (mkTV 1979 1 1 0 0 0) rest /\
    Forall (fun r => lexicographic true (tv_list r) (tv_list (mkTV 1979 1 1 6 0 0)) = true /\
                     (true = true -> r <> mkTV 1979 1 1 6 0 0))
           [mkTV 1979 1 1 0 0 0; mkTV 1979 1 1 3 0 0].
Proof.
  apply (a_sample_steps_within_the_period CalGregorian (mkTV 1979 1 1 0 0 0)
           (mkTV 1979 1 1 6 0 0) (mkTV 0 0 0 3 0 0) true 5).
  - reflexivity.
  - reflexivity.
  - vm_compute. reflexivity.
Defined.


(** ** What the constructor refuses *)

Lemma Date_with_year (cal : Calendar) (y : Z) (rest : list (option Z)) (d : MultiDate) :
  Date (Some y :: rest) cal = Ok d -> mask_year (mask (times d)) = false.
Proof.
  intros Hd. unfold Date in Hd. apply bind_Ok in Hd. destruct Hd as [t0 [Ht0 Hinit]].
  destruct (MultiDate_init_calendars t0 cal d Hinit) as [_ ->].
  unfold _CollectionTime_init, _conversion_to_ma in Ht0.
  cbn [map length] in Ht0.
  destruct rest as [| c [| dd [| h [| m [| s [| z r]]]]]]; cbn in Ht0;
    try discriminate Ht0; injection Ht0 as <-; reflexivity.
Qed.

(** X25: the constructor is idempotent: building a date again from the
    time vector and the calendar of a date that was accepted (from a list
    beginning with a year) gives the same object. *)
Theorem building_a_date_again_changes_nothing (cal : Calendar) (y : Z)
    (rest : list (option Z)) (d : MultiDate) :
  calendar_well_formed cal ->
  Date (Some y :: rest) cal = Ok d ->
  MultiDate_init (times d) (calendars d) = Ok d.
Proof.
  intros Hwf Hd.
  destruct (Date_year_set _ cal d Hwf Hd (Date_with_year cal y rest d Hd)) as [E Hv].
  rewrite E. cbn [date_of times calendars]. apply valid_date_init. exact Hv.
Qed.

Lemma building_a_date_again_changes_nothing_witness :
  MultiDate_init (times (date_of CalGregorian (mkTV 2010 2 1 0 0 0)))
                 (calendars (date_of CalGregorian (mkTV 2010 2 1 0 0 0)))
  = Ok (date_of CalGregorian (mkTV 2010 2 1 0 0 0)).
Proof.
  apply (building_a_date_again_changes_nothing CalGregorian 2010 [Some 2]).
  - exact gregorian_well_formed.
  - vm_compute. reflexivity.
Defined.

(** X26: on a day of the calendar, the constructor accepts exactly the
    times of day within 0..23, 0..59 and 0..59: a negative hour, minute or
    second raises [TimelyError] ("Negative value in date."), an hour of 24
    or more, a minute or a second of 60 or more raise [TimelyError] with the
    message that names the slot, and everything else is stored as given. *)
Theorem the_time_of_day_is_checked (cal : Calendar) (y c i x h m s : Z) :
  calendar_regular cal ->
  at_position cal y c i x ->
  Date (nums [y; c; x; h; m; s]) cal =
    if (h <? 0) || (m <? 0) || (s <? 0) then Raise (TimelyError "Negative value in date.")
    else if 24 <=? h then Raise (TimelyError "Invalid hour value.")
    else if 60 <=? m then Raise (TimelyError "Invalid minute value.")
    else if 60 <=? s then Raise (TimelyError "Invalid second value.")
    else Ok (date_of cal (mkTV y c x h m s)).
Proof.
  intros Hreg Hpos.
  destruct (position_list cal Hreg y c i x Hpos) as [l [Hl [_ [Hidx [Hx0 _]]]]].
  destruct Hpos as [Hc _].
  unfold Date. cbn [nums map _conversion_to_ma length repeat app Nat.sub
                    _CollectionTime_init bind].
  unfold MultiDate_init, negative_value.
  cbn [data mask gap mask_year mask_cycle mask_day mask_hour mask_minute
       mask_second andb orb negb year cycle day hour minute second set_cycle set_day
       set_hour set_minute set_second].
  replace (c <? 0) with false by (symmetry; apply Z.ltb_ge; lia).
  replace (x <? 0) with false by (symmetry; apply Z.ltb_ge; lia).
  cbn [orb].
  destruct ((h <? 0) || (m <? 0) || (s <? 0)); [reflexivity |].
  rewrite Hl. cbn [bind].
  replace (c <? 1) with false by (symmetry; apply Z.ltb_ge; lia).
  replace (Calendar_count_cycles_in_year cal y <? c) with false
    by (symmetry; apply Z.ltb_ge; lia).
  cbn [orb]. rewrite Hidx.
  destruct (24 <=? h); [reflexivity |].
  destruct (60 <=? m); [reflexivity |].
  destruct (60 <=? s); reflexivity.
Qed.

Lemma the_time_of_day_is_checked_witness :
  Date (nums [2001; 6; 15; 24; 0; 0]) CalGregorian =
    if (24 <? 0) || (0 <? 0) || (0 <? 0) then Raise (TimelyError "Negative value in date.")
    else if 24 <=? 24 then Raise (TimelyError "Invalid hour value.")
    else if 60 <=? 0 then Raise (TimelyError "Invalid minute value.")
    else if 60 <=? 0 then Raise (TimelyError "Invalid second value.")
    else Ok (date_of CalGregorian (mkTV 2001 6 15 24 0 0)).
Proof.
  apply (the_time_of_day_is_checked CalGregorian 2001 6 14 15 24 0 0).
  - exact gregorian_regular.
  - split; [vm_compute; split; discriminate |]. split; [lia |].
    eexists. split; reflexivity.
Defined.



